(** * FinancialTrackerApp: the spreadsheet-backed finance tracker of app.py

    A shallow embedding of the data layer of [app.py]: the worksheet store
    with its read cache, the find-or-append writers, the normalisation of the
    three tables, and the dashboard aggregations (date filter, month list,
    per-category sums, budget comparison, goal progress).

    Conventions of the embedding.
    - Amounts are exact rationals [Q].  The value of the goal percentage
      depends on the rounding of binary floats and is modelled in binary64
      arithmetic ([Binary64.goalProgress_f64]).  The other figures, and the
      range of the goal percentage, are computed exactly, and their
      properties are stated so that rounding does not affect them.
    - A worksheet cell read through [get_all_records] is either text or a
      number (gspread turns numeric-looking text into numbers).
    - The remote spreadsheets are a finite map from (spreadsheet, tab) to a
      worksheet; the [st.cache_data] cache of [load_sheet_dataframe] is a
      finite map from the call's arguments to the cached frame.  Expiry of
      an entry by age only removes the entry; it is a step of [Session] and
      of nothing else.
    - A row or cell written with [append_row] or [update] is stored as it
      was sent.  What the sheet and gspread later return for a value that
      was sent (typed text may come back as a number) is the parameter
      [entered] of the properties that read a written cell back.
    - Calls into pandas that parse text (dates, numbers, the rendering of a
      number as text) are parameters of the sections that need them.
    - Credentials and the client of [get_gspread_client] are outside the
      model: a tab that cannot be opened stops the run. *)

From Stdlib Require Import QArith Qminmax Qround Qabs Qpower Lqa Ascii String OrderedTypeEx.
From stdpp Require Import gmap strings list sorting.

Open Scope string_scope.
#[local] Set Warnings "-clear-no-such-hyp".

(** ** Cells, worksheets and data frames *)

Module Sheet.

(** A value as [get_all_records] hands it over: text, or a number. *)
Inductive cell :=
| CStr (s : string)
| CNum (q : Q).

(** The blank cell: gspread's [default_blank]. *)
Definition blank : cell := CStr "".

(** A tab of a spreadsheet: line 1 holds the header, the lines below it
    the data rows.  Data row [i] (from 0) is line [i + 2] in A1 notation. *)
Record worksheet := mkWorksheet {
  ws_header : list string;
  ws_body : list (list cell) }.

(** A frame: column labels and rows, over the kind of value [C] it holds
    (raw cells as loaded, typed values once normalised). *)
Record DataFrame (C : Type) := mkDataFrame {
  df_columns : list string;
  df_data : list (list C) }.
Arguments mkDataFrame {C} _ _.
Arguments df_columns {C} _.
Arguments df_data {C} _.

(** [pd.DataFrame(sheet.get_all_records())]: one record per data row,
    keyed by the header.  Without records the frame has no columns. *)
Definition records_frame (ws : worksheet) : DataFrame cell :=
  match ws_body ws with
  | [] => mkDataFrame [] []
  | _ :: _ => mkDataFrame (ws_header ws) (ws_body ws)
  end.

(** [df.empty]: some axis has length 0. *)
Definition df_empty {C} (df : DataFrame C) : bool :=
  match df_columns df, df_data df with
  | _ :: _, _ :: _ => false
  | _, _ => true
  end.

(** [pd.DataFrame(columns=cols)] *)
Definition empty_frame {C} (cols : list string) : DataFrame C := mkDataFrame cols [].

Definition column_index (name : string) (cols : list string) : option nat :=
  fst <$> list_find (λ c, c = name) cols.

Definition row_cell (k : nat) (r : list cell) : cell := default blank (r !! k).

(** [df[name]]; [None] is pandas' [KeyError]. *)
Definition df_getitem (df : DataFrame cell) (name : string) : option (list cell) :=
  match column_index name (df_columns df) with
  | Some k => Some (row_cell k <$> df_data df)
  | None => None
  end.

(** Writing position [n] of a list that may be too short: the missing
    positions are filled with [d], as a sheet fills with blank lines and
    blank cells. *)
Fixpoint set_nth_pad {A} (d : A) (n : nat) (f : A → A) (l : list A) : list A :=
  match n, l with
  | 0, [] => [f d]
  | 0, x :: l' => f x :: l'
  | S n', [] => d :: set_nth_pad d n' f []
  | S n', x :: l' => x :: set_nth_pad d n' f l'
  end.

(** [ws.update(<col><line>, v)] for a single cell; [col] counts from 0
    (B is 1), [line] is the A1 line number.  Line 1 is the header; the
    writers below only address lines from 2 on. *)
Definition ws_update (col line : nat) (v : cell) (ws : worksheet) : worksheet :=
  match line with
  | S (S i) =>
      mkWorksheet (ws_header ws)
        (set_nth_pad [] i (set_nth_pad blank col (λ _, v)) (ws_body ws))
  | _ => ws
  end.

(** [ws.append_row(values)] *)
Definition ws_append_row (values : list cell) (ws : worksheet) : worksheet :=
  mkWorksheet (ws_header ws) (ws_body ws ++ [values]).

End Sheet.
Export Sheet.

(** ** The store, its cache, and the monad of a script run *)

Module Store.

Definition SHEET_NAME : string := "Richman Finance Tracker".
Definition TRANSACTIONS_SHEET : string := "Transactions".
Definition BUDGETS_SHEET : string := "Budgets".
Definition GOALS_SHEET : string := "Goals".

(** The choices of the sidebar's spreadsheet selector. *)
Definition spreadsheet_choices : list string :=
  ["Richman Finance Tracker"; "Another Spreadsheet"].

(** Remote: (spreadsheet name, tab name) to worksheet.
    Cache: (sheet_name, spreadsheet_name), the arguments of
    [load_sheet_dataframe], to the frame it returned.  The worksheet
    handle returned along with the frame is the key itself. *)
Record state := mkState {
  remote : gmap (string * string) worksheet;
  cache : gmap (string * string) (DataFrame cell) }.

Inductive exn := KeyError | IndexError | ParseError | WorksheetNotFound.

Inductive outcome (A : Type) :=
| Done (a : A)
| Stopped            (* st.error(...); st.stop() *)
| Raised (e : exn).
Arguments Done {A} a.
Arguments Stopped {A}.
Arguments Raised {A} e.

Definition M (A : Type) : Type := state → outcome A * state.

Definition ret {A} (a : A) : M A := λ s, (Done a, s).
Definition bind {A B} (m : M A) (k : A → M B) : M B :=
  λ s, match m s with
       | (Done a, s') => k a s'
       | (Stopped, s') => (Stopped, s')
       | (Raised e, s') => (Raised e, s')
       end.
Definition raise {A} (e : exn) : M A := λ s, (Raised e, s).
Definition stop {A} : M A := λ s, (Stopped, s).

Declare Scope run_scope.
Delimit Scope run_scope with run.
Notation "'let*' x ':=' m 'in' k" := (bind m (λ x, k))
  (at level 10, x pattern, m at level 100, k at level 200) : run_scope.
Notation "m ';;' k" := (bind m (λ _, k))
  (at level 100, k at level 200, right associativity) : run_scope.
Open Scope run_scope.

(** A worksheet handle: the spreadsheet and the tab it points at. *)
Abbreviation handle := (string * string)%type.

(** [load_sheet_dataframe(sheet_name, spreadsheet_name)] under
    [st.cache_data]: a cached call returns the stored frame; otherwise the
    tab is opened (a tab that cannot be opened stops the run), read, and
    the result stored. *)
Definition load_sheet_dataframe (sheet_name spreadsheet_name : string)
  : M (DataFrame cell * handle) :=
  λ s, match cache s !! (sheet_name, spreadsheet_name) with
       | Some df => (Done (df, (spreadsheet_name, sheet_name)), s)
       | None =>
           match remote s !! (spreadsheet_name, sheet_name) with
           | None => (Stopped, s)
           | Some ws =>
               let df := records_frame ws in
               (Done (df, (spreadsheet_name, sheet_name)),
                mkState (remote s)
                        (<[(sheet_name, spreadsheet_name) := df]> (cache s)))
           end
       end.

(** [load_sheet_dataframe.clear()] *)
Definition cache_clear : M unit := λ s, (Done (), mkState (remote s) ∅).

(** A write through a handle acts on the remote tab as it is now. *)
Definition ws_write (h : handle) (f : worksheet → worksheet) : M unit :=
  λ s, match remote s !! h with
       | Some ws => (Done (), mkState (<[h := f ws]> (remote s)) (cache s))
       | None => (Raised WorksheetNotFound, s)
       end.

Definition lift_option {A} (e : exn) (o : option A) : M A :=
  match o with Some a => ret a | None => raise e end.

Definition append_transaction (row_values : list cell) (spreadsheet_name : string)
  : M unit :=
  let* (_, ws) := load_sheet_dataframe TRANSACTIONS_SHEET spreadsheet_name in
  ws_write ws (ws_append_row row_values).

Section Writers.
(** [astype(str)] on a number: Python's rendering of the number. *)
Variable num_str : Q → string.

Definition astype_str (c : cell) : string :=
  match c with
  | CStr s => s
  | CNum q => num_str q
  end.

(** [df.index[keys == key][0]] *)
Definition first_index (key : string) (keys : list string) : option nat :=
  fst <$> list_find (λ k, k = key) keys.

Definition update_budget_row (category : string) (amount : Q)
    (spreadsheet_name : string) : M unit :=
  let* (df, ws) := load_sheet_dataframe BUDGETS_SHEET spreadsheet_name in
  let* col := lift_option KeyError (df_getitem df "Category") in
  let keys := astype_str <$> col in
  if decide (category ∈ keys) then
    let* i := lift_option IndexError (first_index category keys) in
    let idx := i + 2 in
    ws_write ws (ws_update 1 idx (CNum amount))
  else
    ws_write ws (ws_append_row [CStr category; CNum amount]).

Definition update_goal_row (goal_name : string) (target current : Q)
    (spreadsheet_name : string) : M unit :=
  let* (df, ws) := load_sheet_dataframe GOALS_SHEET spreadsheet_name in
  let* col := lift_option KeyError (df_getitem df "Goal Name") in
  let keys := astype_str <$> col in
  if decide (goal_name ∈ keys) then
    let* i := lift_option IndexError (first_index goal_name keys) in
    let idx := i + 2 in
    ws_write ws (ws_update 1 idx (CNum target));;
    ws_write ws (ws_update 2 idx (CNum current))
  else
    ws_write ws (ws_append_row [CStr goal_name; CNum target; CNum current]).

(** The three submit handlers (the branch taken once the form is
    submitted); [new_cat] and [goal_name] are the stripped inputs. *)
Definition add_expense_submit (row : list cell) : M unit :=
  append_transaction row SHEET_NAME;;
  cache_clear.

Definition budget_submit (new_cat : string) (new_budget_amt : Q) : M unit :=
  if decide (new_cat = "") then ret ()  (* st.warning *)
  else update_budget_row new_cat new_budget_amt SHEET_NAME;;
       cache_clear.

Definition goal_submit (goal_name : string) (target_amt current_amt : Q) : M unit :=
  if decide (goal_name = "") then ret ()
  else update_goal_row goal_name target_amt current_amt SHEET_NAME;;
       cache_clear.

(** The loads at the top of the script, run again by
    [st.experimental_rerun()], for the spreadsheet chosen in the sidebar. *)
Definition load_data (spreadsheet_name : string)
  : M (DataFrame cell * DataFrame cell * DataFrame cell) :=
  let* (transactions_df, _) := load_sheet_dataframe TRANSACTIONS_SHEET spreadsheet_name in
  let* (budgets_df, _) := load_sheet_dataframe BUDGETS_SHEET spreadsheet_name in
  let* (goals_df, _) := load_sheet_dataframe GOALS_SHEET spreadsheet_name in
  ret (transactions_df, budgets_df, goals_df).
End Writers.

(** Row of the add-expense form: [str(date_in)], category, description,
    [float(amount_in)], method, notes, payer. *)
Definition expense_row (date_in category_in desc_in : string) (amount_in : Q)
    (method_in notes_in payer_in : string) : list cell :=
  [CStr date_in; CStr category_in; CStr desc_in; CNum amount_in;
   CStr method_in; CStr notes_in; CStr payer_in].

End Store.

(** ** Normalisation of the loaded frames *)

Module Normalizer.
Import Store.

(** A pandas timestamp: a calendar date and a time of day. *)
Record Timestamp := mkTimestamp {
  ts_year : Z; ts_month : Z; ts_day : Z;
  ts_time : Z (* time of day, in the parser's unit *) }.

(** Values of a normalised frame: an untouched cell, a float, a
    timestamp, or the null timestamp. *)
Inductive value :=
| VCell (c : cell)
| VFloat (q : Q)
| VTime (t : Timestamp)
| VNaT.

Definition transactions_empty_columns : list string :=
  ["Date"; "Category"; "Description"; "Amount"; "Payment Method"; "Notes"].
Definition budgets_empty_columns : list string :=
  ["Category"; "Monthly Budget"].
Definition goals_empty_columns : list string :=
  ["Goal Name"; "Target Amount"; "Current Saved"].

(** A raw row seen as a row of values, before any column is converted. *)
Definition untouched (r : list cell) : list value := VCell <$> r.

(** [df[name] = new], row by row on column [k]. *)
Definition set_column (k : nat) (new : list value) (rows : list (list value))
  : list (list value) :=
  zip_with (λ r v, set_nth_pad (VCell blank) k (λ _, v) r) rows new.

Section Parsers.
(** The text parsers of pandas.  [parse_datetime s = None]: the text is
    no date and [to_datetime] raises.  [number_datetime]: a numeric cell
    read as an offset from the epoch ([None]: out of bounds).
    [parse_number s = None]: the text is no number. *)
Variable parse_datetime : string → option Timestamp.
Variable number_datetime : Q → option Timestamp.
Variable parse_number : string → option Q.

(** [pd.to_datetime] on one element, [errors="raise"]: empty text is a
    missing value and becomes [NaT]; other text goes to the parser. *)
Definition to_datetime_cell (c : cell) : option value :=
  match c with
  | CStr s => if decide (s = "") then Some VNaT else VTime <$> parse_datetime s
  | CNum q => VTime <$> number_datetime q
  end.

(** [pd.to_numeric(..., errors="coerce")] then [.fillna(0.0)] on one
    element: what does not parse is NaN, and NaN is replaced by 0. *)
Definition to_numeric_fillna (c : cell) : Q :=
  match c with
  | CNum q => q
  | CStr s => default 0%Q (parse_number s)
  end.

Definition numeric_column (k : nat) (raw : list (list cell))
    (rows : list (list value)) : list (list value) :=
  set_column k ((λ r, VFloat (to_numeric_fillna (row_cell k r))) <$> raw) rows.

Definition normalize_transactions (df : DataFrame cell) : outcome (DataFrame value) :=
  if df_empty df then Done (empty_frame transactions_empty_columns)
  else
    match column_index "Date" (df_columns df) with
    | None => Raised KeyError
    | Some kd =>
        match mapM (M := option) (λ r, to_datetime_cell (row_cell kd r)) (df_data df) with
        | None => Raised ParseError
        | Some dates =>
            match column_index "Amount" (df_columns df) with
            | None => Raised KeyError
            | Some ka =>
                Done (mkDataFrame (df_columns df)
                        (numeric_column ka (df_data df)
                           (set_column kd dates (untouched <$> df_data df))))
            end
        end
    end.

Definition normalize_budgets (df : DataFrame cell) : outcome (DataFrame value) :=
  if df_empty df then Done (empty_frame budgets_empty_columns)
  else
    match column_index "Monthly Budget" (df_columns df) with
    | None => Raised KeyError
    | Some kb =>
        Done (mkDataFrame (df_columns df)
                (numeric_column kb (df_data df) (untouched <$> df_data df)))
    end.

Definition normalize_goals (df : DataFrame cell) : outcome (DataFrame value) :=
  if df_empty df then Done (empty_frame goals_empty_columns)
  else
    match column_index "Target Amount" (df_columns df) with
    | None => Raised KeyError
    | Some kt =>
        match column_index "Current Saved" (df_columns df) with
        | None => Raised KeyError
        | Some kc =>
            Done (mkDataFrame (df_columns df)
                    (numeric_column kc (df_data df)
                       (numeric_column kt (df_data df) (untouched <$> df_data df))))
        end
    end.
End Parsers.

End Normalizer.

(** ** The dashboard aggregations *)

Module Aggregator.
Import Normalizer.

(** Rows of the normalised tables, read by column name.  [Date] is [None]
    for the null timestamp. *)
Record Transaction := mkTransaction {
  Date : option Timestamp;
  Category : string;
  Description : string;
  Amount : Q;
  PaymentMethod : string;
  Notes : string;
  Payer : string }.

Record BudgetEntry := mkBudgetEntry {
  bCategory : string;
  MonthlyBudget : Q }.

Record GoalEntry := mkGoalEntry {
  GoalName : string;
  TargetAmount : Q;
  CurrentSaved : Q }.

(** [datetime.date]; ordered as the tuple (year, month, day). *)
Record date := mkDate { d_year : Z; d_month : Z; d_day : Z }.

Definition date_compare (a b : date) : comparison :=
  match Z.compare (d_year a) (d_year b) with
  | Eq => match Z.compare (d_month a) (d_month b) with
          | Eq => Z.compare (d_day a) (d_day b)
          | c => c
          end
  | c => c
  end.

Definition date_le (a b : date) : bool :=
  match date_compare a b with Gt => false | _ => true end.

(** [.dt.date]: the calendar date of a timestamp, its time of day dropped. *)
Definition dt_date (t : Timestamp) : date :=
  mkDate (ts_year t) (ts_month t) (ts_day t).

(** Elementwise comparison of the [.dt.date] column with a date; a null
    entry compares false. *)
Definition col_ge (d : option Timestamp) (start_date : date) : bool :=
  match d with Some t => date_le start_date (dt_date t) | None => false end.
Definition col_le (d : option Timestamp) (end_date : date) : bool :=
  match d with Some t => date_le (dt_date t) end_date | None => false end.

(** [df.loc[mask]] *)
Fixpoint loc {A} (rows : list A) (mask : list bool) : list A :=
  match rows, mask with
  | r :: rows', b :: mask' => if b then r :: loc rows' mask' else loc rows' mask'
  | _, _ => []
  end.

Definition date_mask (transactions : list Transaction) (start_date end_date : date)
  : list bool :=
  (λ t, col_ge (Date t) start_date && col_le (Date t) end_date) <$> transactions.

Definition filterByDateRange (transactions : list Transaction)
    (start_date end_date : date) : list Transaction :=
  loc transactions (date_mask transactions start_date end_date).

(** *** Month keys *)

(** The character of the last decimal digit of [n]. *)
Definition digit (n : Z) : ascii := ascii_of_N (Z.to_N (48 + n mod 10)).

(** [str(Period(..., "M"))]: four digits of year, a dash, two of month. *)
Definition month_key (y m : Z) : string :=
  String (digit (y / 1000)) (String (digit (y / 100)) (String (digit (y / 10))
    (String (digit y) (String "-" (String (digit (m / 10)) (String (digit m) "")))))).

Definition period_str (d : option Timestamp) : string :=
  match d with
  | Some t => month_key (ts_year t) (ts_month t)
  | None => "NaT"
  end.

Definition str_le (a b : string) : Prop := String.leb a b = true.
#[global] Instance str_le_dec a b : Decision (str_le a b).
Proof. unfold str_le. apply _. Defined.

(** [Series.sort_values()] on text: ascending, by code point. *)
Definition sort_values (l : list string) : list string := merge_sort str_le l.

(** [Series.unique()]: first occurrences, in order of appearance. *)
Fixpoint unique_from (seen l : list string) : list string :=
  match l with
  | [] => []
  | x :: l' => if decide (x ∈ seen) then unique_from seen l'
               else x :: unique_from (x :: seen) l'
  end.
Definition unique (l : list string) : list string := unique_from [] l.

Definition months (df_filtered : list Transaction) : list string :=
  unique (sort_values ((λ t, period_str (Date t)) <$> df_filtered)).

(** The selector's default: [index = len(months) - 1]. *)
Definition default_month (ms : list string) : option string :=
  ms !! (length ms - 1).

Definition df_month (df_filtered : list Transaction) (selected_month : string)
  : list Transaction :=
  loc df_filtered
    ((λ t, bool_decide (period_str (Date t) = selected_month)) <$> df_filtered).

(** The whole partition: each listed month with its rows. *)
Definition partitionByMonth (df_filtered : list Transaction)
  : list (string * list Transaction) :=
  (λ k, (k, df_month df_filtered k)) <$> months df_filtered.

(** *** Sums per category *)

Definition sum_amounts (rows : list Transaction) : Q :=
  foldr Qplus 0%Q (Amount <$> rows).

(** [groupby("Category")["Amount"].sum().reset_index()]: one line per
    category, categories ascending. *)
Definition groupby_sum (rows : list Transaction) : list (string * Q) :=
  (λ c, (c, sum_amounts (loc rows ((λ t, bool_decide (Category t = c)) <$> rows))))
    <$> unique (sort_values (Category <$> rows)).

Definition amount_ge (a b : string * Q) : Prop := Qle_bool (snd b) (snd a) = true.
#[global] Instance amount_ge_dec a b : Decision (amount_ge a b).
Proof. unfold amount_ge. apply _. Defined.

(** [cat_summary]: the sums, largest first. *)
Definition sumByCategory (df_month : list Transaction) : list (string * Q) :=
  merge_sort amount_ge (groupby_sum df_month).

(** *** Budget comparison *)

Record MergedRow := mkMergedRow {
  mCategory : string;
  Spent : Q;
  Budget : Q;
  UsedPct : Q }.

(** [pd.merge(left, right, on="Category", how="right")]: for each line of
    the right table, in its order, one line per matching line of the left
    table, or a single line with a missing amount when there is none. *)
Definition merge_right (left : list (string * Q)) (right : list BudgetEntry)
  : list (string * option Q * Q) :=
  b ← right;
  match loc left ((λ l, bool_decide (fst l = bCategory b)) <$> left) with
  | [] => [(bCategory b, None, MonthlyBudget b)]
  | ms => (λ l, (bCategory b, Some (snd l), MonthlyBudget b)) <$> ms
  end.

Definition Qlt_bool (a b : Q) : bool := negb (Qle_bool b a).

(** Python's [min(a, b)]: [b] when [b < a], else [a]. *)
Definition py_min (a b : Q) : Q := if Qlt_bool b a then b else a.

Definition used_pct (spent budget : Q) : Q :=
  if Qeq_bool budget 0 then 0%Q else py_min 100 (spent / budget * 100).

Definition budgetComparison (cat_summary : list (string * Q))
    (budgets_df : list BudgetEntry) : list MergedRow :=
  (λ '(c, a, b),
     let spent := default 0%Q a in   (* fillna(0) *)
     mkMergedRow c spent b (used_pct spent b))
    <$> merge_right cat_summary budgets_df.

(** *** Goal progress *)

(** [int(x)]: truncation toward zero. *)
Definition py_int (x : Q) : Z := Z.quot (Qnum x) (Zpos (Qden x)).

(** Division of Python floats: a zero divisor raises [ZeroDivisionError],
    here [None]. *)
Definition float_div (a b : Q) : option Q :=
  if Qeq_bool b 0 then None else Some (a / b)%Q.

(** [pct] of the goals loop; [None] would be an exception. *)
Definition goalProgress (g : GoalEntry) : option Z :=
  let target := TargetAmount g in
  let current := CurrentSaved g in
  x ← (if Qlt_bool 0 target then (λ d, d * 100)%Q <$> float_div current target
       else Some 0%Q);
  Some (py_int (py_min 100 x)).

End Aggregator.

(** ** The wording of the specification, for comparison with the code *)

Module Spec.
Import Store Normalizer Aggregator.

(** Calendar order of two dates, spelled out. *)
Definition on_or_before (a b : date) : Prop :=
  (d_year a < d_year b)%Z ∨
  (d_year a = d_year b ∧
   ((d_month a < d_month b)%Z ∨ (d_month a = d_month b ∧ (d_day a ≤ d_day b)%Z))).

(** The transaction has a calendar date, and it lies in [start, end]. *)
Definition in_range (start_date end_date : date) (t : Transaction) : Prop :=
  match Date t with
  | Some ts => on_or_before start_date (dt_date ts) ∧ on_or_before (dt_date ts) end_date
  | None => False
  end.

(** The transaction is dated [d], whatever its time of day. *)
Definition dated (d : date) (t : Transaction) : Prop :=
  match Date t with
  | Some ts => dt_date ts = d
  | None => False
  end.

#[global] Instance date_eq_dec : EqDecision date.
Proof. solve_decision. Defined.

#[global] Instance on_or_before_dec a b : Decision (on_or_before a b).
Proof. unfold on_or_before. apply _. Defined.

#[global] Instance in_range_dec s e t : Decision (in_range s e t).
Proof. unfold in_range. destruct (Date t); apply _. Defined.

#[global] Instance dated_dec d t : Decision (dated d t).
Proof. unfold dated. destruct (Date t); apply _. Defined.

(** Chronological order of two (year, month) pairs. *)
Definition month_before (a b : Z * Z) : Prop :=
  (a.1 < b.1)%Z ∨ (a.1 = b.1 ∧ (a.2 < b.2)%Z).

(** The upper clamp at 100 of a ratio in percent. *)
Definition clamp_pct (num den : Q) : Q := Qmin 100 (num / den * 100).

(** Rounding toward zero. *)
Definition truncate (x : Q) : Z :=
  if Qle_bool 0 x then Qfloor x else Qceiling x.

(** The total of a category among some rows. *)
Definition category_total (rows : list Transaction) (c : string) : Q :=
  sum_amounts (filter (λ t, Category t = c) rows).

(** The line of the comparison that belongs to a line of the Budgets
    table: its category, the month's total of that category, its budget,
    and the percentage used. *)
Definition comparison_row (rows : list Transaction) (b : BudgetEntry) : MergedRow :=
  let spent := category_total rows (bCategory b) in
  mkMergedRow (bCategory b) spent (MonthlyBudget b) (used_pct spent (MonthlyBudget b)).

(** Lexicographic order of text, strict. *)
Definition str_lt (a b : string) : Prop := String.ltb a b = true.

(** The transaction carries a date of the calendar: a year of one to four
    digits and a month from 1 to 12. *)
Definition dated_in_calendar (t : Transaction) : Prop :=
  match Date t with
  | Some ts => (1 ≤ ts_year ts ≤ 9999)%Z ∧ (1 ≤ ts_month ts ≤ 12)%Z
  | None => False
  end.

Definition year_month (t : Transaction) : Z * Z :=
  match Date t with
  | Some ts => (ts_year ts, ts_month ts)
  | None => (0, 0)%Z
  end.

Definition is_digit (c : ascii) : Prop := (48 ≤ N_of_ascii c ≤ 57)%N.

(** The shape "YYYY-MM". *)
Definition yyyy_mm (k : string) : Prop :=
  match k with
  | String y1 (String y2 (String y3 (String y4 (String sep
      (String m1 (String m2 EmptyString)))))) =>
      is_digit y1 ∧ is_digit y2 ∧ is_digit y3 ∧ is_digit y4
      ∧ sep = "-"%char ∧ is_digit m1 ∧ is_digit m2
  | _ => False
  end.

(** *** The store *)

(** Every cached frame is what a fresh read of its tab would give. *)
Definition cache_coherent (s : state) : Prop :=
  ∀ sheet_name spreadsheet_name df,
    cache s !! (sheet_name, spreadsheet_name) = Some df →
    ∃ ws, remote s !! (spreadsheet_name, sheet_name) = Some ws
          ∧ df = records_frame ws.

(** The keys of a tab: column [k] of its data rows, as text. *)
Definition key_column (num_str : Q → string) (k : nat) (ws : worksheet)
  : list string :=
  astype_str num_str <$> (row_cell k <$> ws_body ws).

(** [i] is the lowest row index whose key is [key]. *)
Definition first_match (keys : list string) (key : string) (i : nat) : Prop :=
  keys !! i = Some key ∧ ∀ j, (j < i)%nat → keys !! j ≠ Some key.

(** [body'] is [body] with row [i] overwritten in the columns of [cols],
    and nothing else changed: same number of rows, every other row the
    same, every other cell of row [i] the same. *)
Definition updated_in_place (cols : list (nat * cell)) (i : nat)
    (body body' : list (list cell)) : Prop :=
  length body' = length body
  ∧ (∀ j, j ≠ i → body' !! j = body !! j)
  ∧ ∃ r r', body !! i = Some r ∧ body' !! i = Some r'
            ∧ (∀ c v, (c, v) ∈ cols → row_cell c r' = v)
            ∧ (∀ c, c ∉ cols.*1 → row_cell c r' = row_cell c r).

(** The header of the three tabs. *)
Definition transactions_schema : list string :=
  ["Date"; "Category"; "Description"; "Amount"; "Payment Method"; "Notes"; "Payer"].
Definition budgets_schema : list string := ["Category"; "Monthly Budget"].
Definition goals_schema : list string := ["Goal Name"; "Target Amount"; "Current Saved"].

(** The Budgets tab after an upsert: the amount overwritten on the first
    row of the category, or a new row at the end. *)
Definition upserted (num_str : Q → string) (category : string) (amount : Q)
    (ws : worksheet) : worksheet :=
  match first_index category (key_column num_str 0 ws) with
  | Some i => ws_update 1 (i + 2) (CNum amount) ws
  | None => ws_append_row [CStr category; CNum amount] ws
  end.

(** *** Normalised rows *)

(** The value in column [k] of a normalised row. *)
Definition row_value (k : nat) (r : list value) : value :=
  default (VCell blank) (r !! k).

(** Row [r'] is the raw row [r] with the columns of [cols] converted and
    every other column as it was. *)
Definition row_converted (cols : list (nat * value)) (r : list cell)
    (r' : list value) : Prop :=
  (∀ k v, (k, v) ∈ cols → row_value k r' = v)
  ∧ (∀ j, j ∉ cols.*1 → row_value j r' = VCell (row_cell j r)).

(** A write step that fails has left the cache coherent: it failed before
    it wrote. *)
Definition fails_clean (m : M ()) : Prop :=
  ∀ s, cache_coherent s →
    match m s with
    | (Done _, _) => True
    | (_, s') => cache_coherent s'
    end.

End Spec.


(** ** The pages: sidebar defaults, expense form, dashboard, goals *)

Module Dashboard.
Import Store Normalizer Aggregator.

(** [today.replace(day=1) - relativedelta(months=0)], the default start
    date of the sidebar: the first day of today's month.  The default end
    date is [today]. *)
Definition default_start (today : date) : date :=
  mkDate (d_year today) (d_month today) 1.






(** What the dashboard tab shows: one of its two notices, or the summary
    of the selected month.  [months[len(months) - 1]] is the selector's
    default; the list is empty exactly when that index does not exist. *)
Inductive dashboard_view :=
| NoTransactionsYet
| NoTransactionsInRange
| MonthView (selected_month : string) (df_month : list Transaction).

Definition dashboard (transactions_df : list Transaction)
    (start_date end_date : date) : dashboard_view :=
  match transactions_df with
  | [] => NoTransactionsYet
  | _ :: _ =>
      let df_filtered := filterByDateRange transactions_df start_date end_date in
      match default_month (months df_filtered) with
      | None => NoTransactionsInRange
      | Some selected_month => MonthView selected_month (df_month df_filtered selected_month)
      end
  end.


Definition row_pct (r : MergedRow) : Z := py_int (UsedPct r).


(** [st.progress(pct)] accepts an integer from 0 to 100 and raises on any
    other. *)
Definition progress_accepts (pct : Z) : bool := ((0 <=? pct) && (pct <=? 100))%Z.

End Dashboard.

(** ** Further wording, for the properties of the pages and the writers *)

Module Wording.
Import Store Normalizer Aggregator Spec.

(** The sum of a list of amounts. *)
Definition sum_list (l : list Q) : Q := foldr Qplus 0%Q l.

(** No transaction has a negative amount; no budget is negative. *)
Definition amounts_nonneg (rows : list Transaction) : Prop :=
  Forall (λ t, 0 <= Amount t)%Q rows.
Definition budgets_nonneg (budgets : list BudgetEntry) : Prop :=
  Forall (λ b, 0 <= MonthlyBudget b)%Q budgets.

(** The transaction is dated in the month of [today], on or before its day. *)
Definition in_month_to_date (today : date) (t : Transaction) : Prop :=
  match Date t with
  | Some ts => ts_year ts = d_year today ∧ ts_month ts = d_month today
               ∧ (1 ≤ ts_day ts ≤ d_day today)%Z
  | None => False
  end.

(** The Goals tab after an upsert: target and saved amount overwritten on
    the first row of the goal, or a new row at the end. *)
Definition upserted_goal (num_str : Q → string) (goal_name : string)
    (target current : Q) (ws : worksheet) : worksheet :=
  match first_index goal_name (key_column num_str 0 ws) with
  | Some i => ws_update 2 (i + 2) (CNum current) (ws_update 1 (i + 2) (CNum target) ws)
  | None => ws_append_row [CStr goal_name; CNum target; CNum current] ws
  end.

(** What the sheet hands back.  [entered c] is what [get_all_records]
    later returns for a value [c] that a writer sent: typed text may come
    back as a number ("007" as 7), or as other text.  A cell is kept when
    it comes back as it was sent; a row is kept when all its positions are,
    the blank ones beyond its end included; a tab is as read when all its
    rows are kept, that is, when it holds what [get_all_records]
    returns. *)
Definition kept (entered : cell → cell) (c : cell) : Prop := entered c = c.

Definition row_kept (entered : cell → cell) (r : list cell) : Prop :=
  ∀ k, kept entered (row_cell k r).

Definition as_read (entered : cell → cell) (ws : worksheet) : Prop :=
  ∀ r, r ∈ ws_body ws → row_kept entered r.


End Wording.

(** ** A session of the app *)

(** What happens to the store and the cache while the app is used: a tab
    is loaded, a cache entry expires ([ttl=60]), or one of the three forms
    is submitted. *)

Module Session.
Import Store.

Inductive event : Type :=
| Load (sheet_name spreadsheet_name : string)
| Expire (sheet_name spreadsheet_name : string)
| SubmitExpense (row : list cell)
| SubmitBudget (new_cat : string) (amount : Q)
| SubmitGoal (goal_name : string) (target current : Q).

Section Run.
Variable num_str : Q → string.

Definition run_event (e : event) (s : state) : state :=
  match e with
  | Load sheet_name spreadsheet_name =>
      (load_sheet_dataframe sheet_name spreadsheet_name s).2
  | Expire sheet_name spreadsheet_name =>
      mkState (remote s) (delete (sheet_name, spreadsheet_name) (cache s))
  | SubmitExpense row => (add_expense_submit row s).2
  | SubmitBudget new_cat amount => (budget_submit num_str new_cat amount s).2
  | SubmitGoal goal_name target current =>
      (goal_submit num_str goal_name target current s).2
  end.

Definition run_events (es : list event) (s : state) : state :=
  foldl (λ s e, run_event e s) s es.

End Run.
End Session.

(** ** Binary64 arithmetic *)

(** Python floats as the rationals they denote, with rounding to the
    nearest binary64 number after every operation.  The amounts of a row
    are finite, so that NaN does not occur in the expressions modelled
    here; an infinity can, as the result of an overflow. *)

Module Binary64.
Import Aggregator.

(** [2^e], for an exponent of either sign. *)
Definition pow2 (e : Z) : Q := (2 ^ e)%Q.

(** Rounding to the nearest integer, a tie going to the even one. *)
Definition rne (x : Q) : Z :=
  let f := Qfloor x in
  match (x - inject_Z f ?= 1 # 2)%Q with
  | Lt => f
  | Gt => (f + 1)%Z
  | Eq => if Z.even f then f else (f + 1)%Z
  end.

(** The integer [k] with [2^k <= x < 2^(k+1)], for a positive [x]. *)
Definition ilog2 (x : Q) : Z :=
  let k := (Z.log2 (Qnum x) - Z.log2 (Zpos (Qden x)))%Z in
  if Qle_bool (pow2 k) x then k else (k - 1)%Z.

(** The exponent of the last place of a binary64 number near [x]: 53
    significant bits, and no exponent below that of the subnormals. *)
Definition ulp_exp (x : Q) : Z := Z.max (ilog2 (Qabs x) - 52) (-1074).

(** [x] rounded to 53 bits, before the check for overflow; the result is
    in lowest terms. *)
Definition round_unbounded (x : Q) : Q :=
  Qred (inject_Z (rne (x / pow2 (ulp_exp x))) * pow2 (ulp_exp x)).

(** A Python float that is not NaN: a finite binary64 number, or an
    infinity. *)
Inductive float :=
| FNum (q : Q)
| FInf (negative : bool).

(** The binary64 number nearest to [x] (ties to even); an infinity when
    the rounded magnitude reaches [2^1024]. *)
Definition round64 (x : Q) : float :=
  if Qeq_bool x 0 then FNum 0
  else
    let r := round_unbounded x in
    if Qle_bool (pow2 1024) (Qabs r) then FInf (Qlt_bool x 0) else FNum r.

(** [x] is a binary64 number: rounding returns it. *)
Definition is_binary64 (x : Q) : bool :=
  match round64 x with
  | FNum r => Qeq_bool r x
  | FInf _ => false
  end.

Definition binary64 (x : Q) : Prop := is_binary64 x = true.

Inductive py_error := ZeroDivisionError | OverflowError.

(** [float(x)] on a number: the nearest binary64 number; a number too
    large for a float raises [OverflowError]. *)
Definition float_of (x : Q) : py_error + Q :=
  match round64 x with
  | FNum r => inr r
  | FInf _ => inl OverflowError
  end.

(** [a / b] on two finite floats. *)
Definition f64_div (a b : Q) : py_error + float :=
  if Qeq_bool b 0 then inl ZeroDivisionError else inr (round64 (a / b)).

(** [x * 100] *)
Definition times_100 (x : float) : float :=
  match x with
  | FNum q => round64 (q * 100)
  | FInf s => FInf s
  end.

(** [min(100, x)]: [x] when [x < 100], else 100. *)
Definition min_100 (x : float) : float :=
  match x with
  | FNum q => if Qlt_bool q 100 then FNum q else FNum 100
  | FInf true => FInf true
  | FInf false => FNum 100
  end.

(** [int(x)]: truncation toward zero; an infinity raises
    [OverflowError]. *)
Definition to_int (x : float) : py_error + Z :=
  match x with
  | FNum q => inr (py_int q)
  | FInf _ => inl OverflowError
  end.

(** The goals loop for one row: [target = float(...)],
    [current = float(...)], then
    [pct = int(min(100, (current/target*100) if target > 0 else 0))], in
    binary64 arithmetic. *)
Definition goalProgress_f64 (g : GoalEntry) : py_error + Z :=
  match float_of (TargetAmount g) with
  | inl e => inl e
  | inr target =>
      match float_of (CurrentSaved g) with
      | inl e => inl e
      | inr current =>
          match (if Qlt_bool 0 target
                 then match f64_div current target with
                      | inl e => inl e
                      | inr d => inr (times_100 d)
                      end
                 else inr (FNum 0)) with
          | inl e => inl e
          | inr x => to_int (min_100 x)
          end
      end
  end.

End Binary64.

(** * Properties *)

Import Store Normalizer Aggregator Spec Dashboard Wording Session Binary64.

(** ** Arithmetic of the percentages *)

Lemma Qlt_bool_iff (a b : Q) : Qlt_bool a b = true ↔ (a < b)%Q.
Proof.
  unfold Qlt_bool. rewrite negb_true_iff. split.
  - intros H. apply Qnot_le_lt. intros Hle. apply Qle_bool_iff in Hle. congruence.
  - intros H. destruct (Qle_bool b a) eqn:E; [|done].
    apply Qle_bool_iff in E. exfalso. exact (Qlt_not_le _ _ H E).
Qed.

Lemma Qlt_bool_false (a b : Q) : Qlt_bool a b = false ↔ (b <= a)%Q.
Proof.
  unfold Qlt_bool. rewrite negb_false_iff. apply Qle_bool_iff.
Qed.

(** Python's two-argument [min] is the minimum of the rationals. *)
Lemma py_min_Qmin (a b : Q) : py_min a b = Qmin a b.
Proof.
  unfold py_min, Qmin, GenericMinMax.gmin.
  destruct (Qlt_bool b a) eqn:E.
  - apply Qlt_bool_iff in E. apply Qgt_alt in E. by rewrite E.
  - apply Qlt_bool_false in E. destruct (Qcompare_spec a b) as [H|H|H]; try done.
    exfalso. exact (Qlt_not_le _ _ H E).
Qed.

Lemma py_min_le_l (a b : Q) : (py_min a b <= a)%Q.
Proof. rewrite py_min_Qmin. apply Q.le_min_l. Qed.

Lemma py_min_nonneg (a b : Q) : (0 <= a)%Q → (0 <= b)%Q → (0 <= py_min a b)%Q.
Proof. intros Ha Hb. unfold py_min. by destruct (Qlt_bool b a). Qed.

Lemma used_pct_le_100 (spent budget : Q) : (used_pct spent budget <= 100)%Q.
Proof.
  unfold used_pct. destruct (Qeq_bool budget 0); [done | apply py_min_le_l].
Qed.

Lemma used_pct_nonneg (spent budget : Q) :
  (0 <= spent)%Q → (0 <= budget)%Q → (0 <= used_pct spent budget)%Q.
Proof.
  intros Hs Hb. unfold used_pct. destruct (Qeq_bool budget 0) eqn:E; [done|].
  apply Qeq_bool_neq in E.
  apply py_min_nonneg; [done|].
  apply Qmult_le_0_compat; [|done].
  apply Qle_shift_div_l.
  - apply Qle_lteq in Hb as [Hb|Hb]; [done|]. exfalso. apply E. by symmetry.
  - by rewrite Qmult_0_l.
Qed.

(** ** Row selection by a mask *)

Lemma loc_mask_filter {A} (f : A → bool) (P : A → Prop) `{!∀ x, Decision (P x)}
    (l : list A) :
  (∀ x, f x = true ↔ P x) →
  loc l (f <$> l) = filter P l.
Proof.
  intros Hf. induction l as [|x l IH]; [done|].
  cbn [fmap list_fmap loc]. rewrite filter_cons, IH.
  destruct (f x) eqn:E, (decide (P x)) as [HP|HP]; try done.
  - exfalso. apply HP, Hf, E.
  - apply Hf in HP. congruence.
Qed.

Lemma loc_bool_decide {A} (P : A → Prop) `{!∀ x, Decision (P x)} (l : list A) :
  loc l ((λ x, bool_decide (P x)) <$> l) = filter P l.
Proof. apply loc_mask_filter. intros x. apply bool_decide_eq_true. Qed.

(** ** Date range filter *)

Lemma date_le_on_or_before (a b : date) : date_le a b = true ↔ on_or_before a b.
Proof.
  unfold date_le, date_compare, on_or_before.
  destruct (Z.compare_spec (d_year a) (d_year b));
    destruct (Z.compare_spec (d_month a) (d_month b));
    destruct (Z.compare_spec (d_day a) (d_day b));
    split; (done || lia).
Qed.

Lemma date_le_antisym (a b : date) : date_le a b = true → date_le b a = true → a = b.
Proof.
  rewrite !date_le_on_or_before. unfold on_or_before.
  destruct a, b; simpl. intros H1 H2. f_equal; lia.
Qed.

Lemma date_le_refl (a : date) : date_le a a = true.
Proof. apply date_le_on_or_before. unfold on_or_before. lia. Qed.

(** C5: the date filter keeps exactly the transactions whose calendar date
    lies between the start and the end date, both ends included, in their
    order and with their multiplicity; the time of day plays no role, and a
    filter from [d] to [d] keeps exactly the transactions dated [d]. *)
Theorem filterByDateRange_exact (transactions : list Transaction)
    (start_date end_date : date) :
  filterByDateRange transactions start_date end_date
    = filter (in_range start_date end_date) transactions
  ∧ ∀ d, filterByDateRange transactions d d = filter (dated d) transactions.
Proof.
  split; [|intros d]; unfold filterByDateRange, date_mask; apply loc_mask_filter;
    intros t; unfold in_range, dated, col_ge, col_le; destruct (Date t) as [ts|];
    simpl; rewrite ?andb_true_iff; try (split; [discriminate | tauto]).
  - by rewrite !date_le_on_or_before.
  - split.
    + intros [H1 H2]. symmetry. by apply date_le_antisym.
    + intros <-. split; apply date_le_refl.
Qed.

(** ** Goal progress *)

Lemma py_int_truncate (x : Q) : py_int x = truncate x.
Proof.
  unfold py_int, truncate, Qle_bool, Qceiling, Qfloor. destruct x as [n d].
  cbn [Qnum Qden Qopp]. rewrite Z.mul_1_r. change (0 * Z.pos d)%Z with 0%Z.
  destruct (Z.leb_spec 0 n) as [Hn|Hn].
  - apply Z.quot_div_nonneg; lia.
  - rewrite <- (Z.opp_involutive n) at 1. rewrite Z.quot_opp_l by lia.
    f_equal. apply Z.quot_div_nonneg; lia.
Qed.

Lemma goalProgress_no_target (g : GoalEntry) :
  (TargetAmount g <= 0)%Q → goalProgress g = Some 0%Z.
Proof.
  intros H. unfold goalProgress. apply Qlt_bool_false in H. by rewrite H.
Qed.

Lemma goalProgress_with_target (g : GoalEntry) :
  (0 < TargetAmount g)%Q →
  goalProgress g = Some (truncate (clamp_pct (CurrentSaved g) (TargetAmount g))).
Proof.
  intros H. unfold goalProgress, clamp_pct.
  assert (Qeq_bool (TargetAmount g) 0 = false) as Hz.
  { destruct (Qeq_bool (TargetAmount g) 0) eqn:E; [|done].
    apply Qeq_bool_iff in E. rewrite E in H. by apply Qlt_irrefl in H. }
  apply Qlt_bool_iff in H. rewrite H. unfold float_div. rewrite Hz. simpl.
  by rewrite py_int_truncate, py_min_Qmin.
Qed.

(** *** Binary64 rounding *)

(** The rounding on known values: the double nearest to 0.1; ties go to
    the even neighbour ([2^53 + 1] down, [2^53 + 3] up); half the smallest
    subnormal rounds to 0 and three halves of it to twice it; the largest
    double is [2^1024 - 2^971], and the midpoint between it and [2^1024]
    already rounds to infinity. *)
Lemma round64_examples :
  round64 (1 # 10) = FNum (3602879701896397 # 36028797018963968)
  ∧ round64 9007199254740993 = FNum 9007199254740992
  ∧ round64 9007199254740995 = FNum 9007199254740996
  ∧ round64 (- (9007199254740993 # 1)) = FNum (- (9007199254740992 # 1))
  ∧ round64 (pow2 (-1075)) = FNum 0
  ∧ round64 (3 * pow2 (-1075)) = FNum (Qred (pow2 (-1073)))
  ∧ round64 (pow2 1024 - pow2 971) = FNum (Qred (pow2 1024 - pow2 971))
  ∧ round64 (pow2 1024 - pow2 970 - 1) = FNum (Qred (pow2 1024 - pow2 971))
  ∧ round64 (pow2 1024 - pow2 970) = FInf false
  ∧ round64 (- (pow2 1024 - pow2 970)) = FInf true.
Proof. repeat split; by vm_compute. Qed.

Lemma pow2_pos (e : Z) : (0 < pow2 e)%Q.
Proof. apply Qpower_0_lt. reflexivity. Qed.

Lemma pow2_plus (a b : Z) : (pow2 (a + b) == pow2 a * pow2 b)%Q.
Proof. apply Qpower_plus. discriminate. Qed.

Lemma pow2_le (a b : Z) : (a ≤ b)%Z → (pow2 a <= pow2 b)%Q.
Proof. intros H. apply Qpower_le_compat_l; [done|]. unfold Qle. simpl. lia. Qed.

Lemma pow2_inject (a : Z) : (0 ≤ a)%Z → (inject_Z (2 ^ a) == pow2 a)%Q.
Proof. intros H. unfold pow2. by rewrite Zpower_Qpower. Qed.

Lemma rne_close (x : Q) :
  (x - (1 # 2) <= inject_Z (rne x) <= x + (1 # 2))%Q.
Proof.
  unfold rne. pose proof (Qfloor_le x) as Hlo. pose proof (Qlt_floor x) as Hhi.
  rewrite inject_Z_plus in Hhi. change (inject_Z 1) with 1%Q in Hhi.
  destruct (Qcompare_spec (x - inject_Z (Qfloor x)) (1 # 2)) as [H|H|H].
  - destruct (Z.even (Qfloor x)).
    + lra.
    + rewrite inject_Z_plus. change (inject_Z 1) with 1%Q. lra.
  - lra.
  - rewrite inject_Z_plus. change (inject_Z 1) with 1%Q. lra.
Qed.

Lemma rne_nonneg (x : Q) : (0 <= x)%Q → (0 <= inject_Z (rne x))%Q.
Proof.
  intros Hx.
  assert (0 ≤ Qfloor x)%Z as Hf.
  { change 0%Z with (Qfloor 0). by apply Qfloor_resp_le. }
  assert (0 ≤ rne x)%Z as Hr.
  { unfold rne. destruct (_ ?= _)%Q; [destruct (Z.even _)|..]; lia. }
  change 0%Q with (inject_Z 0). by rewrite <- Zle_Qle.
Qed.

Lemma ilog2_spec (x : Q) :
  (0 < x)%Q → (pow2 (ilog2 x) <= x < pow2 (ilog2 x + 1))%Q.
Proof.
  intros Hx. destruct x as [n d].
  assert (0 < n)%Z as Hn by (unfold Qlt in Hx; simpl in Hx; lia).
  unfold ilog2. cbn [Qnum Qden].
  set (a := Z.log2 n). set (b := Z.log2 (Z.pos d)).
  assert (0 ≤ a)%Z as Ha by apply Z.log2_nonneg.
  assert (0 ≤ b)%Z as Hb by apply Z.log2_nonneg.
  destruct (Z.log2_spec n Hn) as [Hn1 Hn2]. fold a in Hn1, Hn2.
  destruct (Z.log2_spec (Z.pos d) eq_refl) as [Hd1 Hd2]. fold b in Hd1, Hd2.
  rewrite <- Z.add_1_r in Hn2, Hd2.
  rewrite Zle_Qle in Hn1, Hd1. rewrite Zlt_Qlt in Hn2, Hd2.
  rewrite pow2_inject in Hn1, Hn2, Hd1, Hd2 by lia.
  pose proof (pow2_plus (a - b) b) as E1. replace (a - b + b)%Z with a in E1 by lia.
  pose proof (pow2_plus (a - b - 1) (b + 1)) as E2.
  replace (a - b - 1 + (b + 1))%Z with a in E2 by lia.
  pose proof (pow2_plus (a - b + 1) b) as E3.
  replace (a - b + 1 + b)%Z with (a + 1)%Z in E3 by lia.
  assert ((n # d) * inject_Z (Z.pos d) == inject_Z n)%Q as Hnd.
  { unfold Qeq, Qmult, inject_Z. simpl. lia. }
  pose proof (pow2_pos (a - b)) as P1. pose proof (pow2_pos (a - b - 1)) as P2.
  pose proof (pow2_pos (a - b + 1)) as P3. pose proof (pow2_pos b) as P4.
  pose proof (pow2_pos (b + 1)) as P5.
  destruct (Qle_bool (pow2 (a - b)) (n # d)) eqn:E.
  - apply Qle_bool_iff in E. split; [done|].
    apply Qnot_le_lt. intros Hc.
    assert (pow2 (a - b + 1) * pow2 b <= (n # d) * inject_Z (Z.pos d))%Q as Hm.
    { apply Qmult_le_compat_nonneg; split; [by apply Qlt_le_weak|done..|by apply Qlt_le_weak|done]. }
    rewrite Hnd, <- E3 in Hm. lra.
  - replace (a - b - 1 + 1)%Z with (a - b)%Z by lia.
    assert (n # d < pow2 (a - b))%Q as E'.
    { apply Qnot_le_lt. intros Hc. apply Qle_bool_iff in Hc. congruence. }
    split; [|done].
    apply Qnot_lt_le. intros Hc.
    assert ((n # d) * inject_Z (Z.pos d) <= pow2 (a - b - 1) * pow2 (b + 1))%Q as Hm.
    { apply Qmult_le_compat_nonneg; split; [by apply Qlt_le_weak..|lra| by apply Qlt_le_weak]. }
    rewrite Hnd, <- E2 in Hm.
    assert ((n # d) * inject_Z (Z.pos d) < pow2 (a - b - 1) * pow2 (b + 1))%Q as Hm2.
    { apply Qle_lt_trans with ((n # d) * pow2 (b + 1))%Q.
      - apply Qmult_le_l; [done | by apply Qlt_le_weak].
      - apply Qmult_lt_compat_r; done. }
    rewrite Hnd, <- E2 in Hm2. lra.
Qed.

Lemma Qabs_of_nonneg (x : Q) : (0 <= x)%Q → Qabs x = x.
Proof.
  destruct x as [n d]. unfold Qle. simpl. intros H. unfold Qabs.
  f_equal. lia.
Qed.

(** The unit roundoff of binary64, [2^-53]. *)
#[local] Abbreviation eps64 := (1 # 9007199254740992)%Q.

Lemma pow2_53 : (pow2 53 == 9007199254740992)%Q.
Proof. reflexivity. Qed.

Lemma round_unbounded_close (x : Q) :
  (0 < x)%Q →
  (0 <= round_unbounded x)%Q
  ∧ (x - (x * eps64 + pow2 (-1075)) <= round_unbounded x
     <= x + (x * eps64 + pow2 (-1075)))%Q.
Proof.
  intros Hx. unfold round_unbounded, ulp_exp. rewrite Qred_correct.
  rewrite Qabs_of_nonneg by by apply Qlt_le_weak.
  set (e := Z.max (ilog2 x - 52) (-1074)).
  pose proof (pow2_pos e) as Hp.
  pose proof (rne_close (x / pow2 e)) as [Hlo Hhi].
  assert (0 <= x / pow2 e)%Q as Hz.
  { apply Qle_shift_div_l; [done|]. lra. }
  pose proof (rne_nonneg _ Hz) as Hm.
  assert (x / pow2 e * pow2 e == x)%Q as Hzp by (field; lra).
  assert (pow2 e <= 2 * (x * eps64 + pow2 (-1075)))%Q as Hulp.
  { destruct (ilog2_spec x Hx) as [Hk _].
    pose proof (pow2_pos (-1075)) as Hs.
    unfold e.
    destruct (Z.max_spec (ilog2 x - 52) (-1074)) as [[_ ->]|[_ ->]].
    - pose proof (pow2_plus (-1075) 1) as E. change (-1075 + 1)%Z with (-1074)%Z in E.
      change (pow2 1) with 2%Q in E. nra.
    - pose proof (pow2_plus (ilog2 x - 52) 53) as E.
      replace (ilog2 x - 52 + 53)%Z with (ilog2 x + 1)%Z in E by lia.
      pose proof (pow2_plus (ilog2 x) 1) as E'. change (pow2 1) with 2%Q in E'.
      rewrite pow2_53 in E. nra. }
  revert Hp Hlo Hhi Hz Hm Hzp Hulp.
  generalize (inject_Z (rne (x / pow2 e))) (x / pow2 e)%Q (pow2 e) (pow2 (-1075)).
  intros m z p s Hp Hlo Hhi Hz Hm Hzp Hulp.
  split; [nra|]. split; nra.
Qed.

Lemma pow2_subnormal_small : (pow2 (-1075) <= 1 # 1024)%Q.
Proof.
  apply Qle_trans with (pow2 (-10)); [by apply pow2_le|].
  unfold Qle. by vm_compute.
Qed.

Lemma pow2_overflow_large : (1024 <= pow2 1024)%Q.
Proof.
  apply Qle_trans with (pow2 10); [|by apply pow2_le].
  unfold Qle. by vm_compute.
Qed.

(** Rounding a number that is not negative: a finite float close to it
    that is not negative either, or plus infinity for a number close to
    [2^1024] or above. *)
Lemma round_nonneg (x : Q) :
  (0 <= x)%Q →
  (∃ r, round64 x = FNum r ∧ (0 <= r)%Q
        ∧ (x - (x * eps64 + pow2 (-1075)) <= r <= x + (x * eps64 + pow2 (-1075)))%Q)
  ∨ (round64 x = FInf false ∧ (pow2 1024 <= x + (x * eps64 + pow2 (-1075)))%Q).
Proof.
  intros Hx. unfold round64. pose proof (pow2_pos (-1075)) as Hs.
  destruct (Qeq_bool x 0) eqn:E.
  - apply Qeq_bool_iff in E. left. exists 0%Q. split; [done|]. split; lra.
  - assert (0 < x)%Q as Hpos.
    { apply Qle_lteq in Hx as [H|H]; [done|]. symmetry in H.
      apply Qeq_bool_iff in H. congruence. }
    destruct (round_unbounded_close x Hpos) as (Hr & Hlo & Hhi).
    rewrite (Qabs_of_nonneg _ Hr).
    destruct (Qle_bool (pow2 1024) (round_unbounded x)) eqn:Eo.
    + apply Qle_bool_iff in Eo. right. split; [|lra].
      f_equal. by apply Qlt_bool_false.
    + left. eauto.
Qed.

Lemma py_int_floor (x : Q) : (0 <= x)%Q → py_int x = Qfloor x.
Proof.
  intros Hx. rewrite py_int_truncate. unfold truncate.
  apply Qle_bool_iff in Hx. by rewrite Hx.
Qed.

Lemma Qfloor_close (a b : Q) : (a < b + 1)%Q → (Qfloor a ≤ Qfloor b + 1)%Z.
Proof.
  intros H. pose proof (Qfloor_le a) as Ha. pose proof (Qlt_floor b) as Hb.
  assert (inject_Z (Qfloor a) < inject_Z (Qfloor b + 1 + 1))%Q as Hlt.
  { rewrite (inject_Z_plus (Qfloor b + 1) 1). change (inject_Z 1) with 1%Q. lra. }
  rewrite <- Zlt_Qlt in Hlt. lia.
Qed.

Lemma py_int_close (a b : Q) :
  (0 <= a)%Q → (0 <= b)%Q → (a < b + 1)%Q → (b < a + 1)%Q →
  (Z.abs (py_int a - py_int b) ≤ 1)%Z.
Proof.
  intros Ha Hb H1 H2. rewrite !py_int_floor by done.
  apply Qfloor_close in H1, H2. lia.
Qed.

Lemma py_int_percent (a : Q) : (0 <= a <= 100)%Q → (0 ≤ py_int a ≤ 100)%Z.
Proof.
  intros [H0 H1]. rewrite py_int_floor by done. split.
  - change 0%Z with (Qfloor 0). by apply Qfloor_resp_le.
  - change 100%Z with (Qfloor 100). by apply Qfloor_resp_le.
Qed.

Lemma min_100_fin (y : Q) : min_100 (FNum y) = FNum (Qmin 100 y).
Proof.
  unfold min_100. destruct (Qlt_bool y 100) eqn:E.
  - f_equal. rewrite <- py_min_Qmin. unfold py_min. by rewrite E.
  - f_equal. rewrite <- py_min_Qmin. unfold py_min. by rewrite E.
Qed.

Lemma ilog2_unique (x : Q) (k : Z) :
  (0 < x)%Q → (pow2 k <= x < pow2 (k + 1))%Q → ilog2 x = k.
Proof.
  intros Hx [Hk1 Hk2]. destruct (ilog2_spec x Hx) as [Hl1 Hl2].
  destruct (Z.lt_trichotomy (ilog2 x) k) as [H|[H|H]]; [|done|].
  - assert (pow2 (ilog2 x + 1) <= pow2 k)%Q by (apply pow2_le; lia). lra.
  - assert (pow2 (k + 1) <= pow2 (ilog2 x))%Q by (apply pow2_le; lia). lra.
Qed.

Lemma ilog2_comp (x y : Q) : (0 < x)%Q → (x == y)%Q → ilog2 x = ilog2 y.
Proof.
  intros Hx Hxy. apply ilog2_unique; [done|]. rewrite Hxy.
  apply ilog2_spec. by rewrite <- Hxy.
Qed.

Lemma rne_comp (x y : Q) : (x == y)%Q → rne x = rne y.
Proof.
  intros H. unfold rne. rewrite (Qfloor_comp _ _ H).
  assert ((x - inject_Z (Qfloor y) ?= 1 # 2) = (y - inject_Z (Qfloor y) ?= 1 # 2))%Q
    as -> by by rewrite H.
  done.
Qed.

Lemma Qabs_pos_of_nonzero (x : Q) : ¬ (x == 0)%Q → (0 < Qabs x)%Q.
Proof.
  destruct x as [n d]. unfold Qabs, Qeq, Qlt. simpl. lia.
Qed.

Lemma round_unbounded_comp (x y : Q) :
  ¬ (x == 0)%Q → (x == y)%Q → round_unbounded x = round_unbounded y.
Proof.
  intros Hx Hxy. unfold round_unbounded, ulp_exp.
  assert (ilog2 (Qabs x) = ilog2 (Qabs y)) as ->.
  { apply ilog2_comp; [by apply Qabs_pos_of_nonzero | by rewrite Hxy]. }
  set (p := pow2 _). apply Qred_complete.
  assert (rne (x / p) = rne (y / p)) as -> by (apply rne_comp; by rewrite Hxy).
  reflexivity.
Qed.

Lemma round64_comp (x y : Q) : (x == y)%Q → round64 x = round64 y.
Proof.
  intros Hxy. unfold round64.
  destruct (Qeq_bool x 0) eqn:Ex, (Qeq_bool y 0) eqn:Ey; [done|..].
  - apply Qeq_bool_iff in Ex. rewrite Hxy in Ex. apply Qeq_bool_iff in Ex. congruence.
  - apply Qeq_bool_iff in Ey. rewrite <- Hxy in Ey. apply Qeq_bool_iff in Ey. congruence.
  - assert (¬ (x == 0)%Q) as Hx by (intros H%Qeq_bool_iff; congruence).
    rewrite (round_unbounded_comp x y Hx Hxy).
    assert (Qlt_bool x 0 = Qlt_bool y 0) as ->; [|done].
    destruct (Qlt_bool y 0) eqn:E.
    + apply Qlt_bool_iff. rewrite Hxy. by apply Qlt_bool_iff.
    + apply Qlt_bool_false. rewrite Hxy. by apply Qlt_bool_false.
Qed.

Lemma round64_reduced (x r : Q) : round64 x = FNum r → Qred r = r.
Proof.
  unfold round64. destruct (Qeq_bool x 0); [by intros [= <-]|].
  destruct (Qle_bool _ _); [done|]. intros [= <-].
  unfold round_unbounded. apply Qred_complete, Qred_correct.
Qed.

Lemma binary64_round (x : Q) : binary64 x → round64 x = FNum (Qred x).
Proof.
  unfold binary64, is_binary64. destruct (round64 x) as [r|s] eqn:E; [|done].
  intros H%Qeq_bool_iff. f_equal. rewrite <- (round64_reduced _ _ E).
  by apply Qred_complete.
Qed.

(** On binary64 amounts the conversions change nothing, and the
    percentage is the expression of the source on the amounts
    themselves. *)
Lemma goalProgress_f64_run (g : GoalEntry) :
  binary64 (TargetAmount g) → binary64 (CurrentSaved g) →
  goalProgress_f64 g
  = if Qlt_bool 0 (TargetAmount g)
    then to_int (min_100 (times_100 (round64 (CurrentSaved g / TargetAmount g))))
    else inr 0%Z.
Proof.
  intros Ht Hc. unfold goalProgress_f64, float_of.
  rewrite (binary64_round _ Ht), (binary64_round _ Hc).
  assert (Qlt_bool 0 (Qred (TargetAmount g)) = Qlt_bool 0 (TargetAmount g)) as ->.
  { destruct (Qlt_bool 0 (TargetAmount g)) eqn:E.
    - apply Qlt_bool_iff. rewrite Qred_correct. by apply Qlt_bool_iff.
    - apply Qlt_bool_false. rewrite Qred_correct. by apply Qlt_bool_false. }
  destruct (Qlt_bool 0 (TargetAmount g)) eqn:E; [|done].
  apply Qlt_bool_iff in E. unfold f64_div.
  assert (Qeq_bool (Qred (TargetAmount g)) 0 = false) as ->.
  { destruct (Qeq_bool (Qred (TargetAmount g)) 0) eqn:Ez; [|done].
    apply Qeq_bool_iff in Ez. rewrite Qred_correct in Ez. lra. }
  f_equal. f_equal. f_equal. apply round64_comp. by rewrite !Qred_correct.
Qed.

(** For binary64 amounts, a positive target and a saved amount that is not
    negative, the percentage is an integer from 0 to 100, at most 1 away
    from the integer part of the exact clamped ratio. *)
Lemma goalProgress_f64_close (g : GoalEntry) :
  binary64 (TargetAmount g) → binary64 (CurrentSaved g) →
  (0 < TargetAmount g)%Q → (0 <= CurrentSaved g)%Q →
  ∃ pct, goalProgress_f64 g = inr pct ∧ (0 ≤ pct ≤ 100)%Z
    ∧ (Z.abs (pct - truncate (clamp_pct (CurrentSaved g) (TargetAmount g))) ≤ 1)%Z.
Proof.
  intros Hbt Hbc Ht Hc. rewrite goalProgress_f64_run by done.
  apply Qlt_bool_iff in Ht as Ht'. rewrite Ht'. clear Ht'. unfold clamp_pct.
  set (q := (CurrentSaved g / TargetAmount g)%Q).
  assert (0 <= q)%Q as Hq.
  { unfold q. apply Qle_shift_div_l; [done|]. lra. }
  clearbody q. rewrite <- py_int_truncate.
  pose proof pow2_subnormal_small as Hs. pose proof (pow2_pos (-1075)) as Hs0.
  pose proof pow2_overflow_large as Ho.
  assert (∀ x, (100 <= x)%Q → py_int (Qmin 100 x) = 100%Z) as Hfull.
  { intros x Hx. rewrite <- py_min_Qmin. unfold py_min.
    apply Qlt_bool_false in Hx. by rewrite Hx. }
  destruct (round_nonneg q Hq) as [(d & -> & Hd & Hd1 & Hd2)|[-> Hov]]; cbn [times_100].
  - assert (0 <= d * 100)%Q as Hd100 by lra.
    destruct (round_nonneg (d * 100) Hd100) as [(y & -> & Hy & Hy1 & Hy2)|[-> Hov]].
    + rewrite min_100_fin. cbn [to_int]. eexists. split; [done|].
      assert (0 <= Qmin 100 y <= 100)%Q as Hr.
      { split; [apply Q.min_glb; lra | apply Q.le_min_l]. }
      split; [by apply py_int_percent|].
      destruct (Qlt_le_dec (q * 100) 101) as [Hsmall|Hbig].
      * apply py_int_close; [lra | apply Q.min_glb; lra |..].
        -- destruct (Q.min_spec 100 y) as [[? ->]|[? ->]];
             destruct (Q.min_spec 100 (q * 100)) as [[? ->]|[? ->]]; lra.
        -- destruct (Q.min_spec 100 y) as [[? ->]|[? ->]];
             destruct (Q.min_spec 100 (q * 100)) as [[? ->]|[? ->]]; lra.
      * rewrite (Hfull (q * 100)%Q) by lra. rewrite (Hfull y) by lra. done.
    + cbn [min_100 to_int]. exists 100%Z. split; [done|]. split; [lia|].
      rewrite Hfull by lra. done.
  - cbn [min_100 to_int]. exists 100%Z. split; [done|]. split; [lia|].
    rewrite Hfull by lra. done.
Qed.

Lemma goalProgress_f64_no_division_error (g : GoalEntry) :
  goalProgress_f64 g ≠ inl ZeroDivisionError.
Proof.
  unfold goalProgress_f64, float_of, f64_div.
  destruct (round64 (TargetAmount g)) as [target|]; [|done].
  destruct (round64 (CurrentSaved g)) as [current|]; [|done].
  destruct (Qlt_bool 0 target) eqn:E.
  - destruct (Qeq_bool target 0) eqn:Ez.
    + apply Qlt_bool_iff in E. apply Qeq_bool_iff in Ez. lra.
    + by destruct (min_100 _).
  - done.
Qed.

(** C8 (amended): the goal percentage never fails on a division.  For
    binary64 amounts: with a target at or below zero it is 0; with a
    positive target it is the binary64 product (current/target)*100, the
    quotient and the product each rounded to nearest, clamped from above at
    100 and then cut to an integer toward zero ([int] of minus infinity
    fails); and when the saved amount is not negative it is an integer from
    0 to 100 that differs by at most 1 from the integer part of the exact
    clamped ratio. *)
Theorem goalProgress_spec (g : GoalEntry) :
  goalProgress_f64 g ≠ inl ZeroDivisionError
  ∧ (binary64 (TargetAmount g) → binary64 (CurrentSaved g) →
     ((TargetAmount g <= 0)%Q → goalProgress_f64 g = inr 0%Z)
     ∧ ((0 < TargetAmount g)%Q →
        match times_100 (round64 (CurrentSaved g / TargetAmount g)) with
        | FNum y => goalProgress_f64 g = inr (truncate (Qmin 100 y))
        | FInf false => goalProgress_f64 g = inr 100%Z
        | FInf true => goalProgress_f64 g = inl OverflowError
        end)
     ∧ ((0 < TargetAmount g)%Q → (0 <= CurrentSaved g)%Q →
        ∃ pct, goalProgress_f64 g = inr pct ∧ (0 ≤ pct ≤ 100)%Z
          ∧ (Z.abs (pct - truncate (clamp_pct (CurrentSaved g) (TargetAmount g)))
             ≤ 1)%Z)).
Proof.
  split; [apply goalProgress_f64_no_division_error|].
  intros Hbt Hbc. split; [|split].
  - intros Ht. rewrite goalProgress_f64_run by done.
    apply Qlt_bool_false in Ht. by rewrite Ht.
  - intros Ht. rewrite goalProgress_f64_run by done.
    apply Qlt_bool_iff in Ht. rewrite Ht.
    destruct (times_100 _) as [y|[|]]; [|done..].
    by rewrite min_100_fin, <- py_int_truncate.
  - intros Ht Hc. by apply goalProgress_f64_close.
Qed.

Lemma goalProgress_spec_witness :
  goalProgress_f64 (mkGoalEntry "Vacation" 0 250) = inr 0%Z
  ∧ ∃ pct, goalProgress_f64 (mkGoalEntry "Vacation" 400 100) = inr pct
      ∧ (0 ≤ pct ≤ 100)%Z
      ∧ (Z.abs (pct - truncate (clamp_pct 100 400)) ≤ 1)%Z.
Proof.
  assert (binary64 0 ∧ binary64 250 ∧ binary64 400 ∧ binary64 100)
    as (B0 & B250 & B400 & B100) by (repeat split; reflexivity).
  split.
  - apply (proj1 (proj2 (goalProgress_spec (mkGoalEntry "Vacation" 0 250)) B0 B250)).
    unfold Qle. simpl. lia.
  - apply (proj2 (proj2 (proj2 (goalProgress_spec (mkGoalEntry "Vacation" 400 100))
                           B400 B100))).
    + unfold Qlt. simpl. lia.
    + unfold Qle. simpl. lia.
Defined.

(** The goal percentage is an integer: one saved out of three gives 33,
    which is not 100/3.  And it is the integer part of the rounded product,
    not of the exact one: 29 saved out of 100 give 28. *)
Lemma goalProgress_truncates :
  goalProgress_f64 (mkGoalEntry "Vacation" 3 1) = inr 33%Z
  ∧ ¬ (inject_Z 33 == clamp_pct 1 3)%Q
  ∧ goalProgress_f64 (mkGoalEntry "Vacation" 100 29) = inr 28%Z
  ∧ truncate (clamp_pct 29 100) = 29%Z.
Proof. repeat split; by vm_compute. Qed.

(** [int] fails when the quotient overflows to minus infinity. *)
Lemma goalProgress_f64_overflow :
  goalProgress_f64 (mkGoalEntry "Vacation" (pow2 (-100)) (- pow2 1000))
  = inl OverflowError.
Proof. by vm_compute. Qed.

(** *** The same expression in exact arithmetic *)

(** The goal percentage is always produced: no input raises. *)
Lemma goalProgress_total (g : GoalEntry) : is_Some (goalProgress g).
Proof.
  destruct (Qlt_le_dec 0 (TargetAmount g)) as [H|H].
  - apply goalProgress_with_target in H. rewrite H. eauto.
  - apply goalProgress_no_target in H. rewrite H. eauto.
Qed.

(** ** Distinct values, sorted values *)

Lemma unique_from_elem_of (seen l : list string) (x : string) :
  x ∈ unique_from seen l ↔ x ∈ l ∧ x ∉ seen.
Proof.
  revert seen. induction l as [|y l IH]; intros seen; simpl.
  - set_solver.
  - destruct (decide (y ∈ seen)) as [Hy|Hy].
    + rewrite IH. set_solver.
    + rewrite elem_of_cons, IH. split.
      * intros [->|[H1 H2]]; set_solver.
      * intros [H1 H2]. destruct (decide (x = y)) as [->|Hne]; set_solver.
Qed.

Lemma unique_from_NoDup (seen l : list string) : NoDup (unique_from seen l).
Proof.
  revert seen. induction l as [|y l IH]; intros seen; simpl; [constructor|].
  destruct (decide (y ∈ seen)); [apply IH|].
  constructor; [|apply IH]. rewrite unique_from_elem_of. set_solver.
Qed.

Lemma unique_from_sublist (seen l : list string) : unique_from seen l `sublist_of` l.
Proof.
  revert seen. induction l as [|y l IH]; intros seen; simpl; [done|].
  destruct (decide (y ∈ seen)).
  - by apply sublist_cons.
  - by apply sublist_skip.
Qed.

Lemma unique_elem_of (l : list string) (x : string) : x ∈ unique l ↔ x ∈ l.
Proof. unfold unique. rewrite unique_from_elem_of. set_solver. Qed.

Lemma sort_values_elem_of (l : list string) (x : string) : x ∈ sort_values l ↔ x ∈ l.
Proof. unfold sort_values. by rewrite merge_sort_Permutation. Qed.

Lemma distinct_sorted_elem_of (l : list string) (x : string) :
  x ∈ unique (sort_values l) ↔ x ∈ l.
Proof. by rewrite unique_elem_of, sort_values_elem_of. Qed.

(** ** Per-category sums and the budget comparison *)

Lemma groupby_sum_keyed (rows : list Transaction) :
  groupby_sum rows
  = (λ c, (c, category_total rows c)) <$> unique (sort_values (Category <$> rows)).
Proof.
  unfold groupby_sum, category_total. apply list_fmap_ext. intros _ c _.
  by rewrite loc_bool_decide.
Qed.

Lemma filter_keyed {V} (g : string → V) (ks : list string) (c : string) :
  NoDup ks →
  filter (λ p : string * V, p.1 = c) ((λ k, (k, g k)) <$> ks)
  = if decide (c ∈ ks) then [(c, g c)] else [].
Proof.
  induction 1 as [|k ks Hk Hnd IH]; [done|].
  rewrite fmap_cons, filter_cons, IH. simpl.
  destruct (decide (k = c)) as [->|Hne]; repeat case_decide; try done; set_solver.
Qed.

Lemma sumByCategory_lookup (rows : list Transaction) (c : string) :
  filter (λ p : string * Q, p.1 = c) (sumByCategory rows)
  = if decide (c ∈ Category <$> rows) then [(c, category_total rows c)] else [].
Proof.
  assert (filter (λ p : string * Q, p.1 = c) (sumByCategory rows)
          ≡ₚ filter (λ p : string * Q, p.1 = c) (groupby_sum rows)) as HP.
  { unfold sumByCategory. by rewrite merge_sort_Permutation. }
  rewrite groupby_sum_keyed, filter_keyed in HP by apply unique_from_NoDup.
  destruct (decide (c ∈ Category <$> rows)) as [Hc|Hc].
  - rewrite decide_True in HP by (by apply distinct_sorted_elem_of).
    by apply Permutation_singleton_r in HP.
  - rewrite decide_False in HP by (by rewrite distinct_sorted_elem_of).
    by apply Permutation_nil_r in HP.
Qed.

Lemma sumByCategory_elem_of (rows : list Transaction) (c : string) (a : Q) :
  (c, a) ∈ sumByCategory rows ↔ c ∈ Category <$> rows ∧ a = category_total rows c.
Proof.
  pose proof (sumByCategory_lookup rows c) as HL. split.
  - intros Hin.
    assert ((c, a) ∈ filter (λ p : string * Q, p.1 = c) (sumByCategory rows)) as Hf
      by (by apply list_elem_of_filter).
    rewrite HL in Hf. destruct (decide (c ∈ Category <$> rows)); set_solver.
  - intros [Hc ->]. rewrite decide_True in HL by done.
    assert ((c, category_total rows c)
            ∈ filter (λ p : string * Q, p.1 = c) (sumByCategory rows)) as Hf
      by (rewrite HL; set_solver).
    by apply list_elem_of_filter in Hf as [_ Hf].
Qed.

Lemma category_total_absent (rows : list Transaction) (c : string) :
  c ∉ Category <$> rows → category_total rows c = 0%Q.
Proof.
  intros Hc. unfold category_total.
  replace (filter (λ t, Category t = c) rows) with (@nil Transaction); [done|].
  symmetry. induction rows as [|t rows IH]; [done|].
  rewrite filter_cons. destruct (decide (Category t = c)) as [<-|Hne]; [set_solver|].
  apply IH. set_solver.
Qed.

(** The comparison is the Budgets table, line by line, each line completed
    with the month's total of its category. *)
Lemma budgetComparison_rows (rows : list Transaction) (budgets : list BudgetEntry) :
  budgetComparison (sumByCategory rows) budgets = comparison_row rows <$> budgets.
Proof.
  unfold budgetComparison, merge_right.
  induction budgets as [|b budgets IH]; [done|].
  rewrite bind_cons, fmap_app, IH, fmap_cons. f_equal.
  rewrite loc_bool_decide.
  change (λ x : string * Q, x.1 = bCategory b)
    with (λ p : string * Q, p.1 = bCategory b).
  rewrite sumByCategory_lookup. unfold comparison_row.
  destruct (decide (bCategory b ∈ Category <$> rows)) as [Hc|Hc]; simpl; [done|].
  by rewrite category_total_absent.
Qed.

Lemma budgetComparison_row_inv (cat_summary : list (string * Q))
    (budgets : list BudgetEntry) (r : MergedRow) :
  r ∈ budgetComparison cat_summary budgets →
  UsedPct r = used_pct (Spent r) (Budget r)
  ∧ (∃ b, b ∈ budgets ∧ mCategory r = bCategory b ∧ Budget r = MonthlyBudget b)
  ∧ (Spent r = 0%Q ∨ ∃ p, p ∈ cat_summary ∧ p.1 = mCategory r ∧ Spent r = p.2).
Proof.
  unfold budgetComparison, merge_right.
  intros ([[c a] m] & -> & Hin)%list_elem_of_fmap.
  apply list_elem_of_bind in Hin as (b & Hin & Hb).
  rewrite loc_bool_decide in Hin.
  destruct (filter _ cat_summary) as [|p ms] eqn:Hf.
  - apply list_elem_of_singleton in Hin. injection Hin as -> -> ->. simpl.
    split; [done|]. split; [by exists b | by left].
  - apply list_elem_of_fmap in Hin as (q & Heq & Hq). injection Heq as -> -> ->.
    rewrite <- Hf in Hq. apply list_elem_of_filter in Hq as [Hq1 Hq2]. simpl.
    split; [done|]. split; [by exists b | right; by exists q].
Qed.

(** C1 (amended): every UsedPct of the budget comparison is at most 100; it
    is 0 when the budget is 0 and otherwise spent/budget*100 clamped from
    above at 100; and it lies in [0, 100] when no category sum and no budget
    is negative. *)
Theorem usedPct_clamped (cat_summary : list (string * Q))
    (budgets : list BudgetEntry) (r : MergedRow) :
  r ∈ budgetComparison cat_summary budgets →
  (UsedPct r <= 100)%Q
  ∧ ((Budget r == 0)%Q → UsedPct r = 0%Q)
  ∧ (¬ (Budget r == 0)%Q → UsedPct r = clamp_pct (Spent r) (Budget r))
  ∧ (Forall (λ p, 0 <= p.2)%Q cat_summary →
     Forall (λ b, 0 <= MonthlyBudget b)%Q budgets →
     (0 <= UsedPct r <= 100)%Q).
Proof.
  intros Hr. apply budgetComparison_row_inv in Hr as (-> & (b & Hb & _ & HB) & HS).
  split; [apply used_pct_le_100|]. split; [|split].
  - intros Hz. unfold used_pct. apply Qeq_bool_iff in Hz. by rewrite Hz.
  - intros Hz. unfold used_pct, clamp_pct.
    destruct (Qeq_bool (Budget r) 0) eqn:E; [by apply Qeq_bool_iff in E|].
    apply py_min_Qmin.
  - intros Hcs Hbs. split; [|apply used_pct_le_100]. apply used_pct_nonneg.
    + destruct HS as [->|(p & Hp & _ & ->)]; [done|].
      by apply (proj1 (Forall_forall _ _) Hcs).
    + rewrite HB. by apply (proj1 (Forall_forall _ _) Hbs).
Qed.

(** The scenario of the specification: 520 spent against a budget of 500
    shows as 100 percent. *)
Lemma usedPct_clamped_witness :
  let r := mkMergedRow "Food" 520 500 100 in
  (UsedPct r <= 100)%Q
  ∧ ((Budget r == 0)%Q → UsedPct r = 0%Q)
  ∧ (¬ (Budget r == 0)%Q → UsedPct r = clamp_pct (Spent r) (Budget r))
  ∧ (Forall (λ p, 0 <= p.2)%Q [("Food", 520%Q)] →
     Forall (λ b, 0 <= MonthlyBudget b)%Q [mkBudgetEntry "Food" 500] →
     (0 <= UsedPct r <= 100)%Q).
Proof.
  apply (usedPct_clamped [("Food", 520%Q)] [mkBudgetEntry "Food" 500]).
  vm_compute. apply list_elem_of_singleton. reflexivity.
Defined.

(** A negative category sum against a positive budget gives a negative
    UsedPct: the lower end of [0, 100] is not enforced. *)
Lemma usedPct_below_zero :
  ∃ r, r ∈ budgetComparison [("Food", (-50)%Q)] [mkBudgetEntry "Food" 100]
       ∧ (UsedPct r < 0)%Q.
Proof.
  eexists. split.
  - vm_compute. apply list_elem_of_singleton. reflexivity.
  - by vm_compute.
Qed.

Lemma filter_key_once {A} (key : A → string) (l : list A) (c : string) :
  NoDup (key <$> l) → c ∈ key <$> l →
  length (filter (λ x, key x = c) l) = 1.
Proof.
  induction l as [|x l IH]; [by intros _ ?%elem_of_nil|].
  rewrite fmap_cons, NoDup_cons, elem_of_cons, filter_cons. intros [Hx Hnd] Hc.
  destruct (decide (key x = c)) as [<-|Hne].
  - simpl. f_equal. apply length_zero_iff_nil.
    apply elem_of_nil_inv. intros y [Hy1 Hy2]%list_elem_of_filter.
    apply Hx. rewrite <- Hy1. by apply list_elem_of_fmap_2.
  - destruct Hc as [->|Hc]; [done | by apply IH].
Qed.

(** C3 (amended): the budget comparison has one line per line of the
    Budgets table, in the table's order, carrying the month's total of its
    category (0 when the category has no transaction in the month); so it
    has exactly one line per budgeted category when no category is listed
    twice in Budgets.  A category with transactions but no Budgets line is
    absent from the comparison and present, with its total, in the
    per-category sums. *)
Theorem budgetComparison_anchored (df_month : list Transaction)
    (budgets : list BudgetEntry) :
  let out := budgetComparison (sumByCategory df_month) budgets in
  out = comparison_row df_month <$> budgets
  ∧ (∀ r, r ∈ out → mCategory r ∉ Category <$> df_month → Spent r = 0%Q)
  ∧ (∀ c, c ∈ Category <$> df_month → c ∉ bCategory <$> budgets →
       (c ∉ mCategory <$> out)
       ∧ (c, category_total df_month c) ∈ sumByCategory df_month)
  ∧ (NoDup (bCategory <$> budgets) →
     ∀ c, c ∈ bCategory <$> budgets →
       length (filter (λ r, mCategory r = c) out) = 1).
Proof.
  intros out. assert (out = comparison_row df_month <$> budgets) as Hout
    by apply budgetComparison_rows.
  assert (mCategory <$> out = bCategory <$> budgets) as Hcats.
  { rewrite Hout, <- list_fmap_compose. by apply list_fmap_ext. }
  split; [done|]. split; [|split].
  - intros r Hr Hc. rewrite Hout in Hr.
    apply list_elem_of_fmap in Hr as (b & -> & _). simpl in *.
    by apply category_total_absent.
  - intros c Hc Hb. split; [by rewrite Hcats|].
    by apply sumByCategory_elem_of.
  - intros Hnd c Hc. apply filter_key_once; by rewrite Hcats.
Qed.

Lemma budgetComparison_anchored_witness :
  let df_month :=
    [mkTransaction (Some (mkTimestamp 2025 10 3 0)) "Food" "groceries" 520 "Visa" "" "You";
     mkTransaction (Some (mkTimestamp 2025 10 9 0)) "Snacks" "crisps" 20 "Cash" "" "Partner"] in
  let budgets := [mkBudgetEntry "Food" 500; mkBudgetEntry "Rent" 1200] in
  let out := budgetComparison (sumByCategory df_month) budgets in
  length (filter (λ r, mCategory r = "Rent") out) = 1%nat
  ∧ (∀ r, r ∈ out → mCategory r = "Rent" → Spent r = 0%Q)
  ∧ ("Snacks" ∉ mCategory <$> out)
  ∧ ("Snacks", category_total df_month "Snacks") ∈ sumByCategory df_month.
Proof.
  intros df_month budgets out.
  destruct (budgetComparison_anchored df_month budgets) as (_ & H2 & H3 & H4).
  split; [|split].
  - apply H4.
    + apply (bool_decide_unpack _). by vm_compute.
    + apply (bool_decide_unpack _). by vm_compute.
  - intros r Hr Hc. apply H2; [exact Hr|]. rewrite Hc.
    apply (bool_decide_unpack _). by vm_compute.
  - apply H3.
    + apply (bool_decide_unpack _). by vm_compute.
    + apply (bool_decide_unpack _). by vm_compute.
Defined.

(** A category listed twice in Budgets has two lines in the comparison. *)
Lemma budgetComparison_duplicate_budget :
  let df_month :=
    [mkTransaction (Some (mkTimestamp 2025 10 3 0)) "Food" "groceries" 100 "Visa" "" "You"] in
  let budgets := [mkBudgetEntry "Food" 500; mkBudgetEntry "Food" 300] in
  length (filter (λ r, mCategory r = "Food")
            (budgetComparison (sumByCategory df_month) budgets)) = 2.
Proof. reflexivity. Qed.

(** ** Order of text, and of month keys *)

Lemma str_le_lt_eq (a b : string) : str_le a b ↔ a = b ∨ String_as_OT.lt a b.
Proof.
  unfold str_le, String.leb.
  destruct (String.compare a b) eqn:E.
  - apply String_as_OT.cmp_eq in E. by split; [left|].
  - apply String_as_OT.cmp_lt in E. by split; [right|].
  - split; [done|]. intros [->|H].
    + assert (String.compare b b = Eq) as Hb by by apply String_as_OT.cmp_eq.
      congruence.
    + apply String_as_OT.cmp_lt in H. unfold String_as_OT.cmp in H. congruence.
Qed.

Lemma str_lt_lt (a b : string) : str_lt a b ↔ String_as_OT.lt a b.
Proof.
  unfold str_lt, String.ltb. rewrite <- String_as_OT.cmp_lt.
  unfold String_as_OT.cmp. by destruct (String.compare a b).
Qed.

#[local] Instance str_le_trans : Transitive str_le.
Proof.
  intros a b c. rewrite !str_le_lt_eq. intros [->|H1] [->|H2]; auto.
  right. by eapply String_as_OT.lt_trans.
Qed.

#[local] Instance str_le_total : Total str_le.
Proof. intros a b. apply String.leb_total. Qed.

Lemma str_le_ne_lt (a b : string) : str_le a b → a ≠ b → str_lt a b.
Proof. rewrite str_le_lt_eq, str_lt_lt. by intros [->|H] Hne. Qed.

Lemma StronglySorted_sublist {A} (R : relation A) (l1 l2 : list A) :
  l1 `sublist_of` l2 → StronglySorted R l2 → StronglySorted R l1.
Proof.
  induction 1 as [|x l1 l2 Hsub IH|x l1 l2 Hsub IH]; intros Hs; [done| |].
  - apply StronglySorted_inv in Hs as [Hs Hall]. constructor; [by apply IH|].
    apply Forall_forall. intros y Hy. apply (proj1 (Forall_forall _ _) Hall).
    by eapply elem_of_sublist.
  - apply StronglySorted_inv in Hs as [Hs _]. by apply IH.
Qed.

Lemma StronglySorted_strict (l : list string) :
  StronglySorted str_le l → NoDup l → StronglySorted str_lt l.
Proof.
  induction 1 as [|x l Hs IH Hall]; intros Hnd; [constructor|].
  apply NoDup_cons in Hnd as [Hx Hnd]. constructor; [by apply IH|].
  apply Forall_forall. intros y Hy. apply str_le_ne_lt.
  - by apply (proj1 (Forall_forall _ _) Hall).
  - intros ->. done.
Qed.

(** Sorted and then made distinct: strictly ascending. *)
Lemma distinct_sorted_ascending (l : list string) :
  StronglySorted str_lt (unique (sort_values l)).
Proof.
  apply StronglySorted_strict; [|apply unique_from_NoDup].
  eapply StronglySorted_sublist; [apply unique_from_sublist|].
  apply StronglySorted_merge_sort; apply _.
Qed.

Lemma StronglySorted_last (l : list string) (k : string) :
  StronglySorted str_lt l → last l = Some k → ∀ x, x ∈ l → x = k ∨ str_lt x k.
Proof.
  intros Hs (l' & ->)%last_Some x Hx.
  apply elem_of_app in Hx as [Hx|Hx%list_elem_of_singleton]; [|by left].
  right. eapply StronglySorted_app_1_elem_of; [done..|]. by apply list_elem_of_singleton.
Qed.

Lemma digit_compare (a b : Z) :
  Ascii.compare (digit a) (digit b) = Z.compare (a mod 10) (b mod 10).
Proof.
  unfold digit.
  assert (0 <= a mod 10 < 10)%Z as Ha by (apply Z.mod_pos_bound; lia).
  assert (0 <= b mod 10 < 10)%Z as Hb by (apply Z.mod_pos_bound; lia).
  generalize dependent (a mod 10)%Z. generalize dependent (b mod 10)%Z.
  intros y Hy x Hx.
  assert (x = 0 ∨ x = 1 ∨ x = 2 ∨ x = 3 ∨ x = 4 ∨ x = 5 ∨ x = 6 ∨ x = 7
          ∨ x = 8 ∨ x = 9)%Z as Hx' by lia.
  assert (y = 0 ∨ y = 1 ∨ y = 2 ∨ y = 3 ∨ y = 4 ∨ y = 5 ∨ y = 6 ∨ y = 7
          ∨ y = 8 ∨ y = 9)%Z as Hy' by lia.
  destruct_or!; subst; reflexivity.
Qed.

Lemma digit_is_digit (a : Z) : is_digit (digit a).
Proof.
  unfold digit, is_digit.
  assert (0 <= a mod 10 < 10)%Z as Ha by (apply Z.mod_pos_bound; lia).
  rewrite N_ascii_embedding by lia. lia.
Qed.

Lemma month_key_shape (y m : Z) : yyyy_mm (month_key y m).
Proof. unfold month_key, yyyy_mm. repeat split; apply digit_is_digit. Qed.

(** Comparing two month keys as text is comparing (year, month). *)
Lemma month_key_compare (y m y' m' : Z) :
  (0 ≤ y < 10000)%Z → (0 ≤ y' < 10000)%Z → (0 ≤ m < 100)%Z → (0 ≤ m' < 100)%Z →
  String.compare (month_key y m) (month_key y' m')
  = match Z.compare y y' with Eq => Z.compare m m' | c => c end.
Proof.
  intros Hy Hy' Hm Hm'. unfold month_key. cbn [String.compare].
  rewrite !digit_compare. change (Ascii.compare "-" "-") with Eq.
  destruct (Z.compare_spec ((y / 1000) mod 10) ((y' / 1000) mod 10));
  destruct (Z.compare_spec ((y / 100) mod 10) ((y' / 100) mod 10));
  destruct (Z.compare_spec ((y / 10) mod 10) ((y' / 10) mod 10));
  destruct (Z.compare_spec (y mod 10) (y' mod 10));
  destruct (Z.compare_spec y y'); try reflexivity;
  try (exfalso; Z.div_mod_to_equations; lia);
  destruct (Z.compare_spec ((m / 10) mod 10) ((m' / 10) mod 10));
  destruct (Z.compare_spec (m mod 10) (m' mod 10));
  destruct (Z.compare_spec m m'); try reflexivity;
  exfalso; Z.div_mod_to_equations; lia.
Qed.

(** ** Months of the filtered transactions *)

Lemma period_str_dated (t : Transaction) :
  dated_in_calendar t →
  period_str (Date t) = month_key (year_month t).1 (year_month t).2.
Proof. unfold dated_in_calendar, year_month. by destruct (Date t). Qed.

Lemma year_month_range (t : Transaction) :
  dated_in_calendar t →
  (0 ≤ (year_month t).1 < 10000)%Z ∧ (0 ≤ (year_month t).2 < 100)%Z.
Proof. unfold dated_in_calendar, year_month. destruct (Date t); simpl; lia. Qed.

Lemma period_str_lt (t u : Transaction) :
  dated_in_calendar t → dated_in_calendar u →
  str_lt (period_str (Date t)) (period_str (Date u))
  ↔ month_before (year_month t) (year_month u).
Proof.
  intros Ht Hu. rewrite !period_str_dated by done.
  apply year_month_range in Ht as [Ht1 Ht2]. apply year_month_range in Hu as [Hu1 Hu2].
  unfold str_lt, String.ltb, month_before. rewrite month_key_compare by done.
  destruct (Z.compare_spec (year_month t).1 (year_month u).1);
    destruct (Z.compare_spec (year_month t).2 (year_month u).2);
    split; (done || lia).
Qed.

Lemma period_str_eq (t u : Transaction) :
  dated_in_calendar t → dated_in_calendar u →
  period_str (Date t) = period_str (Date u) → year_month t = year_month u.
Proof.
  intros Ht Hu. rewrite !period_str_dated by done.
  apply year_month_range in Ht as [Ht1 Ht2]. apply year_month_range in Hu as [Hu1 Hu2].
  intros Heq. apply String_as_OT.cmp_eq in Heq. unfold String_as_OT.cmp in Heq.
  rewrite month_key_compare in Heq by done.
  destruct (year_month t) as [y m], (year_month u) as [y' m']. simpl in *.
  destruct (Z.compare_spec y y'); try done.
  apply Z.compare_eq in Heq. congruence.
Qed.

Lemma months_elem_of (df_filtered : list Transaction) (k : string) :
  k ∈ months df_filtered ↔ ∃ t, t ∈ df_filtered ∧ k = period_str (Date t).
Proof.
  unfold months. rewrite distinct_sorted_elem_of, list_elem_of_fmap. naive_solver.
Qed.

Lemma df_month_filter (df_filtered : list Transaction) (k : string) :
  df_month df_filtered k = filter (λ t, period_str (Date t) = k) df_filtered.
Proof. unfold df_month. apply loc_bool_decide. Qed.

(** Splitting a list by the distinct values of a key loses and repeats
    nothing. *)
Lemma concat_by_key {A} (key : A → string) (ks : list string) (l : list A) :
  NoDup ks → (∀ x, x ∈ l → key x ∈ ks) →
  concat ((λ k, filter (λ x, key x = k) l) <$> ks) ≡ₚ l.
Proof.
  intros Hnd. revert l. induction Hnd as [|k ks Hk Hnd IH]; intros l Hl.
  - destruct l as [|x l]; [done|]. specialize (Hl x). set_solver.
  - rewrite fmap_cons. simpl.
    etransitivity; [|apply (filter_app_complement (λ x, key x = k))].
    f_equiv.
    rewrite (list_fmap_ext (λ k0, filter (λ x, key x = k0) l)
               (λ k0, filter (λ x, key x = k0) (filter (λ x, ¬ key x = k) l)) ks).
    + apply IH. intros x [Hx1 Hx2]%list_elem_of_filter.
      specialize (Hl x Hx2). set_solver.
    + intros _ k' Hk'%list_elem_of_lookup_2.
      rewrite list_filter_filter. apply list_filter_iff. intros x. split; [|tauto].
      intros Hx. split; [done|]. intros Hx2. apply Hk. by rewrite <- Hx2, Hx.
Qed.

Lemma partitionByMonth_concat (df_filtered : list Transaction) :
  concat (snd <$> partitionByMonth df_filtered) ≡ₚ df_filtered.
Proof.
  unfold partitionByMonth. rewrite <- list_fmap_compose.
  erewrite list_fmap_ext; [apply (concat_by_key (λ t, period_str (Date t)))|].
  - apply unique_from_NoDup.
  - intros t Ht. apply months_elem_of. eauto.
  - intros _ k _. simpl. apply df_month_filter.
Qed.

Lemma months_nonempty (df_filtered : list Transaction) :
  df_filtered ≠ [] → ∃ k, default_month (months df_filtered) = Some k.
Proof.
  intros Hne. destruct df_filtered as [|t l]; [done|].
  assert (period_str (Date t) ∈ months (t :: l)) as Hin
    by (apply months_elem_of; exists t; split; [left|done]).
  unfold default_month. apply lookup_lt_is_Some.
  destruct (months (t :: l)); [by apply elem_of_nil in Hin | simpl; lia].
Qed.

(** C6: the months of the filtered transactions.  Each transaction lies in
    the partition of its own month key and in no other, and the partitions
    together hold every transaction once; every key has the shape YYYY-MM
    and is the key of a transaction; the keys are listed in strictly
    ascending order of text, which is the order of the months in time; the
    default selection is the last key, the most recent month present. *)
Theorem partitionByMonth_spec (df_filtered : list Transaction) :
  Forall dated_in_calendar df_filtered →
  let ms := months df_filtered in
  (∀ t, t ∈ df_filtered →
     period_str (Date t) ∈ ms
     ∧ ∀ k, t ∈ df_month df_filtered k ↔ k = period_str (Date t))
  ∧ concat (snd <$> partitionByMonth df_filtered) ≡ₚ df_filtered
  ∧ fst <$> partitionByMonth df_filtered = ms
  ∧ (∀ k, k ∈ ms →
       yyyy_mm k ∧ ∃ t, t ∈ df_filtered
                        ∧ k = month_key (year_month t).1 (year_month t).2)
  ∧ StronglySorted str_lt ms
  ∧ (∀ t u, t ∈ df_filtered → u ∈ df_filtered →
       (str_lt (period_str (Date t)) (period_str (Date u))
        ↔ month_before (year_month t) (year_month u)))
  ∧ (df_filtered ≠ [] →
     ∃ t0, t0 ∈ df_filtered
           ∧ default_month ms = Some (period_str (Date t0))
           ∧ last ms = Some (period_str (Date t0))
           ∧ ∀ t, t ∈ df_filtered → ¬ month_before (year_month t0) (year_month t)).
Proof.
  intros Hall ms. pose proof (proj1 (Forall_forall _ _) Hall) as Hval.
  assert (StronglySorted str_lt ms) as Hsorted by apply distinct_sorted_ascending.
  repeat split.
  - apply months_elem_of. eauto.
  - rewrite df_month_filter. by intros [? _]%list_elem_of_filter.
  - intros ->. rewrite df_month_filter. by apply list_elem_of_filter.
  - apply partitionByMonth_concat.
  - unfold partitionByMonth. rewrite <- list_fmap_compose. apply list_fmap_id.
  - apply months_elem_of in H as (t & Ht & ->).
    rewrite period_str_dated by auto. apply month_key_shape.
  - apply months_elem_of in H as (t & Ht & ->). exists t.
    by rewrite period_str_dated by auto.
  - done.
  - by apply period_str_lt; auto.
  - by apply period_str_lt; auto.
  - intros Hne. destruct (months_nonempty df_filtered Hne) as [k Hk].
    assert (last ms = Some k) as Hlast.
    { rewrite last_lookup. unfold default_month in Hk.
      by replace (Init.Nat.pred (length ms)) with (length ms - 1) by lia. }
    assert (k ∈ ms) as Hin by by eapply last_Some_elem_of.
    apply months_elem_of in Hin as (t0 & Ht0 & ->).
    exists t0. repeat split; try done.
    intros t Ht Hbefore.
    assert (period_str (Date t) ∈ ms) as Hkt by (apply months_elem_of; eauto).
    destruct (StronglySorted_last ms _ Hsorted Hlast _ Hkt) as [Heq|Hlt].
    + apply period_str_eq in Heq; auto. rewrite Heq in Hbefore.
      unfold month_before in Hbefore. lia.
    + apply period_str_lt in Hlt; auto. unfold month_before in *. lia.
Qed.

Lemma partitionByMonth_spec_witness :
  let df_filtered :=
    [mkTransaction (Some (mkTimestamp 2025 10 3 0)) "Food" "groceries" 300 "Visa" "" "You";
     mkTransaction (Some (mkTimestamp 2024 12 30 61200)) "Food" "market" 220 "Cash" "" "Partner";
     mkTransaction (Some (mkTimestamp 2025 10 9 0)) "Snacks" "crisps" 20 "Cash" "" "You"] in
  Forall dated_in_calendar df_filtered
  ∧ months df_filtered = ["2024-12"; "2025-10"]
  ∧ StronglySorted str_lt (months df_filtered)
  ∧ concat (snd <$> partitionByMonth df_filtered) ≡ₚ df_filtered
  ∧ ∃ t0, t0 ∈ df_filtered
          ∧ default_month (months df_filtered) = Some (period_str (Date t0))
          ∧ ∀ t, t ∈ df_filtered → ¬ month_before (year_month t0) (year_month t).
Proof.
  intros df_filtered.
  assert (Forall dated_in_calendar df_filtered) as Hall.
  { repeat constructor; simpl; lia. }
  split; [exact Hall|]. split; [reflexivity|].
  destruct (partitionByMonth_spec df_filtered Hall)
    as (_ & Hperm & _ & _ & Hsorted & _ & Hlast).
  split; [exact Hsorted|]. split; [exact Hperm|].
  destruct Hlast as (t0 & Ht0 & Hdef & _ & Hmax); [discriminate|].
  exists t0. split; [exact Ht0|]. split; [exact Hdef | exact Hmax].
Defined.

(** ** The store: loads and writes *)

Section StoreFacts.
Variable num_str : Q → string.

Lemma set_nth_pad_alter {A} (d : A) (f : A → A) (l : list A) (i : nat) :
  (i < length l)%nat → set_nth_pad d i f l = alter f i l.
Proof.
  revert i. induction l as [|x l IH]; intros [|i] Hi; simpl in *; try lia; [done|].
  f_equal. apply IH. lia.
Qed.

Lemma set_nth_pad_lookup {A} (d : A) (f : A → A) (l : list A) (i : nat) :
  set_nth_pad d i f l !! i = Some (f (default d (l !! i))).
Proof.
  revert l. induction i as [|i IH]; intros [|x l]; simpl; done.
Qed.

Lemma set_nth_pad_default {A} (d : A) (f : A → A) (l : list A) (i j : nat) :
  j ≠ i → default d (set_nth_pad d i f l !! j) = default d (l !! j).
Proof.
  revert l j. induction i as [|i IH]; intros [|x l] [|j] Hne; simpl; try done.
  - rewrite (IH [] j) by lia. done.
  - apply IH. lia.
Qed.

Lemma column_index_head (name : string) (cols : list string) :
  column_index name (name :: cols) = Some 0%nat.
Proof. unfold column_index. simpl. by rewrite decide_True. Qed.

Lemma first_index_first_match (keys : list string) (key : string) (i : nat) :
  first_index key keys = Some i ↔ first_match keys key i.
Proof.
  unfold first_index, first_match. split.
  - intros Hf. destruct (list_find _ keys) as [[i' k]|] eqn:E; [|done].
    simpl in Hf. injection Hf as ->.
    apply list_find_Some in E as (Hl & -> & Hlt). split; [done|].
    intros j Hj Hk. by apply (Hlt j key).
  - intros [Hl Hlt].
    assert (list_find (λ k, k = key) keys = Some (i, key)) as ->; [|done].
    apply list_find_Some. split; [done|]. split; [done|].
    intros j y Hy Hj ->. by apply (Hlt j).
Qed.

Lemma first_index_None (keys : list string) (key : string) :
  first_index key keys = None ↔ key ∉ keys.
Proof.
  unfold first_index. rewrite fmap_None, list_find_None, Forall_forall. split.
  - intros H Hin. by apply (H key).
  - intros H x Hx ->. done.
Qed.

(** A load leaves the remote tabs alone and, from a coherent cache,
    returns what a fresh read would. *)
Lemma load_sheet_dataframe_coherent (s : state) (sheet_name sp : string)
    (ws : worksheet) :
  cache_coherent s → remote s !! (sp, sheet_name) = Some ws →
  load_sheet_dataframe sheet_name sp s
  = (Done (records_frame ws, (sp, sheet_name)),
     mkState (remote s) (<[(sheet_name, sp) := records_frame ws]> (cache s))).
Proof.
  intros Hcoh Hws. unfold load_sheet_dataframe.
  destruct (cache s !! (sheet_name, sp)) as [df|] eqn:E.
  - destruct (Hcoh _ _ _ E) as (ws' & Hws' & ->).
    assert (ws' = ws) as -> by congruence.
    rewrite insert_id by done. by destruct s.
  - by rewrite Hws.
Qed.

(** After [load_sheet_dataframe.clear()] the next load is a fresh read. *)
Lemma load_after_clear (s : state) (sheet_name sp : string) (ws : worksheet) :
  cache s = ∅ → remote s !! (sp, sheet_name) = Some ws →
  load_sheet_dataframe sheet_name sp s
  = (Done (records_frame ws, (sp, sheet_name)),
     mkState (remote s) {[ (sheet_name, sp) := records_frame ws ]}).
Proof.
  intros Hc Hws. unfold load_sheet_dataframe. rewrite Hc, lookup_empty, Hws.
  by rewrite insert_empty.
Qed.

(** What [update_budget_row] does to a Budgets tab that has rows: it
    overwrites column B on the line of the first match, or appends. *)
Lemma update_budget_row_run (s : state) (sp : string) (ws : worksheet)
    (category : string) (amount : Q) (kc : nat) :
  cache_coherent s → remote s !! (sp, BUDGETS_SHEET) = Some ws →
  ws_body ws ≠ [] → column_index "Category" (ws_header ws) = Some kc →
  update_budget_row num_str category amount sp s
  = (Done (),
     mkState
       (<[(sp, BUDGETS_SHEET) :=
            match first_index category (key_column num_str kc ws) with
            | Some i => ws_update 1 (i + 2) (CNum amount) ws
            | None => ws_append_row [CStr category; CNum amount] ws
            end]> (remote s))
       (<[(BUDGETS_SHEET, sp) := records_frame ws]> (cache s))).
Proof.
  intros Hcoh Hws Hbody Hkc. unfold update_budget_row, bind.
  rewrite (load_sheet_dataframe_coherent s _ _ ws) by done.
  unfold df_getitem, records_frame. destruct (ws_body ws) as [|r body] eqn:Eb; [done|].
  cbn [df_columns df_data]. rewrite Hkc. cbn [lift_option ret].
  fold (key_column num_str kc ws). unfold key_column. rewrite Eb.
  set (keys := astype_str num_str <$> (row_cell kc <$> r :: body)).
  destruct (decide (category ∈ keys)) as [Hin|Hin].
  - destruct (first_index category keys) as [i|] eqn:Ei;
      [|by apply first_index_None in Ei].
    cbn [lift_option ret]. unfold ws_write. cbn [remote cache]. by rewrite Hws.
  - apply first_index_None in Hin. rewrite Hin.
    unfold ws_write. cbn [remote cache]. by rewrite Hws.
Qed.

(** On a Budgets tab without data rows the frame has no "Category"
    column: the lookup of the column fails and nothing is written. *)
Lemma update_budget_row_no_rows (s : state) (sp : string) (ws : worksheet)
    (category : string) (amount : Q) :
  cache_coherent s → remote s !! (sp, BUDGETS_SHEET) = Some ws → ws_body ws = [] →
  update_budget_row num_str category amount sp s
  = (Raised KeyError,
     mkState (remote s) (<[(BUDGETS_SHEET, sp) := mkDataFrame [] []]> (cache s))).
Proof.
  intros Hcoh Hws Hbody. unfold update_budget_row, bind.
  rewrite (load_sheet_dataframe_coherent s _ _ ws) by done.
  unfold df_getitem, records_frame. rewrite Hbody. done.
Qed.

Lemma update_goal_row_run (s : state) (sp : string) (ws : worksheet)
    (goal_name : string) (target current : Q) (kc : nat) :
  cache_coherent s → remote s !! (sp, GOALS_SHEET) = Some ws →
  ws_body ws ≠ [] → column_index "Goal Name" (ws_header ws) = Some kc →
  update_goal_row num_str goal_name target current sp s
  = (Done (),
     mkState
       (<[(sp, GOALS_SHEET) :=
            match first_index goal_name (key_column num_str kc ws) with
            | Some i => ws_update 2 (i + 2) (CNum current)
                          (ws_update 1 (i + 2) (CNum target) ws)
            | None => ws_append_row [CStr goal_name; CNum target; CNum current] ws
            end]> (remote s))
       (<[(GOALS_SHEET, sp) := records_frame ws]> (cache s))).
Proof.
  intros Hcoh Hws Hbody Hkc. unfold update_goal_row, bind.
  rewrite (load_sheet_dataframe_coherent s _ _ ws) by done.
  unfold df_getitem, records_frame. destruct (ws_body ws) as [|r body] eqn:Eb; [done|].
  cbn [df_columns df_data]. rewrite Hkc. cbn [lift_option ret].
  fold (key_column num_str kc ws). unfold key_column. rewrite Eb.
  set (keys := astype_str num_str <$> (row_cell kc <$> r :: body)).
  destruct (decide (goal_name ∈ keys)) as [Hin|Hin].
  - destruct (first_index goal_name keys) as [i|] eqn:Ei;
      [|by apply first_index_None in Ei].
    cbn [lift_option ret]. unfold ws_write. cbn [remote cache].
    rewrite Hws. cbn [remote cache]. rewrite lookup_insert_eq, insert_insert_eq. done.
  - apply first_index_None in Hin. rewrite Hin.
    unfold ws_write. cbn [remote cache]. by rewrite Hws.
Qed.

Lemma key_column_length (k : nat) (ws : worksheet) :
  length (key_column num_str k ws) = length (ws_body ws).
Proof. unfold key_column. by rewrite !length_fmap. Qed.

Lemma key_column_lookup (k : nat) (ws : worksheet) (i : nat) :
  key_column num_str k ws !! i
  = (λ r, astype_str num_str (row_cell k r)) <$> ws_body ws !! i.
Proof.
  unfold key_column. rewrite !list_lookup_fmap. by destruct (ws_body ws !! i).
Qed.

(** Overwriting cells of line [i + 2] changes data row [i] in those
    columns and nothing else. *)
Lemma ws_update_in_place (c : nat) (v : cell) (i : nat) (ws : worksheet) :
  (i < length (ws_body ws))%nat →
  ws_header (ws_update c (i + 2) v ws) = ws_header ws
  ∧ updated_in_place [(c, v)] i (ws_body ws) (ws_body (ws_update c (i + 2) v ws)).
Proof.
  intros Hi. replace (i + 2)%nat with (S (S i)) by lia. unfold ws_update.
  cbn [ws_header ws_body]. split; [done|].
  rewrite set_nth_pad_alter by done.
  destruct (lookup_lt_is_Some_2 _ _ Hi) as [r Hr].
  split; [apply length_alter|]. split.
  - intros j Hj. by apply list_lookup_alter_ne.
  - exists r, (set_nth_pad blank c (λ _, v) r). split; [done|]. split.
    + by rewrite list_lookup_alter_eq, Hr.
    + split.
      * intros c' v' [= -> ->]%list_elem_of_singleton. unfold row_cell.
        by rewrite set_nth_pad_lookup.
      * intros c' Hc'. unfold row_cell. apply set_nth_pad_default.
        intros ->. apply Hc'. simpl. by left.
Qed.

Lemma ws_update_twice_in_place (c1 c2 : nat) (v1 v2 : cell) (i : nat)
    (ws : worksheet) :
  c1 ≠ c2 → (i < length (ws_body ws))%nat →
  ws_header (ws_update c2 (i + 2) v2 (ws_update c1 (i + 2) v1 ws)) = ws_header ws
  ∧ updated_in_place [(c1, v1); (c2, v2)] i (ws_body ws)
      (ws_body (ws_update c2 (i + 2) v2 (ws_update c1 (i + 2) v1 ws))).
Proof.
  intros Hc Hi. replace (i + 2)%nat with (S (S i)) by lia. unfold ws_update.
  cbn [ws_header ws_body]. split; [done|].
  rewrite (set_nth_pad_alter _ _ (ws_body ws)) by done.
  rewrite set_nth_pad_alter by by rewrite length_alter.
  destruct (lookup_lt_is_Some_2 _ _ Hi) as [r Hr].
  split; [by rewrite !length_alter|]. split.
  - intros j Hj. by rewrite !list_lookup_alter_ne.
  - exists r, (set_nth_pad blank c2 (λ _, v2) (set_nth_pad blank c1 (λ _, v1) r)).
    split; [done|]. split.
    + by rewrite !list_lookup_alter_eq, Hr.
    + split.
      * intros c' v' Hin. unfold row_cell.
        apply elem_of_cons in Hin as [[= -> ->]|[= -> ->]%list_elem_of_singleton].
        -- rewrite set_nth_pad_default by done. by rewrite set_nth_pad_lookup.
        -- by rewrite set_nth_pad_lookup.
      * intros c' Hc'. unfold row_cell.
        rewrite !set_nth_pad_default; [done|intros ->; apply Hc'..].
        -- simpl. left.
        -- simpl. right. left.
Qed.

(** An update in place that leaves the key column alone leaves the keys
    alone. *)
Lemma updated_in_place_keys (cols : list (nat * cell)) (i k : nat)
    (ws ws' : worksheet) :
  k ∉ cols.*1 → updated_in_place cols i (ws_body ws) (ws_body ws') →
  key_column num_str k ws' = key_column num_str k ws.
Proof.
  intros Hk (Hlen & Hother & r & r' & Hr & Hr' & _ & Hsame).
  apply list_eq. intros j. rewrite !key_column_lookup.
  destruct (decide (j = i)) as [->|Hne].
  - rewrite Hr, Hr'. simpl. by rewrite Hsame.
  - by rewrite Hother.
Qed.

Lemma first_match_in_range (keys : list string) (key : string) (i : nat) :
  first_match keys key i → (i < length keys)%nat.
Proof. intros [Hi _]. by eapply lookup_lt_Some. Qed.

Lemma update_budget_row_first_match (s : state) (sp : string) (ws : worksheet)
    (key : string) (i : nat) (amount : Q) :
  cache_coherent s → first_match (key_column num_str 0 ws) key i →
  remote s !! (sp, BUDGETS_SHEET) = Some ws → ws_header ws = budgets_schema →
  ∃ s' ws', update_budget_row num_str key amount sp s = (Done (), s')
    ∧ remote s' = <[(sp, BUDGETS_SHEET) := ws']> (remote s)
    ∧ ws_header ws' = ws_header ws
    ∧ updated_in_place [(1%nat, CNum amount)] i (ws_body ws) (ws_body ws')
    ∧ key_column num_str 0 ws' = key_column num_str 0 ws.
Proof.
  intros Hcoh Hfm Hws Hhd.
  pose proof (first_match_in_range _ _ _ Hfm) as Hi. rewrite key_column_length in Hi.
  rewrite (update_budget_row_run s sp ws key amount 0).
  - apply first_index_first_match in Hfm. rewrite Hfm.
    destruct (ws_update_in_place 1 (CNum amount) i ws Hi) as [Hh Hup].
    eexists _, _. split; [done|]. cbn [remote]. split; [done|].
    split; [done|]. split; [done|].
    eapply updated_in_place_keys; [|done]. set_solver.
  - done.
  - done.
  - intros Hnil. rewrite Hnil in Hi. simpl in Hi. lia.
  - rewrite Hhd. apply column_index_head.
Qed.

Lemma update_goal_row_first_match (s : state) (sp : string) (ws : worksheet)
    (key : string) (i : nat) (target current : Q) :
  cache_coherent s → first_match (key_column num_str 0 ws) key i →
  remote s !! (sp, GOALS_SHEET) = Some ws → ws_header ws = goals_schema →
  ∃ s' ws', update_goal_row num_str key target current sp s = (Done (), s')
    ∧ remote s' = <[(sp, GOALS_SHEET) := ws']> (remote s)
    ∧ ws_header ws' = ws_header ws
    ∧ updated_in_place [(1%nat, CNum target); (2%nat, CNum current)] i
        (ws_body ws) (ws_body ws')
    ∧ key_column num_str 0 ws' = key_column num_str 0 ws.
Proof.
  intros Hcoh Hfm Hws Hhd.
  pose proof (first_match_in_range _ _ _ Hfm) as Hi. rewrite key_column_length in Hi.
  rewrite (update_goal_row_run s sp ws key target current 0).
  - apply first_index_first_match in Hfm. rewrite Hfm.
    destruct (ws_update_twice_in_place 1 2 (CNum target) (CNum current) i ws)
      as [Hh Hup]; [done..|].
    eexists _, _. split; [done|]. cbn [remote]. split; [done|].
    split; [done|]. split; [done|].
    eapply updated_in_place_keys; [|done]. set_solver.
  - done.
  - done.
  - intros Hnil. rewrite Hnil in Hi. simpl in Hi. lia.
  - rewrite Hhd. apply column_index_head.
Qed.

End StoreFacts.

(** C10: when the key occurs in the Budgets (or Goals) tab, be it several
    times, the upsert overwrites the value column(s) of the row with the
    lowest index carrying that key and nothing else: the number of rows,
    every other row (later duplicates among them) and the key column stay as
    they were. *)
Theorem upsert_updates_first_match_only (num_str : Q → string) (s : state)
    (sp : string) (ws : worksheet) (key : string) (i : nat) :
  cache_coherent s → first_match (key_column num_str 0 ws) key i →
  (∀ amount,
     remote s !! (sp, BUDGETS_SHEET) = Some ws → ws_header ws = budgets_schema →
     ∃ s' ws', update_budget_row num_str key amount sp s = (Done (), s')
       ∧ remote s' = <[(sp, BUDGETS_SHEET) := ws']> (remote s)
       ∧ ws_header ws' = ws_header ws
       ∧ updated_in_place [(1%nat, CNum amount)] i (ws_body ws) (ws_body ws')
       ∧ key_column num_str 0 ws' = key_column num_str 0 ws)
  ∧ (∀ target current,
     remote s !! (sp, GOALS_SHEET) = Some ws → ws_header ws = goals_schema →
     ∃ s' ws', update_goal_row num_str key target current sp s = (Done (), s')
       ∧ remote s' = <[(sp, GOALS_SHEET) := ws']> (remote s)
       ∧ ws_header ws' = ws_header ws
       ∧ updated_in_place [(1%nat, CNum target); (2%nat, CNum current)] i
           (ws_body ws) (ws_body ws')
       ∧ key_column num_str 0 ws' = key_column num_str 0 ws).
Proof.
  intros Hcoh Hfm. split.
  - intros amount. by apply update_budget_row_first_match.
  - intros target current. by apply update_goal_row_first_match.
Qed.

Lemma empty_cache_coherent (r : gmap (string * string) worksheet) :
  cache_coherent (mkState r ∅).
Proof. intros sheet sp df H. simpl in H. by rewrite lookup_empty in H. Qed.

Lemma first_match_demo :
  first_match (key_column (λ _, "") 0 (mkWorksheet budgets_schema
              [[CStr "Food"; CNum 500]; [CStr "Rent"; CNum 1200]; [CStr "Rent"; CNum 900]])) "Rent" 1.
Proof.
  split; [reflexivity|]. intros [|j] Hj; [discriminate | lia].
Qed.

Lemma first_match_demo_goal :
  first_match (key_column (λ _, "") 0 (mkWorksheet goals_schema
              [[CStr "Vacation"; CNum 3000; CNum 500];
               [CStr "Vacation"; CNum 100; CNum 0]])) "Vacation" 0.
Proof. split; [reflexivity|]. intros j Hj. lia. Qed.

Lemma upsert_updates_first_match_only_witness :
  let ws := mkWorksheet budgets_schema
              [[CStr "Food"; CNum 500]; [CStr "Rent"; CNum 1200]; [CStr "Rent"; CNum 900]] in
  let s := mkState {[ (SHEET_NAME, BUDGETS_SHEET) := ws ]} ∅ in
  let gs := mkWorksheet goals_schema
              [[CStr "Vacation"; CNum 3000; CNum 500];
               [CStr "Vacation"; CNum 100; CNum 0]] in
  let t := mkState {[ (SHEET_NAME, GOALS_SHEET) := gs ]} ∅ in
  (∃ s' ws', update_budget_row (λ _, "") "Rent" 1300 SHEET_NAME s = (Done (), s')
    ∧ remote s' = <[(SHEET_NAME, BUDGETS_SHEET) := ws']> (remote s)
    ∧ ws_header ws' = ws_header ws
    ∧ updated_in_place [(1%nat, CNum 1300)] 1 (ws_body ws) (ws_body ws')
    ∧ key_column (λ _, "") 0 ws' = key_column (λ _, "") 0 ws)
  ∧ (∃ t' gs', update_goal_row (λ _, "") "Vacation" 3000 750 SHEET_NAME t = (Done (), t')
    ∧ remote t' = <[(SHEET_NAME, GOALS_SHEET) := gs']> (remote t)
    ∧ ws_header gs' = ws_header gs
    ∧ updated_in_place [(1%nat, CNum 3000); (2%nat, CNum 750)] 0 (ws_body gs) (ws_body gs')
    ∧ key_column (λ _, "") 0 gs' = key_column (λ _, "") 0 gs).
Proof.
  intros ws s gs t. split.
  - apply (proj1 (upsert_updates_first_match_only (λ _, "") s SHEET_NAME ws "Rent" 1
                    (empty_cache_coherent _) first_match_demo)).
    + apply lookup_singleton_eq.
    + reflexivity.
  - apply (proj2 (upsert_updates_first_match_only (λ _, "") t SHEET_NAME gs "Vacation" 0
                    (empty_cache_coherent _) first_match_demo_goal)).
    + apply lookup_singleton_eq.
    + reflexivity.
Defined.

(** ** The submit handlers and the reload *)

(** C2 (defect): on a Budgets tab that holds its header and no data row,
    the loaded frame has no "Category" column; the upsert of the form
    handler stops with KeyError before anything is written, the cache is
    not cleared, and a reload shows no row for the category. *)
Theorem upsertBudget_empty_table_fails :
  let ws := mkWorksheet budgets_schema [] in
  let s := mkState {[ (SHEET_NAME, BUDGETS_SHEET) := ws ]} ∅ in
  ∀ num_str, ∃ s' s'',
    budget_submit num_str "Food" 500 s = (Raised KeyError, s')
    ∧ remote s' = remote s
    ∧ load_sheet_dataframe BUDGETS_SHEET SHEET_NAME s'
      = (Done (mkDataFrame [] [], (SHEET_NAME, BUDGETS_SHEET)), s'').
Proof.
  intros ws s num_str. eexists _, _. unfold budget_submit, bind.
  rewrite decide_False by done.
  rewrite (update_budget_row_no_rows num_str s SHEET_NAME ws);
    [|apply empty_cache_coherent|apply lookup_singleton_eq|done].
  split; [done|]. split; [done|].
  unfold load_sheet_dataframe. cbn [cache]. by rewrite lookup_insert_eq.
Qed.

Lemma records_frame_append (row : list cell) (ws : worksheet) :
  records_frame (ws_append_row row ws)
  = mkDataFrame (ws_header ws) (ws_body ws ++ [row]).
Proof.
  unfold records_frame, ws_append_row. cbn [ws_body ws_header].
  by destruct (ws_body ws).
Qed.

(** Read-your-writes of the expense form for the default spreadsheet: the
    row goes to its Transactions tab, the cache is emptied, and the next
    load of that tab returns the old rows followed by the new row, cell for
    cell. *)
Lemma add_expense_then_reload (s : state) (ws : worksheet) (row : list cell) :
  remote s !! (SHEET_NAME, TRANSACTIONS_SHEET) = Some ws →
  ∃ s' s'',
    add_expense_submit row s = (Done (), s')
    ∧ cache s' = ∅
    ∧ load_sheet_dataframe TRANSACTIONS_SHEET SHEET_NAME s'
      = (Done (mkDataFrame (ws_header ws) (ws_body ws ++ [row]),
               (SHEET_NAME, TRANSACTIONS_SHEET)), s'').
Proof.
  intros Hws. unfold add_expense_submit, append_transaction, bind.
  assert (∃ c, load_sheet_dataframe TRANSACTIONS_SHEET SHEET_NAME s
               = (Done (c.1, (SHEET_NAME, TRANSACTIONS_SHEET)), mkState (remote s) c.2))
    as [[df c] ->].
  { unfold load_sheet_dataframe.
    destruct (cache s !! (TRANSACTIONS_SHEET, SHEET_NAME)) as [df|].
    - exists (df, cache s). by destruct s.
    - rewrite Hws. by eexists (_, _). }
  cbn [fst snd]. unfold ws_write, cache_clear. cbn [remote cache]. rewrite Hws.
  eexists _, _. split; [done|]. split; [done|].
  unfold load_sheet_dataframe. cbn [remote cache].
  rewrite lookup_empty, lookup_insert_eq, records_frame_append. done.
Qed.

(** C4 (defect): the submit handlers write to the default spreadsheet
    whatever the sidebar selects, while the reload reads the selected one.
    With "Another Spreadsheet" selected, the cache is emptied after the
    write, yet the reloaded Transactions frame does not hold the new row: it
    sits in the default spreadsheet. *)
Theorem expense_missing_from_selected_spreadsheet :
  let old := expense_row "2025-10-01" "Rent" "October" 1200 "Checking" "" "You" in
  let tx := mkWorksheet transactions_schema [old] in
  let bg := mkWorksheet budgets_schema [[CStr "Rent"; CNum 1200]] in
  let gl := mkWorksheet goals_schema [[CStr "Vacation"; CNum 3000; CNum 500]] in
  let s := mkState {[ (SHEET_NAME, TRANSACTIONS_SHEET) := tx;
                      (SHEET_NAME, BUDGETS_SHEET) := bg;
                      (SHEET_NAME, GOALS_SHEET) := gl;
                      ("Another Spreadsheet", TRANSACTIONS_SHEET) := tx;
                      ("Another Spreadsheet", BUDGETS_SHEET) := bg;
                      ("Another Spreadsheet", GOALS_SHEET) := gl ]} ∅ in
  let row := expense_row "2025-10-07" "Food" "lunch" 12.5 "Visa" "" "You" in
  let s' := (add_expense_submit row s).2 in
  "Another Spreadsheet" ∈ spreadsheet_choices
  ∧ (add_expense_submit row s).1 = Done ()
  ∧ cache s' = ∅
  ∧ (∃ transactions_df budgets_df goals_df,
       (load_data "Another Spreadsheet" s').1
       = Done (transactions_df, budgets_df, goals_df)
       ∧ df_data transactions_df = [old]
       ∧ row ∉ df_data transactions_df)
  ∧ remote s' !! (SHEET_NAME, TRANSACTIONS_SHEET) = Some (ws_append_row row tx).
Proof.
  intros old tx bg gl s row s'. split; [set_solver|].
  split; [by vm_compute|]. split; [by vm_compute|]. split; [|by vm_compute].
  eexists _, _, _. split; [vm_compute; reflexivity|]. split; [reflexivity|].
  cbn [df_data]. intros Hin%list_elem_of_singleton. discriminate.
Qed.

(** ** The budget upsert on a tab that has rows *)

#[local] Open Scope list_scope.

Section BudgetUpsert.
Variable num_str : Q → string.

Lemma set_nth_pad_idem {A} (d : A) (g : A → A) (i : nat) (l : list A) :
  (∀ x, g (g x) = g x) →
  set_nth_pad d i g (set_nth_pad d i g l) = set_nth_pad d i g l.
Proof.
  intros Hg. revert l. induction i as [|i IH]; intros [|x l]; simpl;
    rewrite ?Hg, ?IH; done.
Qed.

Lemma set_nth_pad_snoc {A} (d : A) (g : A → A) (l : list A) (x : A) :
  set_nth_pad d (length l) g (l ++ [x]) = l ++ [g x].
Proof. induction l as [|y l IH]; simpl; [done | by rewrite IH]. Qed.

Lemma ws_update_idem (c line : nat) (v : cell) (ws : worksheet) :
  ws_update c line v (ws_update c line v ws) = ws_update c line v ws.
Proof.
  destruct line as [|[|i]]; try done. unfold ws_update. cbn [ws_header ws_body].
  f_equal. apply set_nth_pad_idem. intros r. apply set_nth_pad_idem. done.
Qed.

Lemma first_index_snoc (keys : list string) (key : string) :
  key ∉ keys → first_index key (keys ++ [key]) = Some (length keys).
Proof.
  intros Hk. apply first_index_first_match. split.
  - by rewrite lookup_app_r, Nat.sub_diag by lia.
  - intros j Hj Hl. rewrite lookup_app_l in Hl by done.
    apply Hk. by eapply list_elem_of_lookup_2.
Qed.

Lemma key_column_append (ws : worksheet) (key : string) (vs : list cell) :
  key_column num_str 0 (ws_append_row (CStr key :: vs) ws)
  = key_column num_str 0 ws ++ [key].
Proof. unfold key_column, ws_append_row. cbn [ws_body]. by rewrite !fmap_app. Qed.

Lemma upserted_header (category : string) (amount : Q) (ws : worksheet) :
  ws_header (upserted num_str category amount ws) = ws_header ws.
Proof.
  unfold upserted. destruct (first_index _ _) as [i|]; [|done].
  by replace (i + 2)%nat with (S (S i)) by lia.
Qed.

Lemma upserted_body_nonempty (category : string) (amount : Q) (ws : worksheet) :
  ws_body (upserted num_str category amount ws) ≠ [].
Proof.
  unfold upserted. destruct (first_index _ _) as [i|].
  - replace (i + 2)%nat with (S (S i)) by lia. unfold ws_update. cbn [ws_body].
    by destruct i, (ws_body ws).
  - unfold ws_append_row. cbn [ws_body]. by destruct (ws_body ws).
Qed.

(** After the upsert the category is a key of the tab, its first row
    carries the new amount, and the keys are the old keys, with the
    category added at the end if it was missing. *)
Lemma upserted_row (category : string) (amount : Q) (ws : worksheet) :
  ∃ i r,
    first_match (key_column num_str 0 (upserted num_str category amount ws)) category i
    ∧ ws_body (upserted num_str category amount ws) !! i = Some r
    ∧ row_cell 1 r = CNum amount
    ∧ key_column num_str 0 (upserted num_str category amount ws)
      = (if decide (category ∈ key_column num_str 0 ws)
         then key_column num_str 0 ws
         else key_column num_str 0 ws ++ [category]).
Proof.
  unfold upserted.
  destruct (first_index category (key_column num_str 0 ws)) as [i|] eqn:Ei.
  - apply first_index_first_match in Ei.
    pose proof (first_match_in_range _ _ _ Ei) as Hi. rewrite key_column_length in Hi.
    destruct (ws_update_in_place 1 (CNum amount) i ws Hi)
      as (_ & Hup). pose proof Hup as (_ & _ & r & r' & _ & Hr' & Hset & _).
    assert (key_column num_str 0 (ws_update 1 (i + 2) (CNum amount) ws)
            = key_column num_str 0 ws) as Hkeys
      by (eapply updated_in_place_keys; [|done]; set_solver).
    exists i, r'. rewrite Hkeys. split; [done|]. split; [done|].
    split; [apply Hset; by left|].
    rewrite decide_True; [done|]. destruct Ei as [Ei _]. by eapply list_elem_of_lookup_2.
  - apply first_index_None in Ei. rewrite key_column_append.
    exists (length (ws_body ws)), [CStr category; CNum amount].
    split; [|split; [|split]].
    + apply first_index_first_match.
      rewrite <- (key_column_length num_str 0). by apply first_index_snoc.
    + unfold ws_append_row. cbn [ws_body].
      by rewrite lookup_app_r, Nat.sub_diag by lia.
    + done.
    + by rewrite decide_False.
Qed.

Lemma upserted_idem (category : string) (amount : Q) (ws : worksheet) :
  upserted num_str category amount (upserted num_str category amount ws)
  = upserted num_str category amount ws.
Proof.
  unfold upserted at 2 3.
  destruct (first_index category (key_column num_str 0 ws)) as [i|] eqn:Ei.
  - pose proof Ei as Hfm. apply first_index_first_match in Hfm.
    pose proof (first_match_in_range _ _ _ Hfm) as Hi. rewrite key_column_length in Hi.
    destruct (ws_update_in_place 1 (CNum amount) i ws Hi) as (_ & Hup).
    assert (key_column num_str 0 (ws_update 1 (i + 2) (CNum amount) ws)
            = key_column num_str 0 ws) as Hkeys
      by (eapply updated_in_place_keys; [|done]; set_solver).
    unfold upserted. rewrite Hkeys, Ei. apply ws_update_idem.
  - pose proof Ei as Hnone. apply first_index_None in Hnone.
    unfold upserted. rewrite key_column_append, first_index_snoc by done.
    rewrite key_column_length. unfold ws_update, ws_append_row.
    replace (length (ws_body ws) + 2)%nat with (S (S (length (ws_body ws)))) by lia.
    cbn [ws_header ws_body]. by rewrite set_nth_pad_snoc.
Qed.

(** The budget form on the default spreadsheet, for a Budgets tab with
    at least one row: the handler succeeds, empties the cache and leaves
    the tab upserted; the reload returns that tab; and submitting the same
    values again changes nothing. *)
Lemma budget_submit_then_reload (s : state) (ws : worksheet)
    (new_cat : string) (amount : Q) :
  new_cat ≠ "" → cache_coherent s →
  remote s !! (SHEET_NAME, BUDGETS_SHEET) = Some ws →
  ws_header ws = budgets_schema → ws_body ws ≠ [] →
  let ws' := upserted num_str new_cat amount ws in
  let s' := mkState (<[(SHEET_NAME, BUDGETS_SHEET) := ws']> (remote s)) ∅ in
  budget_submit num_str new_cat amount s = (Done (), s')
  ∧ (load_sheet_dataframe BUDGETS_SHEET SHEET_NAME s').1
    = Done (mkDataFrame (ws_header ws) (ws_body ws'), (SHEET_NAME, BUDGETS_SHEET))
  ∧ budget_submit num_str new_cat amount s' = (Done (), s').
Proof.
  intros Hcat Hcoh Hws Hhd Hbody ws' s'.
  assert (∀ s0 ws0, cache_coherent s0 →
            remote s0 !! (SHEET_NAME, BUDGETS_SHEET) = Some ws0 →
            ws_header ws0 = budgets_schema → ws_body ws0 ≠ [] →
            budget_submit num_str new_cat amount s0
            = (Done (), mkState (<[(SHEET_NAME, BUDGETS_SHEET) :=
                                     upserted num_str new_cat amount ws0]> (remote s0)) ∅))
    as Hrun.
  { intros s0 ws0 Hc0 Hw0 Hh0 Hb0. unfold budget_submit, bind.
    rewrite decide_False by done.
    rewrite (update_budget_row_run num_str s0 SHEET_NAME ws0 new_cat amount 0);
      [done..|]. rewrite Hh0. apply column_index_head. }
  split; [by apply Hrun|]. split.
  - unfold load_sheet_dataframe, s'. cbn [remote cache].
    rewrite lookup_empty, lookup_insert_eq. cbn [fst]. do 2 f_equal.
    unfold records_frame. pose proof (upserted_body_nonempty new_cat amount ws) as Hne.
    pose proof (upserted_header new_cat amount ws) as Hh.
    fold ws' in Hne, Hh. destruct (ws_body ws') eqn:E; [done|].
    by rewrite Hh.
  - rewrite (Hrun s' ws').
    + unfold s'. cbn [remote]. unfold ws'. by rewrite upserted_idem, insert_insert_eq.
    + apply empty_cache_coherent.
    + unfold s'. cbn [remote]. apply lookup_insert_eq.
    + unfold ws'. by rewrite upserted_header.
    + apply upserted_body_nonempty.
Qed.

(** With at most one row per category beforehand, the reloaded tab has
    exactly one row for the category, and it carries the new amount. *)
Lemma upserted_exactly_one (category : string) (amount : Q) (ws : worksheet) :
  NoDup (key_column num_str 0 ws) →
  ∃ i r,
    (∀ j, key_column num_str 0 (upserted num_str category amount ws) !! j = Some category
          ↔ j = i)
    ∧ ws_body (upserted num_str category amount ws) !! i = Some r
    ∧ row_cell 1 r = CNum amount.
Proof.
  intros Hnd. destruct (upserted_row category amount ws) as (i & r & Hfm & Hr & Hv & Hk).
  exists i, r. split; [|done].
  assert (NoDup (key_column num_str 0 (upserted num_str category amount ws))) as Hnd'.
  { rewrite Hk. destruct (decide (category ∈ key_column num_str 0 ws)); [done|].
    apply NoDup_app. split; [done|]. split; [|apply NoDup_singleton].
    intros x Hx ->%list_elem_of_singleton. done. }
  destruct Hfm as [Hi _]. intros j. split.
  - intros Hj. by eapply NoDup_lookup.
  - by intros ->.
Qed.

End BudgetUpsert.

(** ** Normalisation *)

(** Membership in a list given by its elements. *)
Ltac in_list :=
  simpl; repeat first [apply list_elem_of_here | apply list_elem_of_further].

Section NormalizerFacts.
Variable parse_datetime : string → option Timestamp.
Variable number_datetime : Q → option Timestamp.
Variable parse_number : string → option Q.

#[local] Abbreviation to_datetime_cell := (to_datetime_cell parse_datetime number_datetime).
#[local] Abbreviation to_numeric_fillna := (to_numeric_fillna parse_number).
#[local] Abbreviation normalize_transactions :=
  (normalize_transactions parse_datetime number_datetime parse_number).
#[local] Abbreviation normalize_budgets := (normalize_budgets parse_number).
#[local] Abbreviation normalize_goals := (normalize_goals parse_number).

Lemma row_value_untouched (j : nat) (r : list cell) :
  row_value j (untouched r) = VCell (row_cell j r).
Proof.
  unfold row_value, untouched, row_cell. rewrite list_lookup_fmap.
  by destruct (r !! j).
Qed.

Lemma row_value_set (k : nat) (v : value) (r : list value) :
  row_value k (set_nth_pad (VCell blank) k (λ _, v) r) = v.
Proof. unfold row_value. by rewrite set_nth_pad_lookup. Qed.

Lemma row_value_set_ne (k j : nat) (v : value) (r : list value) :
  j ≠ k → row_value j (set_nth_pad (VCell blank) k (λ _, v) r) = row_value j r.
Proof. intros Hne. unfold row_value. by apply set_nth_pad_default. Qed.

Lemma set_column_lookup (k : nat) (new : list value) (rows : list (list value))
    (i : nat) (r : list value) (v : value) :
  rows !! i = Some r → new !! i = Some v →
  set_column k new rows !! i = Some (set_nth_pad (VCell blank) k (λ _, v) r).
Proof.
  intros Hr Hv. unfold set_column. rewrite lookup_zip_with, Hr. simpl. by rewrite Hv.
Qed.

Lemma set_column_length (k : nat) (new : list value) (rows : list (list value)) :
  length new = length rows → length (set_column k new rows) = length rows.
Proof. intros Hl. unfold set_column. rewrite length_zip_with. lia. Qed.

Lemma numeric_column_lookup (k : nat) (raw : list (list cell))
    (rows : list (list value)) (i : nat) (r : list cell) (r' : list value) :
  raw !! i = Some r → rows !! i = Some r' →
  numeric_column parse_number k raw rows !! i
  = Some (set_nth_pad (VCell blank) k
            (λ _, VFloat (to_numeric_fillna (row_cell k r))) r').
Proof.
  intros Hr Hr'. unfold numeric_column. apply set_column_lookup; [done|].
  by rewrite list_lookup_fmap, Hr.
Qed.

Lemma numeric_column_length (k : nat) (raw : list (list cell))
    (rows : list (list value)) :
  length raw = length rows →
  length (numeric_column parse_number k raw rows) = length rows.
Proof.
  intros Hl. unfold numeric_column. apply set_column_length. by rewrite length_fmap.
Qed.

Lemma column_index_Some (name : string) (cols : list string) (k : nat) :
  column_index name cols = Some k → cols !! k = Some name.
Proof.
  unfold column_index. destruct (list_find _ cols) as [[k' c]|] eqn:E; [|done].
  intros [= ->]. by apply list_find_Some in E as (Hl & -> & _).
Qed.

Lemma column_index_ne (n1 n2 : string) (cols : list string) (k1 k2 : nat) :
  n1 ≠ n2 → column_index n1 cols = Some k1 → column_index n2 cols = Some k2 →
  k1 ≠ k2.
Proof.
  intros Hne H1%column_index_Some H2%column_index_Some ->. congruence.
Qed.

(** What does not parse as a number counts as 0. *)
Lemma to_numeric_unparsable (s : string) :
  parse_number s = None → to_numeric_fillna (CStr s) = 0%Q.
Proof. intros H. unfold Normalizer.to_numeric_fillna. by rewrite H. Qed.

(** A blank date is no error: it becomes the null timestamp. *)
Lemma to_datetime_blank : to_datetime_cell blank = Some VNaT.
Proof. done. Qed.

(** One date that does not parse fails the whole Transactions batch. *)
Lemma normalize_transactions_bad_date (df : DataFrame cell) (kd : nat)
    (r : list cell) :
  df_empty df = false → column_index "Date" (df_columns df) = Some kd →
  r ∈ df_data df → to_datetime_cell (row_cell kd r) = None →
  normalize_transactions df = Raised ParseError.
Proof.
  intros Hne Hkd Hr Hbad. unfold Normalizer.normalize_transactions.
  rewrite Hne, Hkd.
  assert (mapM (M := option) (λ r, to_datetime_cell (row_cell kd r)) (df_data df) = None)
    as ->; [|done].
  apply mapM_None, Exists_exists. eauto.
Qed.

(** When every date parses or is blank the batch is kept whole: same
    number of rows, dates converted (blank to NaT), amounts coerced, all
    other columns untouched. *)
Lemma normalize_transactions_ok (df : DataFrame cell) (kd ka : nat) :
  df_empty df = false → column_index "Date" (df_columns df) = Some kd →
  column_index "Amount" (df_columns df) = Some ka →
  (∀ r, r ∈ df_data df → to_datetime_cell (row_cell kd r) ≠ None) →
  ∃ rows, normalize_transactions df = Done (mkDataFrame (df_columns df) rows)
    ∧ length rows = length (df_data df)
    ∧ ∀ i r, df_data df !! i = Some r →
        ∃ r' d, rows !! i = Some r'
          ∧ to_datetime_cell (row_cell kd r) = Some d
          ∧ row_converted
              [(kd, d); (ka, VFloat (to_numeric_fillna (row_cell ka r)))] r r'.
Proof.
  intros Hne Hkd Hka Hok. unfold Normalizer.normalize_transactions.
  rewrite Hne, Hkd, Hka.
  destruct (mapM (M := option) _ (df_data df)) as [dates|] eqn:Ed.
  - apply mapM_Some in Ed. pose proof (Forall2_length _ _ _ Ed) as Hlen.
    eexists. split; [done|]. split.
    + rewrite numeric_column_length; rewrite set_column_length; rewrite ?length_fmap; done.
    + intros i r Hr.
      destruct (Forall2_lookup_l _ _ _ _ _ Ed Hr) as (d & Hd & Hparse).
      eexists _, d. split; [|split; [done|]].
      * apply numeric_column_lookup; [done|]. apply set_column_lookup; [|done].
        by rewrite list_lookup_fmap, Hr.
      * assert (ka ≠ kd) as Hneq by by eapply (column_index_ne "Amount" "Date").
        split.
        -- intros k v [[= -> ->]|[= -> ->]%list_elem_of_singleton]%elem_of_cons.
           ++ rewrite row_value_set_ne by done. apply row_value_set.
           ++ apply row_value_set.
        -- intros j Hj. rewrite !row_value_set_ne, row_value_untouched; [done|..];
             intros ->; apply Hj; in_list.
  - apply mapM_None, Exists_exists in Ed as (r & Hr & Hbad). by destruct (Hok r Hr).
Qed.

Lemma normalize_budgets_ok (df : DataFrame cell) (kb : nat) :
  df_empty df = false → column_index "Monthly Budget" (df_columns df) = Some kb →
  ∃ rows, normalize_budgets df = Done (mkDataFrame (df_columns df) rows)
    ∧ length rows = length (df_data df)
    ∧ ∀ i r, df_data df !! i = Some r →
        ∃ r', rows !! i = Some r'
          ∧ row_converted [(kb, VFloat (to_numeric_fillna (row_cell kb r)))] r r'.
Proof.
  intros Hne Hkb. unfold Normalizer.normalize_budgets. rewrite Hne, Hkb.
  eexists. split; [done|]. split.
  - rewrite numeric_column_length; rewrite ?length_fmap; done.
  - intros i r Hr. eexists. split.
    + apply numeric_column_lookup; [done|]. by rewrite list_lookup_fmap, Hr.
    + split.
      * intros k v [= -> ->]%list_elem_of_singleton. apply row_value_set.
      * intros j Hj. rewrite row_value_set_ne, row_value_untouched; [done|].
        intros ->. apply Hj. in_list.
Qed.

Lemma normalize_goals_ok (df : DataFrame cell) (kt kc : nat) :
  df_empty df = false → column_index "Target Amount" (df_columns df) = Some kt →
  column_index "Current Saved" (df_columns df) = Some kc →
  ∃ rows, normalize_goals df = Done (mkDataFrame (df_columns df) rows)
    ∧ length rows = length (df_data df)
    ∧ ∀ i r, df_data df !! i = Some r →
        ∃ r', rows !! i = Some r'
          ∧ row_converted
              [(kt, VFloat (to_numeric_fillna (row_cell kt r)));
               (kc, VFloat (to_numeric_fillna (row_cell kc r)))] r r'.
Proof.
  intros Hne Hkt Hkc. unfold Normalizer.normalize_goals. rewrite Hne, Hkt, Hkc.
  eexists. split; [done|]. split.
  - rewrite numeric_column_length; rewrite numeric_column_length; by rewrite length_fmap.
  - intros i r Hr. eexists. split.
    + apply numeric_column_lookup; [done|]. apply numeric_column_lookup; [done|].
      by rewrite list_lookup_fmap, Hr.
    + assert (kc ≠ kt) as Hneq
        by by eapply (column_index_ne "Current Saved" "Target Amount").
      split.
      * intros k v [[= -> ->]|[= -> ->]%list_elem_of_singleton]%elem_of_cons.
        -- rewrite row_value_set_ne by done. apply row_value_set.
        -- apply row_value_set.
      * intros j Hj. rewrite !row_value_set_ne, row_value_untouched; [done|..];
          intros ->; apply Hj; in_list.
Qed.

End NormalizerFacts.

(** C7 (amended): the two error policies of normalisation.  A date that is
    present and does not parse fails the whole non-empty Transactions batch.
    A missing (blank) date does not: it becomes the null timestamp, and a
    batch whose dates all parse or are blank keeps every row.  A numeric
    field (Amount, Monthly Budget, Target Amount, Current Saved) that does
    not parse becomes 0 and its row is kept, all other columns untouched. *)
Theorem normalize_error_policy (parse_datetime : string → option Timestamp)
    (number_datetime : Q → option Timestamp) (parse_number : string → option Q) :
  let to_datetime := to_datetime_cell parse_datetime number_datetime in
  let to_numeric := to_numeric_fillna parse_number in
  (∀ df kd r,
     df_empty df = false → column_index "Date" (df_columns df) = Some kd →
     r ∈ df_data df → to_datetime (row_cell kd r) = None →
     normalize_transactions parse_datetime number_datetime parse_number df
     = Raised ParseError)
  ∧ to_datetime blank = Some VNaT
  ∧ (∀ df kd ka,
       df_empty df = false → column_index "Date" (df_columns df) = Some kd →
       column_index "Amount" (df_columns df) = Some ka →
       (∀ r, r ∈ df_data df → to_datetime (row_cell kd r) ≠ None) →
       ∃ rows,
         normalize_transactions parse_datetime number_datetime parse_number df
         = Done (mkDataFrame (df_columns df) rows)
         ∧ length rows = length (df_data df)
         ∧ ∀ i r, df_data df !! i = Some r →
             ∃ r' d, rows !! i = Some r' ∧ to_datetime (row_cell kd r) = Some d
               ∧ row_converted [(kd, d); (ka, VFloat (to_numeric (row_cell ka r)))] r r')
  ∧ (∀ s, parse_number s = None → to_numeric (CStr s) = 0%Q)
  ∧ (∀ df kb,
       df_empty df = false →
       column_index "Monthly Budget" (df_columns df) = Some kb →
       ∃ rows,
         normalize_budgets parse_number df = Done (mkDataFrame (df_columns df) rows)
         ∧ length rows = length (df_data df)
         ∧ ∀ i r, df_data df !! i = Some r →
             ∃ r', rows !! i = Some r'
               ∧ row_converted [(kb, VFloat (to_numeric (row_cell kb r)))] r r')
  ∧ (∀ df kt kc,
       df_empty df = false →
       column_index "Target Amount" (df_columns df) = Some kt →
       column_index "Current Saved" (df_columns df) = Some kc →
       ∃ rows,
         normalize_goals parse_number df = Done (mkDataFrame (df_columns df) rows)
         ∧ length rows = length (df_data df)
         ∧ ∀ i r, df_data df !! i = Some r →
             ∃ r', rows !! i = Some r'
               ∧ row_converted [(kt, VFloat (to_numeric (row_cell kt r)));
                                (kc, VFloat (to_numeric (row_cell kc r)))] r r').
Proof.
  intros to_datetime to_numeric. split; [|split; [|split; [|split; [|split]]]].
  - apply normalize_transactions_bad_date.
  - done.
  - apply normalize_transactions_ok.
  - apply to_numeric_unparsable.
  - apply normalize_budgets_ok.
  - apply normalize_goals_ok.
Qed.

(** A parser for the examples: it knows one date and nothing else. *)
Lemma normalize_error_policy_witness :
  let parse_datetime := λ s, if decide (s = "2025-10-07")
                             then Some (mkTimestamp 2025 10 7 0) else None in
  let none_q : Q → option Timestamp := λ _, None in
  let parse_number : string → option Q := λ _, None in
  let good := expense_row "2025-10-07" "Food" "lunch" 12.5 "Visa" "" "You" in
  let bad := expense_row "next week" "Food" "dinner" 30 "Cash" "" "Partner" in
  let undated := expense_row "" "Food" "snack" 3 "Cash" "" "You" in
  normalize_transactions parse_datetime none_q parse_number
    (mkDataFrame transactions_schema [good; bad]) = Raised ParseError
  ∧ (∃ rows,
       normalize_transactions parse_datetime none_q parse_number
         (mkDataFrame transactions_schema [good; undated])
       = Done (mkDataFrame transactions_schema rows)
       ∧ length rows = 2%nat)
  ∧ ∃ rows,
      normalize_budgets parse_number
        (mkDataFrame budgets_schema [[CStr "Food"; CStr "five hundred"]])
      = Done (mkDataFrame budgets_schema rows)
      ∧ length rows = 1%nat.
Proof.
  intros parse_datetime none_q parse_number good bad undated.
  destruct (normalize_error_policy parse_datetime none_q parse_number)
    as (Hbad & _ & Hok & _ & Hbudgets & _).
  split; [|split].
  - apply (Hbad (mkDataFrame transactions_schema [good; bad]) 0%nat bad).
    + reflexivity.
    + reflexivity.
    + in_list.
    + reflexivity.
  - destruct (Hok (mkDataFrame transactions_schema [good; undated]) 0%nat 3%nat)
      as (rows & Hrun & Hlen & _).
    + reflexivity.
    + reflexivity.
    + reflexivity.
    + intros r [->|[->|[]%elem_of_nil]%elem_of_cons]%elem_of_cons; discriminate.
    + exists rows. split; [exact Hrun | exact Hlen].
  - destruct (Hbudgets (mkDataFrame budgets_schema [[CStr "Food"; CStr "five hundred"]])
                1%nat) as (rows & Hrun & Hlen & _).
    + reflexivity.
    + reflexivity.
    + exists rows. split; [exact Hrun | exact Hlen].
Defined.

(** A Transactions batch with a missing date is normalised without error,
    even by a parser that accepts no text at all: the row is kept and its
    date is the null timestamp. *)
Lemma missing_date_is_kept :
  let reject : string → option Timestamp := λ _, None in
  let df := mkDataFrame transactions_schema
              [expense_row "" "Food" "lunch" 12.5 "Visa" "" "You"] in
  ∃ r', normalize_transactions reject (λ _, None) (λ _, None) df
        = Done (mkDataFrame transactions_schema [r'])
        ∧ row_value 0 r' = VNaT.
Proof. eexists. split; reflexivity. Qed.

(** An empty table is given the columns written in the normaliser. *)
Lemma normalize_empty (parse_datetime : string → option Timestamp)
    (number_datetime : Q → option Timestamp) (parse_number : string → option Q)
    (df : DataFrame cell) :
  df_empty df = true →
  normalize_transactions parse_datetime number_datetime parse_number df
  = Done (empty_frame transactions_empty_columns)
  ∧ normalize_budgets parse_number df = Done (empty_frame budgets_schema)
  ∧ normalize_goals parse_number df = Done (empty_frame goals_schema).
Proof.
  intros He. unfold normalize_transactions, normalize_budgets, normalize_goals.
  by rewrite He.
Qed.

Lemma records_frame_empty (ws : worksheet) :
  ws_body ws = [] → df_empty (records_frame ws) = true.
Proof. intros H. unfold records_frame. by rewrite H. Qed.

(** C9 (defect): a Transactions tab without data rows is given six
    columns, "Payer" not among them, while the tab has seven, the seventh
    being the payer that the expense form writes; Budgets and Goals get
    their full headers. *)
Theorem empty_transactions_lack_payer :
  ∀ (parse_datetime : string → option Timestamp)
    (number_datetime : Q → option Timestamp) (parse_number : string → option Q),
  let loaded := records_frame (mkWorksheet transactions_schema []) in
  ∃ df, normalize_transactions parse_datetime number_datetime parse_number loaded
        = Done df
    ∧ df_data df = []
    ∧ df_columns df
      = ["Date"; "Category"; "Description"; "Amount"; "Payment Method"; "Notes"]
    ∧ df_columns df ≠ transactions_schema
    ∧ ("Payer" ∉ df_columns df)
    ∧ (∀ d c n a m o p, length (expense_row d c n a m o p) = length transactions_schema)
    ∧ normalize_budgets parse_number (records_frame (mkWorksheet budgets_schema []))
      = Done (empty_frame budgets_schema)
    ∧ normalize_goals parse_number (records_frame (mkWorksheet goals_schema []))
      = Done (empty_frame goals_schema).
Proof.
  intros pd nd pn loaded. eexists. split; [reflexivity|].
  repeat split; try done.
  apply (bool_decide_unpack _). by vm_compute.
Qed.


(** ** The cache along a run of the script *)

(** A load keeps the cache coherent and does not touch the store. *)
Lemma load_sheet_dataframe_keeps_coherent (s : state) (sheet_name sp : string) :
  cache_coherent s →
  cache_coherent (load_sheet_dataframe sheet_name sp s).2
  ∧ remote (load_sheet_dataframe sheet_name sp s).2 = remote s.
Proof.
  intros Hcoh. unfold load_sheet_dataframe.
  destruct (cache s !! (sheet_name, sp)) as [df|] eqn:Ec; [done|].
  destruct (remote s !! (sp, sheet_name)) as [ws|] eqn:Er; [|done].
  split; [|done]. intros sh sp' df. cbn [snd cache remote].
  destruct (decide ((sheet_name, sp) = (sh, sp'))) as [[= <- <-]|Hne].
  - rewrite lookup_insert_eq. intros [= <-]. eauto.
  - rewrite lookup_insert_ne by done. apply Hcoh.
Qed.

Lemma clear_after_write (m : M ()) (s : state) :
  fails_clean m → cache_coherent s →
  cache_coherent (bind m (λ _, cache_clear) s).2.
Proof.
  intros Hm Hcoh. specialize (Hm s Hcoh). unfold bind.
  destruct (m s) as [[[]| |e] s']; [apply empty_cache_coherent|done..].
Qed.

Lemma ws_write_after_load (s : state) (sheet_name sp : string)
    (f : worksheet → worksheet) :
  cache_coherent s →
  match bind (load_sheet_dataframe sheet_name sp) (λ '(_, ws), ws_write ws f) s with
  | (Done _, _) => True
  | (_, s') => cache_coherent s'
  end.
Proof.
  intros Hcoh. unfold bind.
  destruct (load_sheet_dataframe_keeps_coherent s sheet_name sp Hcoh) as [Hc Hr].
  unfold load_sheet_dataframe in *.
  destruct (cache s !! (sheet_name, sp)) as [df|]; cbn [snd] in *.
  - unfold ws_write. by destruct (remote s !! (sp, sheet_name)).
  - destruct (remote s !! (sp, sheet_name)) as [ws|] eqn:Er; [|done].
    unfold ws_write. cbn [remote]. by rewrite Er.
Qed.

Lemma append_transaction_fails_clean (row : list cell) (sp : string) :
  fails_clean (append_transaction row sp).
Proof. intros s Hcoh. by apply ws_write_after_load. Qed.

Section Coherence.
Variable num_str : Q → string.

Lemma update_budget_row_fails_clean (category : string) (amount : Q) (sp : string) :
  fails_clean (update_budget_row num_str category amount sp).
Proof.
  intros s Hcoh. unfold update_budget_row, bind.
  destruct (load_sheet_dataframe_keeps_coherent s BUDGETS_SHEET sp Hcoh) as [Hc Hr].
  destruct (load_sheet_dataframe BUDGETS_SHEET sp s) as [[[df h]| |e] s1] eqn:El;
    cbn [snd] in *; [|done..].
  destruct (df_getitem df "Category") as [col|]; cbn [lift_option ret raise]; [|done].
  destruct (decide _).
  - destruct (first_index _ _); cbn [lift_option ret raise]; [|done].
    unfold ws_write. by destruct (remote s1 !! h).
  - unfold ws_write. by destruct (remote s1 !! h).
Qed.

Lemma update_goal_row_fails_clean (goal_name : string) (target current : Q)
    (sp : string) :
  fails_clean (update_goal_row num_str goal_name target current sp).
Proof.
  intros s Hcoh. unfold update_goal_row, bind.
  destruct (load_sheet_dataframe_keeps_coherent s GOALS_SHEET sp Hcoh) as [Hc Hr].
  destruct (load_sheet_dataframe GOALS_SHEET sp s) as [[[df h]| |e] s1] eqn:El;
    cbn [snd] in *; [|done..].
  destruct (df_getitem df "Goal Name") as [col|]; cbn [lift_option ret raise]; [|done].
  destruct (decide _).
  - destruct (first_index _ _); cbn [lift_option ret raise]; [|done].
    unfold ws_write. destruct (remote s1 !! h); [|done].
    cbn [remote]. by rewrite lookup_insert_eq.
  - unfold ws_write. by destruct (remote s1 !! h).
Qed.

(** Invariant of the script: every submit handler takes a coherent cache
    to a coherent cache, whether it writes, warns, or fails. *)
Lemma submit_keeps_coherent (s : state) :
  cache_coherent s →
  (∀ row, cache_coherent (add_expense_submit row s).2)
  ∧ (∀ new_cat amount, cache_coherent (budget_submit num_str new_cat amount s).2)
  ∧ (∀ goal_name target current,
       cache_coherent (goal_submit num_str goal_name target current s).2).
Proof.
  intros Hcoh. split; [|split].
  - intros row. apply clear_after_write; [apply append_transaction_fails_clean|done].
  - intros new_cat amount. unfold budget_submit. destruct (decide _); [done|].
    apply clear_after_write; [apply update_budget_row_fails_clean|done].
  - intros goal_name target current. unfold goal_submit. destruct (decide _); [done|].
    apply clear_after_write; [apply update_goal_row_fails_clean|done].
Qed.

End Coherence.

(** The rows that pass the date filter carry a date. *)
Lemma filterByDateRange_dated (transactions : list Transaction)
    (start_date end_date : date) (t : Transaction) :
  t ∈ filterByDateRange transactions start_date end_date → is_Some (Date t).
Proof.
  unfold filterByDateRange, date_mask. rewrite (loc_mask_filter _ (in_range start_date end_date)).
  - intros [Hr _]%list_elem_of_filter. unfold in_range in Hr. by destruct (Date t).
  - intros x. unfold in_range, col_ge, col_le. destruct (Date x); simpl.
    + by rewrite andb_true_iff, !date_le_on_or_before.
    + split; [discriminate|tauto].
Qed.

(** * Further properties of the code *)

(** ** Loads and the cache *)

(** X1: loading a tab twice in a row gives the same frame both times, and
    the second load changes nothing: it is answered from the cache (or
    stops again on a tab that cannot be opened). *)
Theorem load_twice_same (s : state) (sheet_name sp : string) :
  load_sheet_dataframe sheet_name sp (load_sheet_dataframe sheet_name sp s).2
  = load_sheet_dataframe sheet_name sp s.
Proof.
  unfold load_sheet_dataframe.
  destruct (cache s !! (sheet_name, sp)) as [df|] eqn:Ec; cbn [snd].
  - by rewrite Ec.
  - destruct (remote s !! (sp, sheet_name)) as [ws|] eqn:Er; cbn [snd cache remote].
    + by rewrite lookup_insert_eq.
    + by rewrite Ec, Er.
Qed.


Lemma load_present (s : state) (sheet_name sp : string) (ws : worksheet) :
  cache_coherent s → remote s !! (sp, sheet_name) = Some ws →
  ∃ s', load_sheet_dataframe sheet_name sp s
        = (Done (records_frame ws, (sp, sheet_name)), s')
    ∧ cache_coherent s' ∧ remote s' = remote s.
Proof.
  intros Hcoh Hws.
  destruct (load_sheet_dataframe_keeps_coherent s sheet_name sp Hcoh) as [Hc Hr].
  rewrite (load_sheet_dataframe_coherent s sheet_name sp ws Hcoh Hws) in *.
  eexists. split; [done|]. by split.
Qed.

Lemma load_absent (s : state) (sheet_name sp : string) :
  cache_coherent s → remote s !! (sp, sheet_name) = None →
  load_sheet_dataframe sheet_name sp s = (Stopped, s).
Proof.
  intros Hcoh Hws. unfold load_sheet_dataframe.
  destruct (cache s !! (sheet_name, sp)) as [df|] eqn:Ec.
  - destruct (Hcoh _ _ _ Ec) as (ws & Hws' & _). congruence.
  - by rewrite Hws.
Qed.

Lemma records_frame_rows (ws : worksheet) : df_data (records_frame ws) = ws_body ws.
Proof. unfold records_frame. by destruct (ws_body ws). Qed.

(** X2: a write that is not followed by [clear()] is not seen by the next
    load.  With the Transactions frame in the cache, appending a row and
    loading again returns the frame from before the append, although the
    tab now holds the row. *)
Theorem append_then_load_without_clear_is_stale (s : state) (sp : string)
    (ws : worksheet) (row : list cell) :
  cache s !! (TRANSACTIONS_SHEET, sp) = Some (records_frame ws) →
  remote s !! (sp, TRANSACTIONS_SHEET) = Some ws →
  ∃ s', (append_transaction row sp;;
         load_sheet_dataframe TRANSACTIONS_SHEET sp)%run s
        = (Done (records_frame ws, (sp, TRANSACTIONS_SHEET)), s')
    ∧ remote s' !! (sp, TRANSACTIONS_SHEET) = Some (ws_append_row row ws)
    ∧ length (df_data (records_frame (ws_append_row row ws)))
      = S (length (df_data (records_frame ws))).
Proof.
  intros Hc Hr. unfold append_transaction, bind, load_sheet_dataframe, ws_write.
  rewrite Hc. cbn [remote cache]. rewrite Hr. cbn [remote cache]. rewrite Hc.
  eexists. split; [done|]. cbn [remote]. split; [apply lookup_insert_eq|].
  rewrite !records_frame_rows. unfold ws_append_row. cbn [ws_body].
  rewrite length_app. simpl. lia.
Qed.

Lemma append_then_load_without_clear_is_stale_witness :
  let old := expense_row "2025-10-01" "Rent" "October" 1200 "Checking" "" "You" in
  let ws := mkWorksheet transactions_schema [old] in
  let s := mkState {[ (SHEET_NAME, TRANSACTIONS_SHEET) := ws ]}
                   {[ (TRANSACTIONS_SHEET, SHEET_NAME) := records_frame ws ]} in
  let row := expense_row "2025-10-07" "Food" "lunch" 12.5 "Visa" "" "You" in
  ∃ s', (append_transaction row SHEET_NAME;;
         load_sheet_dataframe TRANSACTIONS_SHEET SHEET_NAME)%run s
        = (Done (records_frame ws, (SHEET_NAME, TRANSACTIONS_SHEET)), s')
    ∧ remote s' !! (SHEET_NAME, TRANSACTIONS_SHEET) = Some (ws_append_row row ws)
    ∧ length (df_data (records_frame (ws_append_row row ws)))
      = S (length (df_data (records_frame ws))).
Proof.
  intros old ws s row.
  apply (append_then_load_without_clear_is_stale s SHEET_NAME ws row).
  - apply lookup_singleton_eq.
  - apply lookup_singleton_eq.
Defined.

(** X3: the loads at the top of the script.  From a coherent cache they
    return the three tabs of the selected spreadsheet as a fresh read would,
    and leave the store alone; if one of the three tabs is missing the run
    stops, again without touching the store. *)
Theorem load_data_reads_selected (s : state) (sp : string) :
  cache_coherent s →
  (∀ tx bg gl,
     remote s !! (sp, TRANSACTIONS_SHEET) = Some tx →
     remote s !! (sp, BUDGETS_SHEET) = Some bg →
     remote s !! (sp, GOALS_SHEET) = Some gl →
     ∃ s', load_data sp s
           = (Done (records_frame tx, records_frame bg, records_frame gl), s')
       ∧ cache_coherent s' ∧ remote s' = remote s)
  ∧ (remote s !! (sp, TRANSACTIONS_SHEET) = None
     ∨ remote s !! (sp, BUDGETS_SHEET) = None
     ∨ remote s !! (sp, GOALS_SHEET) = None →
     (load_data sp s).1 = Stopped ∧ remote (load_data sp s).2 = remote s).
Proof.
  intros Hcoh. split.
  - intros tx bg gl Htx Hbg Hgl. unfold load_data, bind.
    destruct (load_present s TRANSACTIONS_SHEET sp tx Hcoh Htx) as (s1 & -> & Hc1 & Hr1).
    rewrite <- Hr1 in Hbg, Hgl.
    destruct (load_present s1 BUDGETS_SHEET sp bg Hc1 Hbg) as (s2 & -> & Hc2 & Hr2).
    rewrite <- Hr2 in Hgl.
    destruct (load_present s2 GOALS_SHEET sp gl Hc2 Hgl) as (s3 & -> & Hc3 & Hr3).
    eexists. split; [done|]. split; [done|]. congruence.
  - intros Hmiss. unfold load_data, bind.
    destruct (remote s !! (sp, TRANSACTIONS_SHEET)) as [tx|] eqn:Htx;
      [|by rewrite (load_absent s TRANSACTIONS_SHEET sp Hcoh Htx)].
    destruct (load_present s TRANSACTIONS_SHEET sp tx Hcoh Htx) as (s1 & -> & Hc1 & Hr1).
    destruct (remote s !! (sp, BUDGETS_SHEET)) as [bg|] eqn:Hbg.
    + rewrite <- Hr1 in Hbg.
      destruct (load_present s1 BUDGETS_SHEET sp bg Hc1 Hbg) as (s2 & -> & Hc2 & Hr2).
      destruct (remote s !! (sp, GOALS_SHEET)) as [gl|] eqn:Hgl;
        [destruct Hmiss as [?|[?|?]]; done|].
      rewrite <- Hr1, <- Hr2 in Hgl.
      rewrite (load_absent s2 GOALS_SHEET sp Hc2 Hgl). cbn [fst snd]. split; [done|congruence].
    + rewrite <- Hr1 in Hbg.
      rewrite (load_absent s1 BUDGETS_SHEET sp Hc1 Hbg). by cbn [fst snd].
Qed.

Lemma load_data_reads_selected_witness :
  let tx := mkWorksheet transactions_schema
              [expense_row "2025-10-01" "Rent" "October" 1200 "Checking" "" "You"] in
  let bg := mkWorksheet budgets_schema [[CStr "Rent"; CNum 1200]] in
  let s := mkState {[ (SHEET_NAME, TRANSACTIONS_SHEET) := tx;
                      (SHEET_NAME, BUDGETS_SHEET) := bg ]} ∅ in
  (load_data SHEET_NAME s).1 = Stopped ∧ remote (load_data SHEET_NAME s).2 = remote s.
Proof.
  intros tx bg s.
  apply (proj2 (load_data_reads_selected s SHEET_NAME (empty_cache_coherent _))).
  right. right. by vm_compute.
Defined.

(** ** The writers *)

(** X4: [append_transaction] puts the row after the last row of the
    Transactions tab of the named spreadsheet; the rows already there, the
    header and every other tab stay as they were.  This holds whatever the
    cache contains: only the worksheet handle of the load is used. *)
Theorem append_transaction_appends (s : state) (sp : string) (ws : worksheet)
    (row : list cell) :
  remote s !! (sp, TRANSACTIONS_SHEET) = Some ws →
  ∃ s', append_transaction row sp s = (Done (), s')
    ∧ remote s' !! (sp, TRANSACTIONS_SHEET)
      = Some (mkWorksheet (ws_header ws) (ws_body ws ++ [row]))
    ∧ ∀ h, h ≠ (sp, TRANSACTIONS_SHEET) → remote s' !! h = remote s !! h.
Proof.
  intros Hws. unfold append_transaction, bind, load_sheet_dataframe, ws_write.
  destruct (cache s !! (TRANSACTIONS_SHEET, sp)) as [df|]; rewrite Hws;
    cbn [remote]; rewrite ?Hws; (eexists; split; [done|]); cbn [remote];
    (split; [apply lookup_insert_eq | intros h Hh; by apply lookup_insert_ne]).
Qed.

Lemma append_transaction_appends_witness :
  let old := expense_row "2025-10-01" "Rent" "October" 1200 "Checking" "" "You" in
  let ws := mkWorksheet transactions_schema [old] in
  let s := mkState {[ (SHEET_NAME, TRANSACTIONS_SHEET) := ws ]} ∅ in
  let row := expense_row "2025-10-07" "Food" "lunch" 12.5 "Visa" "" "You" in
  ∃ s', append_transaction row SHEET_NAME s = (Done (), s')
    ∧ remote s' !! (SHEET_NAME, TRANSACTIONS_SHEET)
      = Some (mkWorksheet transactions_schema [old; row])
    ∧ ∀ h, h ≠ (SHEET_NAME, TRANSACTIONS_SHEET) → remote s' !! h = remote s !! h.
Proof.
  intros old ws s row.
  apply (append_transaction_appends s SHEET_NAME ws row). apply lookup_singleton_eq.
Defined.

(** X5: when the named spreadsheet has no Transactions tab,
    [append_transaction] does not complete and changes neither the store
    nor the cache. *)
Theorem append_transaction_missing_tab (s : state) (sp : string) (row : list cell) :
  remote s !! (sp, TRANSACTIONS_SHEET) = None →
  (append_transaction row sp s).2 = s
  ∧ ((append_transaction row sp s).1 = Stopped
     ∨ (append_transaction row sp s).1 = Raised WorksheetNotFound).
Proof.
  intros Hws. unfold append_transaction, bind, load_sheet_dataframe, ws_write.
  destruct (cache s !! (TRANSACTIONS_SHEET, sp)) as [df|]; rewrite Hws; cbn; auto.
Qed.

Lemma append_transaction_missing_tab_witness :
  let s := mkState {[ (SHEET_NAME, BUDGETS_SHEET) := mkWorksheet budgets_schema [] ]} ∅ in
  let row := expense_row "2025-10-07" "Food" "lunch" 12.5 "Visa" "" "You" in
  (append_transaction row SHEET_NAME s).2 = s
  ∧ ((append_transaction row SHEET_NAME s).1 = Stopped
     ∨ (append_transaction row SHEET_NAME s).1 = Raised WorksheetNotFound).
Proof.
  intros s row. apply (append_transaction_missing_tab s SHEET_NAME row).
  by vm_compute.
Defined.

Section WriterFacts.
Variable num_str : Q → string.

(** What [update_budget_row] does when the frame comes from the cache: the
    row is looked up in the cached frame, the write lands on the tab as it
    is now. *)
Lemma update_budget_row_from_cache (s : state) (sp : string) (df : DataFrame cell)
    (ws : worksheet) (category : string) (amount : Q) (kc : nat) :
  cache s !! (BUDGETS_SHEET, sp) = Some df →
  remote s !! (sp, BUDGETS_SHEET) = Some ws →
  column_index "Category" (df_columns df) = Some kc →
  update_budget_row num_str category amount sp s
  = (Done (),
     mkState
       (<[(sp, BUDGETS_SHEET) :=
            match first_index category
                    (astype_str num_str <$> (row_cell kc <$> df_data df)) with
            | Some i => ws_update 1 (i + 2) (CNum amount) ws
            | None => ws_append_row [CStr category; CNum amount] ws
            end]> (remote s))
       (cache s)).
Proof.
  intros Hc Hws Hkc. unfold update_budget_row, bind, load_sheet_dataframe.
  rewrite Hc. unfold df_getitem. rewrite Hkc. cbn [lift_option ret].
  set (keys := astype_str num_str <$> (row_cell kc <$> df_data df)).
  destruct (decide (category ∈ keys)) as [Hin|Hin].
  - destruct (first_index category keys) as [i|] eqn:Ei;
      [|by apply first_index_None in Ei].
    cbn [lift_option ret]. unfold ws_write. by rewrite Hws.
  - apply first_index_None in Hin. rewrite Hin. unfold ws_write. by rewrite Hws.
Qed.

End WriterFacts.

(** X6: a category that is not among the keys of a Budgets tab with rows
    (compared as exact text) is appended as a new last row holding the
    category and the amount; the rows already there are not touched. *)
Theorem update_budget_row_appends (num_str : Q → string) (s : state) (sp : string)
    (ws : worksheet) (category : string) (amount : Q) :
  cache_coherent s → remote s !! (sp, BUDGETS_SHEET) = Some ws →
  ws_header ws = budgets_schema → ws_body ws ≠ [] →
  category ∉ key_column num_str 0 ws →
  ∃ s', update_budget_row num_str category amount sp s = (Done (), s')
    ∧ remote s' !! (sp, BUDGETS_SHEET)
      = Some (mkWorksheet (ws_header ws)
                (ws_body ws ++ [[CStr category; CNum amount]]))
    ∧ ∀ h, h ≠ (sp, BUDGETS_SHEET) → remote s' !! h = remote s !! h.
Proof.
  intros Hcoh Hws Hhd Hbody Hnew.
  rewrite (update_budget_row_run num_str s sp ws category amount 0); [|done..|].
  - apply first_index_None in Hnew. rewrite Hnew.
    eexists. split; [done|]. cbn [remote].
    split; [apply lookup_insert_eq | intros h Hh; by apply lookup_insert_ne].
  - rewrite Hhd. apply column_index_head.
Qed.

Lemma update_budget_row_appends_witness :
  let ws := mkWorksheet budgets_schema [[CStr "Food"; CNum 500]] in
  let s := mkState {[ (SHEET_NAME, BUDGETS_SHEET) := ws ]} ∅ in
  ∃ s', update_budget_row (λ _, "") "food" 80 SHEET_NAME s = (Done (), s')
    ∧ remote s' !! (SHEET_NAME, BUDGETS_SHEET)
      = Some (mkWorksheet budgets_schema
                [[CStr "Food"; CNum 500]; [CStr "food"; CNum 80]])
    ∧ ∀ h, h ≠ (SHEET_NAME, BUDGETS_SHEET) → remote s' !! h = remote s !! h.
Proof.
  intros ws s.
  apply (update_budget_row_appends (λ _, "") s SHEET_NAME ws "food" 80).
  - apply empty_cache_coherent.
  - apply lookup_singleton_eq.
  - reflexivity.
  - discriminate.
  - apply (bool_decide_unpack _). by vm_compute.
Defined.

(** *** Tabs that hold what the sheet returns *)

Section ReadBack.
Variable entered : cell → cell.

Lemma row_cell_set_nth_pad (c k : nat) (v : cell) (r : list cell) :
  row_cell k (set_nth_pad blank c (λ _, v) r)
  = if decide (k = c) then v else row_cell k r.
Proof.
  unfold row_cell. destruct (decide (k = c)) as [->|Hne].
  - by rewrite set_nth_pad_lookup.
  - by apply set_nth_pad_default.
Qed.

Lemma as_read_update (c i : nat) (v : cell) (ws : worksheet) :
  as_read entered ws → kept entered v → (i < length (ws_body ws))%nat →
  as_read entered (ws_update c (i + 2) v ws).
Proof.
  intros Hws Hv Hi. replace (i + 2)%nat with (S (S i)) by lia.
  unfold ws_update, as_read. cbn [ws_body]. rewrite set_nth_pad_alter by done.
  intros r' [j Hj]%list_elem_of_lookup k.
  destruct (decide (j = i)) as [->|Hne].
  - rewrite list_lookup_alter_eq in Hj.
    destruct (ws_body ws !! i) as [r|] eqn:Hr; [|done]. injection Hj as <-.
    unfold kept. rewrite row_cell_set_nth_pad. case_decide; [done|].
    apply Hws. by eapply list_elem_of_lookup_2.
  - rewrite list_lookup_alter_ne in Hj by done.
    apply Hws. by eapply list_elem_of_lookup_2.
Qed.

Lemma as_read_append (row : list cell) (ws : worksheet) :
  as_read entered ws → row_kept entered row →
  as_read entered (ws_append_row row ws).
Proof.
  intros Hws Hrow r. unfold ws_append_row. cbn [ws_body].
  rewrite elem_of_app, list_elem_of_singleton. intros [Hr| ->]; [by apply Hws|done].
Qed.

Lemma ws_update_length (c i : nat) (v : cell) (ws : worksheet) :
  (i < length (ws_body ws))%nat →
  length (ws_body (ws_update c (i + 2) v ws)) = length (ws_body ws).
Proof.
  intros Hi. replace (i + 2)%nat with (S (S i)) by lia.
  unfold ws_update. cbn [ws_body]. rewrite set_nth_pad_alter by done.
  apply length_alter.
Qed.

Lemma as_read_upserted (num_str : Q → string) (category : string) (amount : Q)
    (ws : worksheet) :
  as_read entered ws → row_kept entered [CStr category; CNum amount] →
  as_read entered (upserted num_str category amount ws).
Proof.
  intros Hws Hrow. unfold upserted.
  destruct (first_index category (key_column num_str 0 ws)) as [i|] eqn:Ei.
  - apply first_index_first_match, first_match_in_range in Ei.
    rewrite key_column_length in Ei.
    apply as_read_update; [done | apply (Hrow 1%nat) | done].
  - by apply as_read_append.
Qed.

Lemma as_read_upserted_goal (num_str : Q → string) (goal_name : string)
    (target current : Q) (ws : worksheet) :
  as_read entered ws →
  row_kept entered [CStr goal_name; CNum target; CNum current] →
  as_read entered (upserted_goal num_str goal_name target current ws).
Proof.
  intros Hws Hrow. unfold upserted_goal.
  destruct (first_index goal_name (key_column num_str 0 ws)) as [i|] eqn:Ei.
  - apply first_index_first_match, first_match_in_range in Ei.
    rewrite key_column_length in Ei.
    apply as_read_update; [|apply (Hrow 2%nat)|by rewrite ws_update_length].
    apply as_read_update; [done | apply (Hrow 1%nat) | done].
  - by apply as_read_append.
Qed.

End ReadBack.

(** X7: the budget form on a Budgets tab with rows, when the tab holds
    what the sheet returns and the category and the amount come back from
    the sheet as they were sent (a category such as "007", which comes back
    as the number 7, is not covered).  The handler succeeds and empties the
    cache; the reload returns the tab as the handler left it, which is
    again what the sheet returns; the category is then a key of the tab and
    its first row carries the new amount, and it is the only row of the
    category when no key was listed twice before; submitting the same
    values again leaves store and cache exactly as they are. *)
Theorem budget_form_round_trip (num_str : Q → string) (entered : cell → cell)
    (s : state) (ws : worksheet) (new_cat : string) (amount : Q) :
  new_cat ≠ "" → cache_coherent s →
  remote s !! (SHEET_NAME, BUDGETS_SHEET) = Some ws →
  ws_header ws = budgets_schema → ws_body ws ≠ [] →
  as_read entered ws → row_kept entered [CStr new_cat; CNum amount] →
  ∃ s' ws',
    budget_submit num_str new_cat amount s = (Done (), s')
    ∧ cache s' = ∅
    ∧ remote s' = <[(SHEET_NAME, BUDGETS_SHEET) := ws']> (remote s)
    ∧ as_read entered ws'
    ∧ (load_sheet_dataframe BUDGETS_SHEET SHEET_NAME s').1
      = Done (mkDataFrame (ws_header ws) (ws_body ws'), (SHEET_NAME, BUDGETS_SHEET))
    ∧ (∃ i r, first_match (key_column num_str 0 ws') new_cat i
              ∧ ws_body ws' !! i = Some r ∧ row_cell 1 r = CNum amount)
    ∧ (NoDup (key_column num_str 0 ws) →
       ∃ i, ∀ j, key_column num_str 0 ws' !! j = Some new_cat ↔ j = i)
    ∧ budget_submit num_str new_cat amount s' = (Done (), s').
Proof.
  intros Hcat Hcoh Hws Hhd Hbody Hread Hkept.
  destruct (budget_submit_then_reload num_str s ws new_cat amount)
    as (Hrun & Hload & Hagain); [done..|].
  eexists _, (upserted num_str new_cat amount ws).
  split; [exact Hrun|]. split; [done|]. split; [done|].
  split; [by apply as_read_upserted|]. split; [exact Hload|].
  split; [|split; [|exact Hagain]].
  - destruct (upserted_row num_str new_cat amount ws) as (i & r & Hfm & Hr & Hv & _).
    by exists i, r.
  - intros Hnd.
    destruct (upserted_exactly_one num_str new_cat amount ws Hnd) as (i & r & Hone & _).
    by exists i.
Qed.

Lemma budget_form_round_trip_witness :
  let entered := λ c, match c with CStr "007" => CNum 7 | _ => c end in
  let ws := mkWorksheet budgets_schema [[CStr "Food"; CNum 500]; [CStr "Rent"; CNum 1200]] in
  let s := mkState {[ (SHEET_NAME, BUDGETS_SHEET) := ws ]} ∅ in
  ∃ s' ws',
    budget_submit (λ _, "") "Rent" 1300 s = (Done (), s')
    ∧ cache s' = ∅
    ∧ remote s' = <[(SHEET_NAME, BUDGETS_SHEET) := ws']> (remote s)
    ∧ as_read entered ws'
    ∧ (load_sheet_dataframe BUDGETS_SHEET SHEET_NAME s').1
      = Done (mkDataFrame (ws_header ws) (ws_body ws'), (SHEET_NAME, BUDGETS_SHEET))
    ∧ (∃ i r, first_match (key_column (λ _, "") 0 ws') "Rent" i
              ∧ ws_body ws' !! i = Some r ∧ row_cell 1 r = CNum 1300)
    ∧ (NoDup (key_column (λ _, "") 0 ws) →
       ∃ i, ∀ j, key_column (λ _, "") 0 ws' !! j = Some "Rent" ↔ j = i)
    ∧ budget_submit (λ _, "") "Rent" 1300 s' = (Done (), s').
Proof.
  intros entered ws s.
  apply (budget_form_round_trip (λ _, "") entered s ws "Rent" 1300).
  - discriminate.
  - apply empty_cache_coherent.
  - apply lookup_singleton_eq.
  - reflexivity.
  - discriminate.
  - intros r Hr k. simpl in Hr.
    apply elem_of_cons in Hr as [->|Hr]; [by destruct k as [|[|[|k]]]|].
    apply list_elem_of_singleton in Hr as ->. by destruct k as [|[|[|k]]].
  - intros k. by destruct k as [|[|[|k]]].
Defined.

(** X8: [update_budget_row] alone is not idempotent.  Called twice for a
    new category without clearing the cache in between, the second call
    still sees the frame from before the first write and appends the
    category a second time. *)
Theorem update_budget_row_twice_duplicates (num_str : Q → string) (s : state)
    (sp : string) (ws : worksheet) (category : string) (amount : Q) :
  cache_coherent s → remote s !! (sp, BUDGETS_SHEET) = Some ws →
  ws_header ws = budgets_schema → ws_body ws ≠ [] →
  category ∉ key_column num_str 0 ws →
  ∃ s', (update_budget_row num_str category amount sp;;
         update_budget_row num_str category amount sp)%run s = (Done (), s')
    ∧ remote s' !! (sp, BUDGETS_SHEET)
      = Some (mkWorksheet (ws_header ws)
                (ws_body ws ++ [[CStr category; CNum amount];
                                [CStr category; CNum amount]])).
Proof.
  intros Hcoh Hws Hhd Hbody Hnew. unfold bind at 1.
  rewrite (update_budget_row_run num_str s sp ws category amount 0); [|done..|];
    [|rewrite Hhd; apply column_index_head].
  pose proof Hnew as Hnone. apply first_index_None in Hnone. rewrite Hnone.
  rewrite (update_budget_row_from_cache num_str _ sp (records_frame ws)
             (ws_append_row [CStr category; CNum amount] ws) category amount 0).
  - rewrite records_frame_rows. fold (key_column num_str 0 ws). rewrite Hnone.
    eexists. split; [done|]. cbn [remote]. rewrite lookup_insert_eq.
    unfold ws_append_row. cbn [ws_header ws_body]. by rewrite <- app_assoc.
  - cbn [cache]. apply lookup_insert_eq.
  - cbn [remote]. apply lookup_insert_eq.
  - unfold records_frame. destruct (ws_body ws); [done|].
    cbn [df_columns]. rewrite Hhd. apply column_index_head.
Qed.

Lemma update_budget_row_twice_duplicates_witness :
  let ws := mkWorksheet budgets_schema [[CStr "Food"; CNum 500]] in
  let s := mkState {[ (SHEET_NAME, BUDGETS_SHEET) := ws ]} ∅ in
  ∃ s', (update_budget_row (λ _, "") "Rent" 1200 SHEET_NAME;;
         update_budget_row (λ _, "") "Rent" 1200 SHEET_NAME)%run s = (Done (), s')
    ∧ remote s' !! (SHEET_NAME, BUDGETS_SHEET)
      = Some (mkWorksheet budgets_schema
                [[CStr "Food"; CNum 500]; [CStr "Rent"; CNum 1200];
                 [CStr "Rent"; CNum 1200]]).
Proof.
  intros ws s.
  apply (update_budget_row_twice_duplicates (λ _, "") s SHEET_NAME ws "Rent" 1200).
  - apply empty_cache_coherent.
  - apply lookup_singleton_eq.
  - reflexivity.
  - discriminate.
  - apply (bool_decide_unpack _). by vm_compute.
Defined.

(** ** The goal writer *)

Section GoalUpsert.
Variable num_str : Q → string.

Lemma set_nth_pad_comm {A} (d : A) (c1 c2 : nat) (v1 v2 : A) (l : list A) :
  c1 ≠ c2 →
  set_nth_pad d c1 (λ _, v1) (set_nth_pad d c2 (λ _, v2) l)
  = set_nth_pad d c2 (λ _, v2) (set_nth_pad d c1 (λ _, v1) l).
Proof.
  revert c2 l. induction c1 as [|c1 IH]; intros [|c2] [|x l] Hne; simpl;
    try done; f_equal; apply IH; lia.
Qed.

Lemma set_nth_pad_compose {A} (d : A) (f g : A → A) (i : nat) (l : list A) :
  set_nth_pad d i g (set_nth_pad d i f l) = set_nth_pad d i (λ x, g (f x)) l.
Proof.
  revert l. induction i as [|i IH]; intros [|x l]; simpl; rewrite ?IH; done.
Qed.

Lemma set_nth_pad_ext {A} (d : A) (f g : A → A) (i : nat) (l : list A) :
  (∀ x, f x = g x) → set_nth_pad d i f l = set_nth_pad d i g l.
Proof.
  intros Hfg. revert l. induction i as [|i IH]; intros [|x l]; simpl;
    rewrite ?Hfg, ?IH; done.
Qed.

Lemma ws_update_pair_idem (c1 c2 line : nat) (v1 v2 : cell) (ws : worksheet) :
  c1 ≠ c2 →
  ws_update c2 line v2 (ws_update c1 line v1
    (ws_update c2 line v2 (ws_update c1 line v1 ws)))
  = ws_update c2 line v2 (ws_update c1 line v1 ws).
Proof.
  intros Hne. destruct line as [|[|i]]; try done. unfold ws_update.
  cbn [ws_header ws_body]. f_equal. rewrite !set_nth_pad_compose.
  apply set_nth_pad_ext. intros r.
  rewrite (set_nth_pad_comm blank c1 c2) by done.
  rewrite (set_nth_pad_idem blank (λ _, v2)) by done.
  by rewrite (set_nth_pad_idem blank (λ _, v1)) by done.
Qed.

Lemma upserted_goal_header (goal_name : string) (target current : Q) (ws : worksheet) :
  ws_header (upserted_goal num_str goal_name target current ws) = ws_header ws.
Proof.
  unfold upserted_goal. destruct (first_index _ _) as [i|]; [|done].
  by replace (i + 2)%nat with (S (S i)) by lia.
Qed.

Lemma upserted_goal_body_nonempty (goal_name : string) (target current : Q)
    (ws : worksheet) :
  ws_body (upserted_goal num_str goal_name target current ws) ≠ [].
Proof.
  unfold upserted_goal. destruct (first_index _ _) as [i|].
  - replace (i + 2)%nat with (S (S i)) by lia. unfold ws_update. cbn [ws_body].
    by destruct i, (ws_body ws).
  - unfold ws_append_row. cbn [ws_body]. by destruct (ws_body ws).
Qed.

Lemma upserted_goal_row (goal_name : string) (target current : Q) (ws : worksheet) :
  ∃ i r,
    first_match (key_column num_str 0 (upserted_goal num_str goal_name target current ws))
      goal_name i
    ∧ ws_body (upserted_goal num_str goal_name target current ws) !! i = Some r
    ∧ row_cell 1 r = CNum target ∧ row_cell 2 r = CNum current
    ∧ key_column num_str 0 (upserted_goal num_str goal_name target current ws)
      = (if decide (goal_name ∈ key_column num_str 0 ws)
         then key_column num_str 0 ws
         else key_column num_str 0 ws ++ [goal_name]).
Proof.
  unfold upserted_goal.
  destruct (first_index goal_name (key_column num_str 0 ws)) as [i|] eqn:Ei.
  - apply first_index_first_match in Ei.
    pose proof (first_match_in_range _ _ _ Ei) as Hi. rewrite key_column_length in Hi.
    destruct (ws_update_twice_in_place 1 2 (CNum target) (CNum current) i ws)
      as (_ & Hup); [done..|].
    pose proof Hup as (_ & _ & r & r' & _ & Hr' & Hset & _).
    assert (key_column num_str 0
              (ws_update 2 (i + 2) (CNum current) (ws_update 1 (i + 2) (CNum target) ws))
            = key_column num_str 0 ws) as Hkeys
      by (eapply updated_in_place_keys; [|done]; set_solver).
    exists i, r'. rewrite Hkeys. split; [done|]. split; [done|].
    split; [apply Hset; in_list|]. split; [apply Hset; in_list|].
    rewrite decide_True; [done|]. destruct Ei as [Ei _]. by eapply list_elem_of_lookup_2.
  - apply first_index_None in Ei. rewrite key_column_append.
    exists (length (ws_body ws)), [CStr goal_name; CNum target; CNum current].
    split; [|split; [|split; [|split]]]; try done.
    + apply first_index_first_match.
      rewrite <- (key_column_length num_str 0). by apply first_index_snoc.
    + unfold ws_append_row. cbn [ws_body].
      by rewrite lookup_app_r, Nat.sub_diag by lia.
    + by rewrite decide_False.
Qed.

Lemma upserted_goal_idem (goal_name : string) (target current : Q) (ws : worksheet) :
  upserted_goal num_str goal_name target current
    (upserted_goal num_str goal_name target current ws)
  = upserted_goal num_str goal_name target current ws.
Proof.
  unfold upserted_goal at 2 3.
  destruct (first_index goal_name (key_column num_str 0 ws)) as [i|] eqn:Ei.
  - pose proof Ei as Hfm. apply first_index_first_match in Hfm.
    pose proof (first_match_in_range _ _ _ Hfm) as Hi. rewrite key_column_length in Hi.
    destruct (ws_update_twice_in_place 1 2 (CNum target) (CNum current) i ws)
      as (_ & Hup); [done..|].
    assert (key_column num_str 0
              (ws_update 2 (i + 2) (CNum current) (ws_update 1 (i + 2) (CNum target) ws))
            = key_column num_str 0 ws) as Hkeys
      by (eapply updated_in_place_keys; [|done]; set_solver).
    unfold upserted_goal. rewrite Hkeys, Ei. by apply ws_update_pair_idem.
  - pose proof Ei as Hnone. apply first_index_None in Hnone.
    unfold upserted_goal. rewrite key_column_append, first_index_snoc by done.
    rewrite key_column_length. unfold ws_update, ws_append_row.
    replace (length (ws_body ws) + 2)%nat with (S (S (length (ws_body ws)))) by lia.
    cbn [ws_header ws_body]. by rewrite !set_nth_pad_snoc.
Qed.

Lemma update_goal_row_no_rows (s : state) (sp : string) (ws : worksheet)
    (goal_name : string) (target current : Q) :
  cache_coherent s → remote s !! (sp, GOALS_SHEET) = Some ws → ws_body ws = [] →
  update_goal_row num_str goal_name target current sp s
  = (Raised KeyError,
     mkState (remote s) (<[(GOALS_SHEET, sp) := mkDataFrame [] []]> (cache s))).
Proof.
  intros Hcoh Hws Hbody. unfold update_goal_row, bind.
  rewrite (load_sheet_dataframe_coherent s _ _ ws) by done.
  unfold df_getitem, records_frame. rewrite Hbody. done.
Qed.

End GoalUpsert.

(** X9: on a Goals tab that holds its header and no data row the loaded
    frame has no "Goal Name" column: [update_goal_row] raises KeyError, and
    the goal form stops there, with nothing written and the cache not
    cleared. *)
Theorem goal_form_fails_on_empty_tab (num_str : Q → string) (s : state)
    (ws : worksheet) (goal_name : string) (target current : Q) :
  goal_name ≠ "" → cache_coherent s →
  remote s !! (SHEET_NAME, GOALS_SHEET) = Some ws → ws_body ws = [] →
  (goal_submit num_str goal_name target current s).1 = Raised KeyError
  ∧ remote (goal_submit num_str goal_name target current s).2 = remote s
  ∧ cache (goal_submit num_str goal_name target current s).2 ≠ ∅.
Proof.
  intros Hname Hcoh Hws Hbody. unfold goal_submit, bind.
  rewrite decide_False by done.
  rewrite (update_goal_row_no_rows num_str s SHEET_NAME ws) by done.
  cbn [fst snd remote cache]. split; [done|]. split; [done|].
  intros He. apply (f_equal (λ m, m !! (GOALS_SHEET, SHEET_NAME))) in He.
  by rewrite lookup_insert_eq, lookup_empty in He.
Qed.

Lemma goal_form_fails_on_empty_tab_witness :
  let ws := mkWorksheet goals_schema [] in
  let s := mkState {[ (SHEET_NAME, GOALS_SHEET) := ws ]} ∅ in
  (goal_submit (λ _, "") "Vacation" 3000 500 s).1 = Raised KeyError
  ∧ remote (goal_submit (λ _, "") "Vacation" 3000 500 s).2 = remote s
  ∧ cache (goal_submit (λ _, "") "Vacation" 3000 500 s).2 ≠ ∅.
Proof.
  intros ws s. apply (goal_form_fails_on_empty_tab (λ _, "") s ws "Vacation" 3000 500).
  - discriminate.
  - apply empty_cache_coherent.
  - apply lookup_singleton_eq.
  - reflexivity.
Defined.

(** X10: the goal form on a Goals tab with rows, when the tab holds what
    the sheet returns and the goal name and the two amounts come back from
    the sheet as they were sent (a name such as "007" is not covered).  The
    handler succeeds and empties the cache; the goal is then a key of the
    tab and its first row carries the new target in column B and the new
    saved amount in column C (a goal that was missing is appended as a full
    row); the reload returns that tab, which is again what the sheet
    returns; submitting the same values again leaves store and cache
    exactly as they are. *)
Theorem goal_form_round_trip (num_str : Q → string) (entered : cell → cell)
    (s : state) (ws : worksheet) (goal_name : string) (target current : Q) :
  goal_name ≠ "" → cache_coherent s →
  remote s !! (SHEET_NAME, GOALS_SHEET) = Some ws →
  ws_header ws = goals_schema → ws_body ws ≠ [] →
  as_read entered ws →
  row_kept entered [CStr goal_name; CNum target; CNum current] →
  ∃ s' ws',
    goal_submit num_str goal_name target current s = (Done (), s')
    ∧ cache s' = ∅
    ∧ remote s' = <[(SHEET_NAME, GOALS_SHEET) := ws']> (remote s)
    ∧ as_read entered ws'
    ∧ (load_sheet_dataframe GOALS_SHEET SHEET_NAME s').1
      = Done (mkDataFrame (ws_header ws) (ws_body ws'), (SHEET_NAME, GOALS_SHEET))
    ∧ (∃ i r, first_match (key_column num_str 0 ws') goal_name i
              ∧ ws_body ws' !! i = Some r
              ∧ row_cell 1 r = CNum target ∧ row_cell 2 r = CNum current)
    ∧ (goal_name ∉ key_column num_str 0 ws →
       ws_body ws' = ws_body ws ++ [[CStr goal_name; CNum target; CNum current]])
    ∧ goal_submit num_str goal_name target current s' = (Done (), s').
Proof.
  intros Hname Hcoh Hws Hhd Hbody Hread Hkept.
  assert (∀ s0 ws0, cache_coherent s0 →
            remote s0 !! (SHEET_NAME, GOALS_SHEET) = Some ws0 →
            ws_header ws0 = goals_schema → ws_body ws0 ≠ [] →
            goal_submit num_str goal_name target current s0
            = (Done (), mkState (<[(SHEET_NAME, GOALS_SHEET) :=
                                     upserted_goal num_str goal_name target current ws0]>
                                   (remote s0)) ∅))
    as Hrun.
  { intros s0 ws0 Hc0 Hw0 Hh0 Hb0. unfold goal_submit, bind.
    rewrite decide_False by done.
    rewrite (update_goal_row_run num_str s0 SHEET_NAME ws0 goal_name target current 0);
      [done..|]. rewrite Hh0. apply column_index_head. }
  set (ws' := upserted_goal num_str goal_name target current ws).
  pose proof (upserted_goal_body_nonempty num_str goal_name target current ws) as Hne.
  pose proof (upserted_goal_header num_str goal_name target current ws) as Hh.
  fold ws' in Hne, Hh.
  eexists _, ws'. split; [by apply Hrun|]. split; [done|]. split; [done|].
  split; [by apply as_read_upserted_goal|].
  split; [|split; [|split]].
  - unfold load_sheet_dataframe. cbn [remote cache].
    rewrite lookup_empty, lookup_insert_eq. cbn [fst]. fold ws'. do 2 f_equal.
    unfold records_frame. destruct (ws_body ws') eqn:E; [done|]. by rewrite Hh.
  - destruct (upserted_goal_row num_str goal_name target current ws)
      as (i & r & Hfm & Hr & Ht & Hc & _). by exists i, r.
  - intros Hnew. unfold ws', upserted_goal.
    apply first_index_None in Hnew. by rewrite Hnew.
  - rewrite (Hrun _ ws').
    + cbn [remote]. unfold ws'. by rewrite upserted_goal_idem, insert_insert_eq.
    + apply empty_cache_coherent.
    + cbn [remote]. apply lookup_insert_eq.
    + by rewrite Hh.
    + done.
Qed.

Lemma goal_form_round_trip_witness :
  let entered := λ c, match c with CStr "007" => CNum 7 | _ => c end in
  let ws := mkWorksheet goals_schema [[CStr "Vacation"; CNum 3000; CNum 500]] in
  let s := mkState {[ (SHEET_NAME, GOALS_SHEET) := ws ]} ∅ in
  ∃ s' ws',
    goal_submit (λ _, "") "Car" 9000 100 s = (Done (), s')
    ∧ cache s' = ∅
    ∧ remote s' = <[(SHEET_NAME, GOALS_SHEET) := ws']> (remote s)
    ∧ as_read entered ws'
    ∧ (load_sheet_dataframe GOALS_SHEET SHEET_NAME s').1
      = Done (mkDataFrame (ws_header ws) (ws_body ws'), (SHEET_NAME, GOALS_SHEET))
    ∧ (∃ i r, first_match (key_column (λ _, "") 0 ws') "Car" i
              ∧ ws_body ws' !! i = Some r
              ∧ row_cell 1 r = CNum 9000 ∧ row_cell 2 r = CNum 100)
    ∧ ("Car" ∉ key_column (λ _, "") 0 ws →
       ws_body ws' = ws_body ws ++ [[CStr "Car"; CNum 9000; CNum 100]])
    ∧ goal_submit (λ _, "") "Car" 9000 100 s' = (Done (), s').
Proof.
  intros entered ws s.
  apply (goal_form_round_trip (λ _, "") entered s ws "Car" 9000 100).
  - discriminate.
  - apply empty_cache_coherent.
  - apply lookup_singleton_eq.
  - reflexivity.
  - discriminate.
  - intros r Hr k. simpl in Hr.
    apply list_elem_of_singleton in Hr as ->. by destruct k as [|[|[|[|k]]]].
  - intros k. by destruct k as [|[|[|[|k]]]].
Defined.

(** ** Normalisation: a header without a required column *)

Lemma column_index_None (name : string) (cols : list string) :
  column_index name cols = None ↔ name ∉ cols.
Proof.
  unfold column_index. rewrite fmap_None, list_find_None, Forall_forall. split.
  - intros H Hin. by apply (H name).
  - intros H x Hx ->. done.
Qed.

(** X11: a table that has rows but whose header lacks a column the
    normaliser converts fails with KeyError: "Date" for Transactions,
    "Monthly Budget" for Budgets, "Target Amount" or "Current Saved" for
    Goals.  Transactions whose dates all convert fail the same way when
    "Amount" is missing. *)
Theorem normalize_missing_column (parse_datetime : string → option Timestamp)
    (number_datetime : Q → option Timestamp) (parse_number : string → option Q)
    (df : DataFrame cell) :
  df_empty df = false →
  ("Date" ∉ df_columns df →
   normalize_transactions parse_datetime number_datetime parse_number df
   = Raised KeyError)
  ∧ (∀ kd, column_index "Date" (df_columns df) = Some kd →
       (∀ r, r ∈ df_data df →
          to_datetime_cell parse_datetime number_datetime (row_cell kd r) ≠ None) →
       "Amount" ∉ df_columns df →
       normalize_transactions parse_datetime number_datetime parse_number df
       = Raised KeyError)
  ∧ ("Monthly Budget" ∉ df_columns df →
     normalize_budgets parse_number df = Raised KeyError)
  ∧ ("Target Amount" ∉ df_columns df ∨ "Current Saved" ∉ df_columns df →
     normalize_goals parse_number df = Raised KeyError).
Proof.
  intros Hne. split; [|split; [|split]].
  - intros H%column_index_None. unfold normalize_transactions. by rewrite Hne, H.
  - intros kd Hkd Hok H%column_index_None. unfold normalize_transactions.
    rewrite Hne, Hkd, H.
    destruct (mapM (M := option) _ (df_data df)) as [dates|] eqn:Ed; [done|].
    apply mapM_None, Exists_exists in Ed as (r & Hr & Hbad). by destruct (Hok r Hr).
  - intros H%column_index_None. unfold normalize_budgets. by rewrite Hne, H.
  - intros H. unfold normalize_goals. rewrite Hne.
    destruct (column_index "Target Amount" (df_columns df)) as [kt|] eqn:Et; [|done].
    destruct (column_index "Current Saved" (df_columns df)) as [kc|] eqn:Ec; [|done].
    destruct H as [H%column_index_None|H%column_index_None]; congruence.
Qed.

Lemma normalize_missing_column_witness :
  let df := mkDataFrame ["Category"; "Budget"] [[CStr "Food"; CNum 500]] in
  normalize_budgets (λ _, None) df = Raised KeyError.
Proof.
  intros df.
  apply (proj1 (proj2 (proj2 (normalize_missing_column (λ _, None) (λ _, None)
                                (λ _, None) df eq_refl)))).
  apply (bool_decide_unpack _). by vm_compute.
Defined.

(** ** The expense form *)


(** ** The dashboard *)

Lemma date_mask_in_range (start_date end_date : date) (t : Transaction) :
  col_ge (Date t) start_date && col_le (Date t) end_date = true
  ↔ in_range start_date end_date t.
Proof.
  unfold in_range, col_ge, col_le. destruct (Date t); simpl.
  - by rewrite andb_true_iff, !date_le_on_or_before.
  - split; [discriminate|tauto].
Qed.

Lemma filterByDateRange_as_filter (transactions : list Transaction)
    (start_date end_date : date) :
  filterByDateRange transactions start_date end_date
  = filter (in_range start_date end_date) transactions.
Proof.
  unfold filterByDateRange, date_mask. apply loc_mask_filter.
  intros t. apply date_mask_in_range.
Qed.

Lemma months_nil (df_filtered : list Transaction) :
  months df_filtered = [] ↔ df_filtered = [].
Proof.
  split.
  - intros Hm. destruct df_filtered as [|t l]; [done|].
    assert (period_str (Date t) ∈ months (t :: l)) as Hin
      by (apply months_elem_of; exists t; split; [left|done]).
    rewrite Hm in Hin. by apply elem_of_nil in Hin.
  - by intros ->.
Qed.

(** X13: the month selector.  It is empty exactly when no transaction
    passed the date filter; and every month it lists has at least one
    transaction, all of that month. *)
Theorem months_have_rows (df_filtered : list Transaction) :
  (months df_filtered = [] ↔ df_filtered = [])
  ∧ Forall (λ k, df_month df_filtered k ≠ []
                 ∧ Forall (λ t, period_str (Date t) = k) (df_month df_filtered k))
      (months df_filtered).
Proof.
  split; [apply months_nil|]. apply Forall_forall. intros k Hk.
  apply months_elem_of in Hk as (t & Ht & ->). rewrite df_month_filter. split.
  - intros Hnil. assert (t ∈ filter (λ u, period_str (Date u) = period_str (Date t))
                                 df_filtered) as Hin by by apply list_elem_of_filter.
    rewrite Hnil in Hin. by apply elem_of_nil in Hin.
  - apply Forall_forall. by intros u [Hu _]%list_elem_of_filter.
Qed.

(** X14: what the dashboard tab shows.  Without any transaction: the
    first notice.  With transactions but none in the date range: the second
    notice.  Otherwise the summary of the last listed month, whose rows are
    exactly the transactions in the range that fall in that month, and
    there is at least one. *)
Theorem dashboard_view_spec (transactions_df : list Transaction)
    (start_date end_date : date) :
  match dashboard transactions_df start_date end_date with
  | NoTransactionsYet => transactions_df = []
  | NoTransactionsInRange =>
      transactions_df ≠ [] ∧ filter (in_range start_date end_date) transactions_df = []
  | MonthView selected_month df_month =>
      last (months (filter (in_range start_date end_date) transactions_df))
      = Some selected_month
      ∧ df_month ≠ []
      ∧ df_month = filter (λ t, period_str (Date t) = selected_month
                               ∧ in_range start_date end_date t) transactions_df
  end.
Proof.
  unfold dashboard. destruct transactions_df as [|t0 l]; [done|].
  rewrite filterByDateRange_as_filter.
  set (df := filter (in_range start_date end_date) (t0 :: l)).
  destruct (default_month (months df)) as [m|] eqn:Em.
  - assert (last (months df) = Some m) as Hlast.
    { rewrite last_lookup. unfold default_month in Em.
      by replace (Init.Nat.pred (length (months df))) with (length (months df) - 1)%nat
        by lia. }
    split; [done|]. rewrite df_month_filter. split.
    + apply last_Some_elem_of in Hlast.
      apply months_elem_of in Hlast as (t & Ht & ->).
      intros Hnil. assert (t ∈ filter (λ u, period_str (Date u) = period_str (Date t)) df)
        as Hin by by apply list_elem_of_filter.
      rewrite Hnil in Hin. by apply elem_of_nil in Hin.
    + unfold df. by rewrite list_filter_filter.
  - split; [done|]. apply months_nil. unfold default_month in Em.
    apply lookup_ge_None in Em. destruct (months df); [done|]. simpl in Em. lia.
Qed.

Lemma on_or_before_trans (a b c : date) :
  on_or_before a b → on_or_before b c → on_or_before a c.
Proof. unfold on_or_before. lia. Qed.

(** X15: a date range whose start lies after its end selects nothing, so
    the dashboard shows the notice for an empty range. *)
Theorem reversed_range_selects_nothing (transactions_df : list Transaction)
    (start_date end_date : date) :
  ¬ on_or_before start_date end_date →
  filterByDateRange transactions_df start_date end_date = []
  ∧ (transactions_df ≠ [] →
     dashboard transactions_df start_date end_date = NoTransactionsInRange).
Proof.
  intros Hrev.
  assert (filterByDateRange transactions_df start_date end_date = []) as Hnil.
  { rewrite filterByDateRange_as_filter. apply elem_of_nil_inv.
    intros t [Hr _]%list_elem_of_filter. unfold in_range in Hr.
    destruct (Date t); [|done]. destruct Hr as [H1 H2].
    apply Hrev. by eapply on_or_before_trans. }
  split; [done|]. intros Hne. unfold dashboard.
  destruct transactions_df; [done|]. by rewrite Hnil.
Qed.

Lemma reversed_range_selects_nothing_witness :
  let txns := [mkTransaction (Some (mkTimestamp 2025 10 3 0)) "Food" "groceries" 300
                 "Visa" "" "You"] in
  filterByDateRange txns (mkDate 2025 10 31) (mkDate 2025 10 1) = []
  ∧ (txns ≠ [] →
     dashboard txns (mkDate 2025 10 31) (mkDate 2025 10 1) = NoTransactionsInRange).
Proof.
  intros txns.
  apply (reversed_range_selects_nothing txns (mkDate 2025 10 31) (mkDate 2025 10 1)).
  unfold on_or_before. simpl. lia.
Defined.

(** X16: filtering a filtered frame keeps the transactions that lie in both
    ranges; in particular filtering again by the same range changes
    nothing. *)
Theorem filterByDateRange_twice (transactions_df : list Transaction)
    (s1 e1 s2 e2 : date) :
  filterByDateRange (filterByDateRange transactions_df s1 e1) s2 e2
  = filter (λ t, in_range s2 e2 t ∧ in_range s1 e1 t) transactions_df
  ∧ filterByDateRange (filterByDateRange transactions_df s1 e1) s1 e1
    = filterByDateRange transactions_df s1 e1.
Proof.
  rewrite !filterByDateRange_as_filter. split.
  - apply list_filter_filter.
  - by apply list_filter_filter_l.
Qed.

Lemma NoDup_all_equal (l : list string) (k : string) :
  NoDup l → (∀ x, x ∈ l → x = k) → l = [] ∨ l = [k].
Proof.
  intros Hnd Hall. destruct l as [|x [|y l]]; [by left| |].
  - right. f_equal. apply Hall. left.
  - exfalso. apply NoDup_cons in Hnd as [Hx _]. apply Hx.
    rewrite (Hall x), (Hall y); [left|in_list..].
Qed.

(** X17: the sidebar's default range, from the first day of today's month
    to today, keeps only transactions of the current month up to today; the
    month selector then lists the current month at most. *)
Theorem default_range_is_current_month (transactions_df : list Transaction)
    (today : date) :
  let df_filtered := filterByDateRange transactions_df (default_start today) today in
  Forall (in_month_to_date today) df_filtered
  ∧ (months df_filtered = []
     ∨ months df_filtered = [month_key (d_year today) (d_month today)]).
Proof.
  intros df_filtered.
  assert (Forall (in_month_to_date today) df_filtered) as Hall.
  { unfold df_filtered. rewrite filterByDateRange_as_filter. apply Forall_forall.
    intros t [Hr _]%list_elem_of_filter. unfold in_range, in_month_to_date in *.
    destruct (Date t) as [ts|]; [|done]. unfold on_or_before, default_start in Hr.
    simpl in Hr. lia. }
  split; [done|]. apply NoDup_all_equal; [apply unique_from_NoDup|].
  intros k (t & Ht & ->)%months_elem_of.
  apply (proj1 (Forall_forall _ _) Hall) in Ht. unfold in_month_to_date in Ht.
  destruct (Date t) as [ts|]; [|done]. simpl. by destruct Ht as (-> & -> & _).
Qed.

(** ** Totals *)

Lemma sum_list_app (l1 l2 : list Q) :
  (sum_list (l1 ++ l2) == sum_list l1 + sum_list l2)%Q.
Proof.
  induction l1 as [|x l1 IH]; simpl.
  - by rewrite Qplus_0_l.
  - rewrite IH. apply Qplus_assoc.
Qed.


Lemma sum_list_concat (ls : list (list Q)) :
  (sum_list (concat ls) == sum_list (sum_list <$> ls))%Q.
Proof.
  induction ls as [|l ls IH]; simpl; [reflexivity|].
  by rewrite sum_list_app, IH.
Qed.

Lemma sum_list_nonneg (l : list Q) : Forall (λ x, 0 <= x)%Q l → (0 <= sum_list l)%Q.
Proof.
  induction 1 as [|x l Hx _ IH]; simpl; [apply Qle_refl|].
  rewrite <- (Qplus_0_l 0). by apply Qplus_le_compat.
Qed.







(** ** Progress bars and labels *)

Lemma py_int_ge (n : Z) (x : Q) :
  (0 < n)%Z → (n ≤ py_int x)%Z ↔ (inject_Z n <= x)%Q.
Proof.
  intros Hn. rewrite py_int_truncate. unfold truncate.
  destruct (Qle_bool 0 x) eqn:E.
  - split.
    + intros H. apply Qle_trans with (inject_Z (Qfloor x)); [|apply Qfloor_le].
      by rewrite <- Zle_Qle.
    + intros H. apply Qfloor_resp_le in H. by rewrite Qfloor_Z in H.
  - assert (x < 0)%Q as Hx.
    { apply Qnot_le_lt. intros H. apply Qle_bool_iff in H. congruence. }
    assert (Qceiling x ≤ 0)%Z as Hc.
    { change 0%Z with (Qceiling 0). apply Qceiling_resp_le. by apply Qlt_le_weak. }
    split; [lia|]. intros H. exfalso.
    apply (Qlt_irrefl 0). apply Qlt_le_trans with (inject_Z n).
    + change 0%Q with (inject_Z 0). by rewrite <- Zlt_Qlt.
    + apply Qle_trans with x; [done|]. by apply Qlt_le_weak.
Qed.

Lemma py_int_range (x : Q) : (0 <= x <= 100)%Q → (0 ≤ py_int x ≤ 100)%Z.
Proof.
  intros [H0 H1]. rewrite py_int_truncate. unfold truncate.
  apply Qle_bool_iff in H0 as Hb. rewrite Hb. split.
  - change 0%Z with (Qfloor 0). by apply Qfloor_resp_le.
  - change 100%Z with (Qfloor 100). by apply Qfloor_resp_le.
Qed.

Lemma py_min_ge (n x : Q) : (n <= 100)%Q → (n <= py_min 100 x)%Q ↔ (n <= x)%Q.
Proof.
  intros Hn. rewrite py_min_Qmin. rewrite Q.min_glb_iff. tauto.
Qed.

(** A threshold on the percentage is a threshold on the amounts. *)
Lemma pct_threshold (n : Z) (spent budget : Q) :
  (0 < n ≤ 100)%Z → (0 < budget)%Q →
  (n ≤ py_int (used_pct spent budget))%Z
  ↔ (inject_Z n * budget <= 100 * spent)%Q.
Proof.
  intros [Hn0 Hn1] Hb. unfold used_pct.
  assert (¬ budget == 0)%Q as Hnz.
  { intros H. rewrite H in Hb. by apply Qlt_irrefl in Hb. }
  destruct (Qeq_bool budget 0) eqn:E; [by apply Qeq_bool_iff in E|].
  rewrite py_int_ge by done. rewrite py_min_ge.
  - rewrite <- (Qmult_le_r _ _ budget) by done.
    assert (spent / budget * 100 * budget == 100 * spent)%Q as -> by (by field).
    reflexivity.
  - change 100%Q with (inject_Z 100). by rewrite <- Zle_Qle.
Qed.



Lemma category_total_nonneg (rows : list Transaction) (c : string) :
  amounts_nonneg rows → (0 <= category_total rows c)%Q.
Proof.
  intros Hpos. unfold category_total, sum_amounts.
  apply (sum_list_nonneg (Amount <$> filter (λ t, Category t = c) rows)).
  apply Forall_fmap, Forall_forall. intros t [_ Ht]%list_elem_of_filter.
  by apply (proj1 (Forall_forall _ _) Hpos).
Qed.

(** X21: when no transaction amount and no budget is negative, every line
    of the month's budget comparison has its UsedPct in [0, 100] and an
    integer percentage that the progress bar accepts. *)
Theorem budget_lines_fit_progress_bar (df_month : list Transaction)
    (budgets_df : list BudgetEntry) :
  amounts_nonneg df_month → budgets_nonneg budgets_df →
  Forall (λ r, (0 <= UsedPct r <= 100)%Q ∧ progress_accepts (row_pct r) = true)
    (budgetComparison (sumByCategory df_month) budgets_df).
Proof.
  intros Hpos Hbud. rewrite budgetComparison_rows. apply Forall_fmap, Forall_forall.
  intros b Hb. simpl.
  assert (0 <= used_pct (category_total df_month (bCategory b)) (MonthlyBudget b)
          <= 100)%Q as Hrange.
  { split; [|apply used_pct_le_100]. apply used_pct_nonneg.
    - by apply category_total_nonneg.
    - by apply (proj1 (Forall_forall _ _) Hbud). }
  split; [done|]. unfold progress_accepts, row_pct. simpl.
  apply py_int_range in Hrange. apply andb_true_iff. split; apply Z.leb_le; lia.
Qed.

Lemma budget_lines_fit_progress_bar_witness :
  let df_month :=
    [mkTransaction (Some (mkTimestamp 2025 10 3 0)) "Food" "groceries" 520 "Visa" "" "You"] in
  let budgets := [mkBudgetEntry "Food" 500; mkBudgetEntry "Rent" 0] in
  Forall (λ r, (0 <= UsedPct r <= 100)%Q ∧ progress_accepts (row_pct r) = true)
    (budgetComparison (sumByCategory df_month) budgets).
Proof.
  intros df_month budgets. apply (budget_lines_fit_progress_bar df_month budgets).
  - repeat constructor; by vm_compute.
  - repeat constructor; by vm_compute.
Defined.

(** X22: the goal percentage of a goal with a non-negative saved amount
    is an integer from 0 to 100, which the progress bar accepts; for a
    positive target it is 100 exactly when the saved amount has reached the
    target. *)
Theorem goalProgress_fits_progress_bar (g : GoalEntry) :
  (0 <= CurrentSaved g)%Q →
  ∃ pct, goalProgress g = Some pct
    ∧ (0 ≤ pct ≤ 100)%Z ∧ progress_accepts pct = true
    ∧ ((0 < TargetAmount g)%Q →
       (pct = 100%Z ↔ (TargetAmount g <= CurrentSaved g)%Q)).
Proof.
  intros Hc. destruct (Qlt_le_dec 0 (TargetAmount g)) as [Ht|Ht].
  - rewrite (goalProgress_with_target g Ht). eexists. split; [done|].
    rewrite <- py_int_truncate. unfold clamp_pct. rewrite <- py_min_Qmin.
    assert (Qeq_bool (TargetAmount g) 0 = false) as Hz.
    { destruct (Qeq_bool (TargetAmount g) 0) eqn:E; [|done].
      apply Qeq_bool_iff in E. rewrite E in Ht. by apply Qlt_irrefl in Ht. }
    assert (py_min 100 (CurrentSaved g / TargetAmount g * 100)
            = used_pct (CurrentSaved g) (TargetAmount g)) as ->
      by (unfold used_pct; by rewrite Hz).
    assert (0 ≤ py_int (used_pct (CurrentSaved g) (TargetAmount g)) ≤ 100)%Z as Hr.
    { apply py_int_range. split; [|apply used_pct_le_100].
      apply used_pct_nonneg; [done | by apply Qlt_le_weak]. }
    split; [done|]. split.
    + unfold progress_accepts. apply andb_true_iff. split; apply Z.leb_le; lia.
    + intros _.
      pose proof (pct_threshold 100 (CurrentSaved g) (TargetAmount g) ltac:(lia) Ht)
        as H100.
      change (inject_Z 100) with 100%Q in H100. rewrite !(Qmult_comm 100) in H100.
      rewrite Qmult_le_r in H100 by reflexivity. rewrite <- H100. lia.
  - rewrite (goalProgress_no_target g Ht). exists 0%Z. split; [done|].
    split; [lia|]. split; [done|]. intros Hpos. exfalso.
    by apply (Qlt_not_le _ _ Hpos).
Qed.

Lemma goalProgress_fits_progress_bar_witness :
  ∃ pct, goalProgress (mkGoalEntry "Vacation" 3000 3500) = Some pct
    ∧ (0 ≤ pct ≤ 100)%Z ∧ progress_accepts pct = true
    ∧ ((0 < 3000)%Q → (pct = 100%Z ↔ (3000 <= 3500)%Q)).
Proof.
  apply (goalProgress_fits_progress_bar (mkGoalEntry "Vacation" 3000 3500)).
  by vm_compute.
Defined.




(** ** The handlers along a run *)

(** X24: no stale frame along a session.  Starting from a cache in which
    every frame is what a fresh read of its tab would give, after any
    sequence of loads, expiries of cache entries and submits of the three
    forms the cache is again so, and therefore the next load of any tab of
    any spreadsheet returns the rows that the tab holds at that moment. *)
Theorem session_never_stale (num_str : Q → string) (es : list event) (s : state) :
  cache_coherent s →
  let s' := run_events num_str es s in
  cache_coherent s'
  ∧ ∀ sheet_name sp df h s'',
      load_sheet_dataframe sheet_name sp s' = (Done (df, h), s'') →
      ∃ ws, remote s' !! (sp, sheet_name) = Some ws ∧ df = records_frame ws.
Proof.
  intros Hcoh s'.
  assert (cache_coherent s') as Hcoh'.
  { unfold s', run_events. clear s'. revert s Hcoh.
    induction es as [|e es IH]; intros s Hcoh; [done|].
    cbn [foldl]. apply IH.
    destruct (submit_keeps_coherent num_str s Hcoh) as (He & Hb & Hg).
    destruct e as [sh sp|sh sp|row|new_cat amount|goal_name target current];
      cbn [run_event].
    - by apply load_sheet_dataframe_keeps_coherent.
    - intros sh' sp' df. cbn [cache remote]. intros Hl.
      apply lookup_delete_Some in Hl as [_ Hl]. by apply Hcoh.
    - apply He.
    - apply Hb.
    - apply Hg. }
  split; [done|].
  intros sheet_name sp df h s'' Hload. unfold load_sheet_dataframe in Hload.
  destruct (cache s' !! (sheet_name, sp)) as [df'|] eqn:Ec.
  - injection Hload as <- _ _. by apply Hcoh'.
  - destruct (remote s' !! (sp, sheet_name)) as [ws|] eqn:Er; [|done].
    injection Hload as <- _ _. eauto.
Qed.

Lemma session_never_stale_witness :
  let ws := mkWorksheet budgets_schema [[CStr "Food"; CNum 500]] in
  let s := mkState {[ (SHEET_NAME, BUDGETS_SHEET) := ws ]} ∅ in
  cache_coherent
    (run_events (λ _, "")
       [Load BUDGETS_SHEET SHEET_NAME; SubmitBudget "Rent" 1200;
        Load BUDGETS_SHEET SHEET_NAME; Expire BUDGETS_SHEET SHEET_NAME] s).
Proof.
  intros ws s.
  apply (session_never_stale (λ _, "")
           [Load BUDGETS_SHEET SHEET_NAME; SubmitBudget "Rent" 1200;
            Load BUDGETS_SHEET SHEET_NAME; Expire BUDGETS_SHEET SHEET_NAME] s).
  apply empty_cache_coherent.
Defined.

(** X25: the expense form on the default spreadsheet, through to the
    normalised frame, when the Transactions tab holds what the sheet
    returns and every cell of the new row comes back from the sheet as it
    was sent (a description or a note such as "123", which comes back as a
    number, is not covered).  The handler appends the row and empties the
    cache; the tab is again what the sheet returns; the reload returns the
    old rows followed by the new row; and when the dates of the tab and of
    the new row convert, normalisation keeps every row and the new row
    comes last, its amount being the number the form sent and its text
    cells the texts of the form. *)
Theorem expense_form_round_trip (parse_datetime : string → option Timestamp)
    (number_datetime : Q → option Timestamp) (parse_number : string → option Q)
    (entered : cell → cell) (s : state) (ws : worksheet)
    (date_in category_in desc_in : string) (amount_in : Q)
    (method_in notes_in payer_in : string) :
  let row := expense_row date_in category_in desc_in amount_in
               method_in notes_in payer_in in
  remote s !! (SHEET_NAME, TRANSACTIONS_SHEET) = Some ws →
  ws_header ws = transactions_schema →
  as_read entered ws → row_kept entered row →
  (∀ r, r ∈ ws_body ws ++ [row] →
     to_datetime_cell parse_datetime number_datetime (row_cell 0 r) ≠ None) →
  ∃ s' s'' rows r' d,
    add_expense_submit row s = (Done (), s')
    ∧ cache s' = ∅
    ∧ as_read entered (ws_append_row row ws)
    ∧ load_sheet_dataframe TRANSACTIONS_SHEET SHEET_NAME s'
      = (Done (mkDataFrame transactions_schema (ws_body ws ++ [row]),
               (SHEET_NAME, TRANSACTIONS_SHEET)), s'')
    ∧ normalize_transactions parse_datetime number_datetime parse_number
        (mkDataFrame transactions_schema (ws_body ws ++ [row]))
      = Done (mkDataFrame transactions_schema rows)
    ∧ length rows = S (length (ws_body ws))
    ∧ last rows = Some r'
    ∧ to_datetime_cell parse_datetime number_datetime (CStr date_in) = Some d
    ∧ row_value 0 r' = d
    ∧ row_value 1 r' = VCell (CStr category_in)
    ∧ row_value 2 r' = VCell (CStr desc_in)
    ∧ row_value 3 r' = VFloat amount_in
    ∧ row_value 4 r' = VCell (CStr method_in)
    ∧ row_value 5 r' = VCell (CStr notes_in)
    ∧ row_value 6 r' = VCell (CStr payer_in).
Proof.
  intros row Hws Hhd Hread Hkept Hdates.
  destruct (add_expense_then_reload s ws row Hws) as (s' & s'' & Hrun & Hc & Hload).
  rewrite Hhd in Hload.
  set (df := mkDataFrame transactions_schema (ws_body ws ++ [row])).
  destruct (normalize_transactions_ok parse_datetime number_datetime parse_number
              df 0 3) as (rows & Hnorm & Hlen & Hrows).
  - unfold df, df_empty. cbn [df_columns df_data]. by destruct (ws_body ws).
  - reflexivity.
  - reflexivity.
  - exact Hdates.
  - cbn [df_data df] in Hlen, Hrows. rewrite length_app in Hlen. simpl in Hlen.
    destruct (Hrows (length (ws_body ws)) row) as (r' & d & Hr' & Hd & Hk & Hother).
    { unfold df. cbn [df_data]. by rewrite lookup_app_r, Nat.sub_diag by lia. }
    exists s', s'', rows, r', d.
    split; [done|]. split; [done|]. split; [by apply as_read_append|].
    split; [done|]. split; [done|].
    split; [lia|]. split.
    { rewrite last_lookup. rewrite <- Hr'. f_equal. lia. }
    split; [exact Hd|].
    split; [apply Hk; in_list|].
    assert (∀ j, j ≠ 0%nat → j ≠ 3%nat → row_value j r' = VCell (row_cell j row)) as Hj.
    { intros j H0 H3. apply Hother. simpl. rewrite !not_elem_of_cons.
      split; [done|]. split; [done|]. apply not_elem_of_nil. }
    split; [by apply Hj|]. split; [by apply Hj|].
    split; [apply Hk; in_list|].
    split; [by apply Hj|]. split; by apply Hj.
Qed.

Lemma expense_form_round_trip_witness :
  let parse_datetime := λ s, if decide (s = "2025-10-07")
                             then Some (mkTimestamp 2025 10 7 0) else None in
  let entered := λ c, match c with CStr "123" => CNum 123 | _ => c end in
  let ws := mkWorksheet transactions_schema [] in
  let s := mkState {[ (SHEET_NAME, TRANSACTIONS_SHEET) := ws ]} ∅ in
  let row := expense_row "2025-10-07" "Food" "lunch" 12.5 "Visa" "" "You" in
  ∃ s' s'' rows r' d,
    add_expense_submit row s = (Done (), s')
    ∧ cache s' = ∅
    ∧ as_read entered (ws_append_row row ws)
    ∧ load_sheet_dataframe TRANSACTIONS_SHEET SHEET_NAME s'
      = (Done (mkDataFrame transactions_schema (ws_body ws ++ [row]),
               (SHEET_NAME, TRANSACTIONS_SHEET)), s'')
    ∧ normalize_transactions parse_datetime (λ _, None) (λ _, None)
        (mkDataFrame transactions_schema (ws_body ws ++ [row]))
      = Done (mkDataFrame transactions_schema rows)
    ∧ length rows = S (length (ws_body ws))
    ∧ last rows = Some r'
    ∧ to_datetime_cell parse_datetime (λ _, None) (CStr "2025-10-07") = Some d
    ∧ row_value 0 r' = d
    ∧ row_value 1 r' = VCell (CStr "Food")
    ∧ row_value 2 r' = VCell (CStr "lunch")
    ∧ row_value 3 r' = VFloat 12.5
    ∧ row_value 4 r' = VCell (CStr "Visa")
    ∧ row_value 5 r' = VCell (CStr "")
    ∧ row_value 6 r' = VCell (CStr "You").
Proof.
  intros parse_datetime entered ws s row.
  apply (expense_form_round_trip parse_datetime (λ _, None) (λ _, None) entered s ws
           "2025-10-07" "Food" "lunch" 12.5 "Visa" "" "You").
  - apply lookup_singleton_eq.
  - reflexivity.
  - intros r Hr. by apply elem_of_nil in Hr.
  - intros k. by do 8 (destruct k as [|k]; [done|]).
  - intros r [->|[]%elem_of_nil]%elem_of_cons. discriminate.
Defined.
